(** * Catalog integrity and order ledger of the sales application (app.py)

    A shallow embedding of the canonicalization function, the supplier and
    product import, the order ledger and the schema migration of [app.py],
    with the properties stated by the specification.

    Conventions.
    - A Python [str] whose code points are all below 256 is a Rocq [string]
      holding one [ascii] per code point (so U+00D7, the multiplication
      sign, is the single character 215).  On that range [str.strip] and
      [str.lower] are closed and are modelled exactly.
    - A Python [float] is an IEEE-754 binary64 value, a [spec_float] of the
      standard library computed with precision 53 and maximal exponent 1024.
    - The SQLite store is passed explicitly; a view returns the new store
      together with its response. *)

From Stdlib Require Import ZArith Bool List Ascii String Lia.
From Stdlib Require Import SpecFloat DecimalString.
From stdpp Require Import gmap strings list.

Local Open Scope string_scope.

(** ** Python strings *)

Module PyStr.

(** [str.isspace] on one code point below 256. *)
Definition is_space (c : ascii) : bool :=
  let n := nat_of_ascii c in
  (((9 <=? n) && (n <=? 13)) || ((28 <=? n) && (n <=? 32))
   || (n =? 133) || (n =? 160))%nat.

(** [str.lower] on one code point below 256: A-Z and the Latin-1 capitals
    U+00C0..U+00DE, the multiplication sign U+00D7 excepted, move up by 32. *)
Definition lower_char (c : ascii) : ascii :=
  let n := nat_of_ascii c in
  if (((65 <=? n) && (n <=? 90))
      || ((192 <=? n) && (n <=? 222) && negb (n =? 215)))%nat
  then ascii_of_nat (n + 32) else c.

(** [s.lower()] for a text of code points below 256, where it maps
    character by character; on other texts [str.lower] can change the
    length (U+0130 becomes two code points). *)
Fixpoint lower (s : string) : string :=
  match s with
  | EmptyString => EmptyString
  | String c s' => String (lower_char c) (lower s')
  end.

Fixpoint lstrip (s : string) : string :=
  match s with
  | EmptyString => EmptyString
  | String c s' => if is_space c then lstrip s' else s
  end.

Fixpoint rstrip (s : string) : string :=
  match s with
  | EmptyString => EmptyString
  | String c s' =>
      match rstrip s' with
      | EmptyString => if is_space c then EmptyString else String c EmptyString
      | r => String c r
      end
  end.

(** [s.strip()] *)
Definition strip (s : string) : string := rstrip (lstrip s).

(** [sub in s] *)
Fixpoint contains (sub s : string) : bool :=
  String.prefix sub s ||
  match s with
  | EmptyString => false
  | String _ s' => contains sub s'
  end.

(** The scan of [s.replace(old, new)] for a non-empty [old]: [skip] counts
    the characters of the current match still to be passed over. *)
Fixpoint replace_go (old new : string) (skip : nat) (s : string) : string :=
  match s with
  | EmptyString => EmptyString
  | String c s' =>
      match skip with
      | S k => replace_go old new k s'
      | O =>
          if String.prefix old s
          then new ++ replace_go old new (String.length old - 1) s'
          else String c (replace_go old new 0 s')
      end
  end.

(** With an empty [old], Python puts [new] before every character and at
    the end. *)
Fixpoint intersperse (new s : string) : string :=
  match s with
  | EmptyString => new
  | String c s' => new ++ String c (intersperse new s')
  end.

(** [s.replace(old, new)]: all non-overlapping occurrences, leftmost first. *)
Definition replace (old new s : string) : string :=
  match old with
  | EmptyString => intersperse new s
  | _ => replace_go old new 0 s
  end.

(** [s.endswith(suffix)]: [suffix] is [s] or the end of its tail. *)
Fixpoint endswith (suffix s : string) : bool :=
  String.eqb suffix s ||
  match s with
  | EmptyString => false
  | String _ s' => endswith suffix s'
  end.

(** [s[:-2]]: all but the last two characters. *)
Fixpoint drop_last2 (s : string) : string :=
  match s with
  | String c ((String _ (String _ _)) as s') => String c (drop_last2 s')
  | _ => EmptyString
  end.

(** Cased code points below 256: the ASCII and Latin-1 letters, the
    ordinal indicators and the micro sign. *)
Definition is_cased (c : ascii) : bool :=
  let n := nat_of_ascii c in
  (((65 <=? n) && (n <=? 90)) || ((97 <=? n) && (n <=? 122))
   || (n =? 170) || (n =? 181) || (n =? 186)
   || ((192 <=? n) && (n <=? 214)) || ((216 <=? n) && (n <=? 246))
   || ((248 <=? n) && (n <=? 255)))%nat.

(** Title case of one code point: a-z and U+00E0..U+00FE, the division
    sign excepted, move down by 32.  The title case of U+00B5, U+00DF and
    U+00FF lies beyond code point 255; they are kept as they are, which no
    comparison with an ASCII word can tell apart. *)
Definition title_char (c : ascii) : ascii :=
  let n := nat_of_ascii c in
  if (((97 <=? n) && (n <=? 122))
      || ((224 <=? n) && (n <=? 254) && negb (n =? 247)))%nat
  then ascii_of_nat (n - 32) else c.

Fixpoint title_go (previous_is_cased : bool) (s : string) : string :=
  match s with
  | EmptyString => EmptyString
  | String c s' =>
      String (if previous_is_cased then lower_char c else title_char c)
        (title_go (is_cased c) s')
  end.

(** [s.title()] *)
Definition title (s : string) : string := title_go false s.

End PyStr.

(** ** Canonicalization (app.py, [_canon] and [_canon_pair]) *)

Definition times_sign : string := String (ascii_of_nat 215) EmptyString.

(** [while "  " in s: s = s.replace("  ", " ")], the loop unrolled [fuel]
    times; [collapse_spaces] gives it the length of the string, which the
    loop cannot exceed since every round removes a character. *)
Fixpoint collapse_loop (fuel : nat) (s : string) : string :=
  match fuel with
  | O => s
  | S f =>
      if PyStr.contains "  " s
      then collapse_loop f (PyStr.replace "  " " " s)
      else s
  end.

Definition collapse_spaces (s : string) : string :=
  collapse_loop (String.length s) s.

Definition squeeze_x (s : string) : string :=
  PyStr.replace "x " "x" (PyStr.replace " x" "x" (PyStr.replace " x " "x" s)).

Definition norm_pk (s : string) : string :=
  PyStr.replace "pkts" "pk" (PyStr.replace "pkt" "pk" s).

Definition norm_g (s : string) : string :=
  PyStr.replace "gm" "g" (PyStr.replace "gms" "g"
    (PyStr.replace " gm" " g" (PyStr.replace " gms" " g" s))).

Definition norm_kg (s : string) : string :=
  PyStr.replace "kgs" "kg" (PyStr.replace " kgs" " kg" s).

Definition norm_ml (s : string) : string :=
  PyStr.replace "mls" "ml" (PyStr.replace " mls" " ml" s).

Definition fold_tail (letter : string) (s : string) : string :=
  if PyStr.endswith (" " ++ letter) s then PyStr.drop_last2 s ++ letter else s.

Definition _canon (text : string) : string :=
  match text with
  | EmptyString => ""
  | _ =>
      let s := PyStr.lower (PyStr.strip text) in
      let s := PyStr.replace times_sign "x" s in
      let s := collapse_spaces s in
      let s := squeeze_x s in
      let s := norm_pk s in
      let s := norm_g s in
      let s := norm_kg s in
      let s := norm_ml s in
      let s := PyStr.replace "  " " " s in
      let s := fold_tail "z" s in
      let s := fold_tail "v" s in
      s
  end.

(** [f"{prod_name or ''} {pack or ''}".strip()], then [_canon]; a missing
    value ([None]) is [None] here. *)
Definition or_empty (o : option string) : string :=
  match o with Some s => s | None => "" end.

Definition _canon_pair (prod_name pack : option string) : string :=
  _canon (PyStr.strip (or_empty prod_name ++ " " ++ or_empty pack)).

(** *** The shape of a canonical key *)

Fixpoint all_chars (f : ascii -> bool) (s : string) : bool :=
  match s with
  | EmptyString => true
  | String c s' => f c && all_chars f s'
  end.

(** [s[n:]] *)
Fixpoint string_drop (n : nat) (s : string) : string :=
  match n, s with
  | S k, String _ s' => string_drop k s'
  | _, _ => s
  end.

Definition first_char (s : string) : option ascii :=
  match s with
  | EmptyString => None
  | String c _ => Some c
  end.

Fixpoint last_char (s : string) : option ascii :=
  match s with
  | EmptyString => None
  | String c s' =>
      match last_char s' with
      | None => Some c
      | some => some
      end
  end.

Definition not_space (o : option ascii) : bool :=
  match o with
  | Some c => negb (PyStr.is_space c)
  | None => true
  end.

(** No two neighbours of [s], nor [prev] and the first character of [s],
    are in the relation [bad]. *)
Fixpoint no_bad (bad : ascii -> ascii -> bool) (prev : option ascii) (s : string)
  : bool :=
  match s with
  | EmptyString => true
  | String c s' =>
      match prev with
      | Some p => negb (bad p c)
      | None => true
      end && no_bad bad (Some c) s'
  end.

Definition is_sp (c : ascii) : bool := Ascii.eqb c " ".
Definition is_x (c : ascii) : bool := Ascii.eqb c "x".

(** Two spaces in a row. *)
Definition bad_sp_sp (p c : ascii) : bool := is_sp p && is_sp c.

(** A space before a space or before an [x]. *)
Definition bad_sp_any (p c : ascii) : bool := is_sp p && (is_sp c || is_x c).

(** A space next to a space or to an [x]. *)
Definition bad_tight (p c : ascii) : bool :=
  (is_sp p && (is_sp c || is_x c)) || (is_x p && is_sp c).

Definition lower_fixed (c : ascii) : bool := Ascii.eqb (PyStr.lower_char c) c.

Definition not_times (c : ascii) : bool := negb (Ascii.eqb c (ascii_of_nat 215)).

(** Trimmed and in lower case. *)
Definition trimmed (s : string) : Prop :=
  not_space (first_char s) = true
  /\ not_space (last_char s) = true
  /\ all_chars lower_fixed s = true.

(** What every key that [_canon] returns looks like: trimmed, in lower
    case, without multiplication sign, without a space next to a space or
    to an [x], and not ending in a space and [z] or [v]. *)
Definition canonical (s : string) : Prop :=
  trimmed s
  /\ all_chars not_times s = true
  /\ no_bad bad_tight None s = true
  /\ PyStr.endswith " z" s = false
  /\ PyStr.endswith " v" s = false.

(** The replacement of [old] by [new] keeps a text trimmed and in lower
    case: [new] is in lower case and puts a space at an end of the text
    only where [old] had one. *)
Definition keeps_trim (old new : string) : bool :=
  match first_char old, last_char old, first_char new, last_char new with
  | Some ho, Some lo, Some hn, Some ln =>
      all_chars lower_fixed new
      && (negb (PyStr.is_space hn) || PyStr.is_space ho)
      && (negb (PyStr.is_space ln) || PyStr.is_space lo)
  | _, _, _, _ => false
  end.

Definition same_class (a b : ascii) : bool :=
  Bool.eqb (is_sp a) (is_sp b) && Bool.eqb (is_x a) (is_x b).

(** The replacement keeps a text free of spaces next to a space or an
    [x]: [new] is free of them and its ends are of the kind of those of
    [old]. *)
Definition keeps_tight (old new : string) : bool :=
  match first_char old, last_char old, first_char new, last_char new with
  | Some ho, Some lo, Some hn, Some ln =>
      same_class ho hn && same_class lo ln && no_bad bad_tight None new
  | _, _, _, _ => false
  end.

(** None of the unit spellings that [_canon] rewrites occurs in [s]. *)
Definition unit_free (s : string) : Prop :=
  PyStr.contains "pkt" s = false
  /\ PyStr.contains "gm" s = false
  /\ PyStr.contains "kgs" s = false
  /\ PyStr.contains "mls" s = false.

(** ** Python floats and integers *)

Module PyNum.

Definition float : Type := spec_float.

Definition prec : Z := 53.
Definition emax : Z := 1024.

Definition add : float -> float -> float := SFadd prec emax.
Definition mul : float -> float -> float := SFmul prec emax.
Definition ltb : float -> float -> bool := SFltb.
Definition leb : float -> float -> bool := SFleb.

Definition zero : float := S754_zero false.

(** The exceptions the views meet when converting numbers. *)
Inductive exn : Type := ValueError | OverflowError.

Inductive res (A : Type) : Type :=
| Ok (a : A)
| Raise (e : exn).
Arguments Ok {A} a.
Arguments Raise {A} e.

(** [float(n)] for an [int]: the nearest double, [OverflowError] beyond
    the largest finite one. *)
Definition of_int (n : Z) : res float :=
  match binary_normalize prec emax n 0 false with
  | S754_infinity _ => Raise OverflowError
  | f => Ok f
  end.

(** [int(x)] for a [float]: truncation towards zero. *)
Definition to_int (x : float) : res Z :=
  match x with
  | S754_zero _ => Ok 0%Z
  | S754_nan => Raise ValueError
  | S754_infinity _ => Raise OverflowError
  | S754_finite s m e =>
      let a := match e with
               | Zneg p => Z.shiftr (Zpos m) (Zpos p)
               | _ => Z.shiftl (Zpos m) e
               end in
      Ok (if s then Z.opp a else a)
  end.

(** Truth value of a float: false exactly for the two zeros. *)
Definition truthy (x : float) : bool :=
  match x with S754_zero _ => false | _ => true end.

(** [n / d] rounded half to even, for [0 <= n] and [0 < d]. *)
Definition div_half_even (n d : Z) : Z :=
  let q := Z.div n d in
  let r := Z.modulo n d in
  match Z.compare (2 * r) d with
  | Lt => q
  | Gt => (q + 1)%Z
  | Eq => if Z.even q then q else (q + 1)%Z
  end.

(** The double nearest to [n / d] with sign [s], for [0 <= n], [0 < d]:
    what reading the decimal string back yields. *)
Definition of_ratio (s : bool) (n d : Z) : float :=
  match n, d with
  | Zpos pn, Zpos pd =>
      SFdiv prec emax (S754_finite s pn 0) (S754_finite false pd 0)
  | _, _ => S754_zero s
  end.

(** [round(x, 2)]: the exact binary value is rounded half to even to
    two decimals and the decimal result is read back as a double;
    infinities and NaN round to themselves. *)
Definition round2 (x : float) : float :=
  match x with
  | S754_finite s m e =>
      let hundredths :=
        match e with
        | Zneg p => div_half_even (Zpos m * 100) (Z.shiftl 1 (Zpos p))
        | _ => (Z.shiftl (Zpos m) e * 100)%Z
        end in
      of_ratio s hundredths 100
  | _ => x
  end.

(** A plain decimal numeral, digits with an optional sign and an optional
    fraction, read as [float] does; used to run the views on concrete
    forms. *)
Definition digit_of (c : ascii) : option Z :=
  let n := nat_of_ascii c in
  if ((48 <=? n) && (n <=? 57))%nat then Some (Z.of_nat (n - 48)) else None.

Fixpoint digits_go (acc : Z) (count : nat) (s : string) : option (Z * nat) :=
  match s with
  | EmptyString => Some (acc, count)
  | String c s' =>
      match digit_of c with
      | Some d => digits_go (10 * acc + d) (S count) s'
      | None => None
      end
  end.

Fixpoint split_dot (s : string) : string * option string :=
  match s with
  | EmptyString => (EmptyString, None)
  | String c s' =>
      if Ascii.eqb c "."%char then (EmptyString, Some s')
      else let '(a, b) := split_dot s' in (String c a, b)
  end.

Definition unsigned_decimal (s : string) : option (Z * Z) :=
  let '(ip, fp) := split_dot s in
  let fp := match fp with Some f => f | None => EmptyString end in
  match digits_go 0 0 ip, digits_go 0 0 fp with
  | Some (i, ni), Some (f, nf) =>
      if ((ni + nf) =? 0)%nat then None
      else Some ((i * 10 ^ Z.of_nat nf + f)%Z, (10 ^ Z.of_nat nf)%Z)
  | _, _ => None
  end.

Definition decimal_float (s : string) : option float :=
  let '(sign, body) :=
    match s with
    | String "-"%char s' => (true, s')
    | String "+"%char s' => (false, s')
    | _ => (false, s)
    end in
  match unsigned_decimal body with
  | Some (n, d) => Some (of_ratio sign n d)
  | None => None
  end.

Definition decimal_int (s : string) : option Z :=
  let '(sign, body) :=
    match s with
    | String "-"%char s' => (true, s')
    | String "+"%char s' => (false, s')
    | _ => (false, s)
    end in
  match body, digits_go 0 0 body with
  | String _ _, Some (n, _) => Some (if sign then Z.opp n else n)
  | _, _ => None
  end.

End PyNum.

(** ** The store

    The tables of the reconciled schema ([ensure_schema] runs at every
    login).  A table lists its rows in rowid order; [*_seq] is the
    AUTOINCREMENT counter that SQLite keeps for it.  [ensure_schema]
    keeps a table that is there, so a [products] table made by
    import_products.py still carries its constraint
    [UNIQUE(supplier_id, name)]: [product_name_unique] marks such a
    store. *)

Module Sql.

(** SQLite's [lower()] folds the ASCII capitals only. *)
Definition lower_char (c : ascii) : ascii :=
  let n := nat_of_ascii c in
  if ((65 <=? n) && (n <=? 90))%nat then ascii_of_nat (n + 32) else c.

Fixpoint lower (s : string) : string :=
  match s with
  | EmptyString => EmptyString
  | String c s' => String (lower_char c) (lower s')
  end.

(** The rowid of the next row of an AUTOINCREMENT table: one more than
    the largest rowid ever used. *)
Definition next_rowid (ids : list Z) (seq : Z) : Z :=
  (Z.max seq (fold_right Z.max 0 ids) + 1)%Z.

(** [COALESCE] over two nullable texts and a default. *)
Definition coalesce3 (a b : option string) (d : string) : string :=
  match a, b with
  | Some x, _ => x
  | None, Some y => y
  | None, None => d
  end.

(** Python binds an [int] to an SQLite INTEGER only within 64 bits. *)
Definition fits_int64 (n : Z) : bool :=
  ((- 2 ^ 63 <=? n) && (n <? 2 ^ 63))%Z.

(** A NaN bound to a REAL column is stored as NULL. *)
Definition real (x : PyNum.float) : option PyNum.float :=
  match x with S754_nan => None | _ => Some x end.

End Sql.

Record supplier := {
  s_id : Z;
  s_name : string
}.

Record product := {
  p_id : Z;
  p_supplier_id : option Z;
  p_product_name : option string;
  p_unit_pack_info : option string;
  p_name : option string
}.

Record user := {
  u_id : Z;
  u_username : string;
  u_role : string;
  u_full_name : option string
}.

(** One element of the [line_items] JSON array, as [orders_new] writes it. *)
Record line := {
  l_supplier_id : Z;
  l_product_id : Z;
  l_qty : Z;
  l_unit_price : PyNum.float;
  l_amount : PyNum.float;
  l_desc : option string
}.

(** A row of [orders].  [o_line_items] is the decoded JSON text: [None]
    for NULL, the empty text or text that is not JSON; [json.dumps] and
    [json.loads] are inverse on the values written here.  [o_rep_id] and
    [o_sales_rep_id] are the legacy representative columns, which exist
    only in stores that [has_rep_id] resp. [has_sales_rep_id] marks. *)
Record order := {
  o_id : Z;
  o_order_no : option string;
  o_created_at : option string;
  o_total : option PyNum.float;
  o_rep_id : option Z;
  o_sales_rep_id : option Z;
  o_supplier_id : option Z;
  o_product_id : option Z;
  o_quantity : option Z;
  o_unit_price : option PyNum.float;
  o_payment_method : option string;
  o_status : option string;
  o_delivery_date : option string;
  o_currency : option string;
  o_notes : option string;
  o_customer_name : option string;
  o_customer_location : option string;
  o_line_items : option (list line);
  o_sales_rep_name : option string
}.

Record store := {
  suppliers : list supplier;
  suppliers_seq : Z;
  products : list product;
  products_seq : Z;
  users : list user;
  orders : list order;
  orders_seq : Z;
  has_rep_id : bool;
  has_sales_rep_id : bool;
  order_no_unique : bool;
  product_name_unique : bool
}.

Definition set_suppliers (conn : store) (rows : list supplier) (seq : Z) : store :=
  {| suppliers := rows; suppliers_seq := seq;
     products := products conn; products_seq := products_seq conn;
     users := users conn;
     orders := orders conn; orders_seq := orders_seq conn;
     has_rep_id := has_rep_id conn; has_sales_rep_id := has_sales_rep_id conn;
     order_no_unique := order_no_unique conn;
     product_name_unique := product_name_unique conn |}.

Definition set_products (conn : store) (rows : list product) (seq : Z) : store :=
  {| suppliers := suppliers conn; suppliers_seq := suppliers_seq conn;
     products := rows; products_seq := seq;
     users := users conn;
     orders := orders conn; orders_seq := orders_seq conn;
     has_rep_id := has_rep_id conn; has_sales_rep_id := has_sales_rep_id conn;
     order_no_unique := order_no_unique conn;
     product_name_unique := product_name_unique conn |}.

Definition set_orders (conn : store) (rows : list order) (seq : Z) : store :=
  {| suppliers := suppliers conn; suppliers_seq := suppliers_seq conn;
     products := products conn; products_seq := products_seq conn;
     users := users conn;
     orders := rows; orders_seq := seq;
     has_rep_id := has_rep_id conn; has_sales_rep_id := has_sales_rep_id conn;
     order_no_unique := order_no_unique conn;
     product_name_unique := product_name_unique conn |}.

(** ** Catalog manager (app.py, [_upsert_supplier] and [products_upload]) *)

(** [SELECT id FROM suppliers WHERE lower(name)=lower(?)], first row. *)
Definition supplier_by_name (conn : store) (supplier_name : string) : option supplier :=
  List.find
    (fun row => String.eqb (Sql.lower (s_name row)) (Sql.lower supplier_name))
    (suppliers conn).

Definition _upsert_supplier (conn : store) (supplier_name : option string)
  : Z * store :=
  let supplier_name := PyStr.strip (or_empty supplier_name) in
  match supplier_name with
  | EmptyString => (0%Z, conn)
  | _ =>
      match supplier_by_name conn supplier_name with
      | Some row => (s_id row, conn)
      | None =>
          let lastrowid :=
            Sql.next_rowid (map s_id (suppliers conn)) (suppliers_seq conn) in
          (lastrowid,
           set_suppliers conn
             (suppliers conn ++ [{| s_id := lastrowid; s_name := supplier_name |}])
             lastrowid)
      end
  end.

(** A row of the uploaded CSV under the resolved headers; [None] is a
    missing cell, and [csv_unit] is [None] as well when the file has no
    unit column. *)
Record csv_row := {
  csv_supplier : option string;
  csv_product : option string;
  csv_unit : option string
}.

(** [_load_existing]: the keys of the products stored for [sid], read at
    the first touch of that supplier only. *)
Definition stored_keys (conn : store) (sid : Z) : gset string :=
  list_to_set
    (map (fun r =>
            _canon_pair
              (Some (Sql.coalesce3 (p_product_name r) (p_name r) ""))
              (Some (Sql.coalesce3 (p_unit_pack_info r) None "")))
       (List.filter
          (fun r => bool_decide (p_supplier_id r = Some sid)) (products conn))).

Definition _load_existing (conn : store) (existing_by_supplier : gmap Z (gset string))
    (sid : Z) : gmap Z (gset string) :=
  match existing_by_supplier !! sid with
  | Some _ => existing_by_supplier
  | None => <[sid := stored_keys conn sid]> existing_by_supplier
  end.

Record upload := {
  up_conn : store;
  up_existing : gmap Z (gset string);
  up_added : Z;
  up_skipped : Z
}.

Definition non_empty (s : string) : option string :=
  match s with EmptyString => None | _ => Some s end.

(** Whether [INSERT INTO products(supplier_id, product_name,
    unit_pack_info, name)] is refused: under the constraint
    [UNIQUE(supplier_id, name)] of a [products] table of the older shape,
    when a stored product of that supplier has that name. *)
Definition insert_refused (conn : store) (sid : Z) (product_name : string) : bool :=
  product_name_unique conn
  && existsb
       (fun p =>
          bool_decide (p_supplier_id p = Some sid)
          && bool_decide (p_name p = Some product_name))
       (products conn).

(** The body of the loop over the CSV rows; [None] is the
    [IntegrityError] of a refused INSERT, which nothing catches.
    [products] has the legacy column [name] in the reconciled schema, so
    [has_legacy_name] holds and the product name is written to it as
    well. *)
Definition upload_row (st : upload) (r : csv_row) : option upload :=
  let supplier_name := PyStr.strip (or_empty (csv_supplier r)) in
  let product_name := PyStr.strip (or_empty (csv_product r)) in
  let unit_pack := PyStr.strip (or_empty (csv_unit r)) in
  let skip :=
    {| up_conn := up_conn st; up_existing := up_existing st;
       up_added := up_added st; up_skipped := (up_skipped st + 1)%Z |} in
  match supplier_name, product_name with
  | EmptyString, _ | _, EmptyString => Some skip
  | _, _ =>
      let '(sid, conn) := _upsert_supplier (up_conn st) (Some supplier_name) in
      if (sid <=? 0)%Z then
        Some {| up_conn := conn; up_existing := up_existing st;
                up_added := up_added st; up_skipped := (up_skipped st + 1)%Z |}
      else
        let existing := _load_existing conn (up_existing st) sid in
        let cand := _canon_pair (Some product_name) (Some unit_pack) in
        if bool_decide (cand ∈ existing !!! sid) then
          Some {| up_conn := conn; up_existing := existing;
                  up_added := up_added st; up_skipped := (up_skipped st + 1)%Z |}
        else if insert_refused conn sid product_name then None
        else
          let id := Sql.next_rowid (map p_id (products conn)) (products_seq conn) in
          let row :=
            {| p_id := id; p_supplier_id := Some sid;
               p_product_name := Some product_name;
               p_unit_pack_info := non_empty unit_pack;
               p_name := Some product_name |} in
          Some {| up_conn := set_products conn (products conn ++ [row]) id;
                  up_existing := <[sid := {[cand]} ∪ existing !!! sid]> existing;
                  up_added := (up_added st + 1)%Z;
                  up_skipped := up_skipped st |}
  end.

(** The loop: an exception ends it. *)
Fixpoint upload_rows (st : upload) (rows : list csv_row) : option upload :=
  match rows with
  | [] => Some st
  | r :: rest =>
      match upload_row st r with
      | Some st' => upload_rows st' rest
      | None => None
      end
  end.

(** [products_upload] from the first row on: the store after the commit
    and the two counts of the flash message,
    [Products uploaded: added (skipped skipped)]; when the loop raises,
    the view answers 500 without a commit, so the store is as it was and
    no counts are reported. *)
Definition products_upload (conn : store) (rows : list csv_row)
  : store * option (Z * Z) :=
  match upload_rows
          {| up_conn := conn; up_existing := ∅; up_added := 0; up_skipped := 0 |}
          rows with
  | Some st => (up_conn st, Some (up_added st, up_skipped st))
  | None => (conn, None)
  end.

(** *** Supplier list upload (app.py, [suppliers_upload]) *)

Record supplier_upload := {
  su_conn : store;
  su_added : Z;
  su_skipped : Z
}.

(** The body of the loop over the CSV rows; [cell] is the value of the
    row under the resolved name header, [None] for a row that is too
    short. *)
Definition suppliers_upload_row (st : supplier_upload) (cell : option string)
  : supplier_upload :=
  let name := PyStr.strip (or_empty cell) in
  let skip :=
    {| su_conn := su_conn st; su_added := su_added st;
       su_skipped := (su_skipped st + 1)%Z |} in
  match name with
  | EmptyString => skip
  | _ =>
      match supplier_by_name (su_conn st) name with
      | Some _ => skip
      | None =>
          let conn := su_conn st in
          let id := Sql.next_rowid (map s_id (suppliers conn)) (suppliers_seq conn) in
          {| su_conn :=
               set_suppliers conn
                 (suppliers conn ++ [{| s_id := id; s_name := name |}]) id;
             su_added := (su_added st + 1)%Z;
             su_skipped := su_skipped st |}
      end
  end.

(** [suppliers_upload] from the first row on: the store after the commit
    and the two counts of the flash message,
    [Suppliers uploaded: added (skipped skipped)]. *)
Definition suppliers_upload (conn : store) (rows : list (option string))
  : store * (Z * Z) :=
  let st :=
    fold_left suppliers_upload_row rows
      {| su_conn := conn; su_added := 0; su_skipped := 0 |} in
  (su_conn st, (su_added st, su_skipped st)).

(** ** Order ledger (app.py, [orders_new], [orders_history] and
    [orders_update_status]) *)

(** What the views take from the interpreter and from SQLite: the parsers
    [float(str)] and [int(str)] ([None] is [ValueError]), the built-in
    [sum] over floats (additions from left to right up to Python 3.11,
    compensated ones from 3.12 on), SQLite's [date(text)], and the clock:
    [now_ts] is [datetime.now()] as [%Y-%m-%d %H:%M:%S], [today_iso] and
    [today_compact] are [date.today()] as [%Y-%m-%d] and [%Y%m%d], and
    [sql_today] is SQLite's [date('now')]. *)
Record runtime := {
  py_float : string -> option PyNum.float;
  py_int : string -> option Z;
  py_sum : list PyNum.float -> PyNum.float;
  sql_date : string -> option string;
  now_ts : string;
  today_iso : string;
  today_compact : string;
  sql_today : string
}.

(** The outcome of a view: a redirect with its flash message, [abort], or
    an uncaught exception (HTTP 500) that leaves the store as it was. *)
Inductive response : Type :=
| Redirect (endpoint category message : string)
| Abort (code : Z)
| ServerError.

(** The course of one pass of the loop over the submitted lines: a value,
    [continue] after a caught [ValueError], or an uncaught exception. *)
Inductive flow (A : Type) : Type :=
| Val (a : A)
| Skip
| Crash.
Arguments Val {A} a.
Arguments Skip {A}.
Arguments Crash {A}.

Definition flow_bind {A B : Type} (m : flow A) (k : A -> flow B) : flow B :=
  match m with
  | Val a => k a
  | Skip => Skip
  | Crash => Crash
  end.

Notation "x <~ m ;; k" := (flow_bind m (fun x => k))
  (at level 100, m at next level, right associativity).

Definition caught {A : Type} (o : option A) : flow A :=
  match o with Some a => Val a | None => Skip end.

Definition in_try {A : Type} (r : PyNum.res A) : flow A :=
  match r with
  | PyNum.Ok a => Val a
  | PyNum.Raise PyNum.ValueError => Skip
  | PyNum.Raise PyNum.OverflowError => Crash
  end.

(** [str.isdigit] below code point 256: the ASCII digits and the
    superscripts one, two and three. *)
Definition is_digit_char (c : ascii) : bool :=
  let n := nat_of_ascii c in
  (((48 <=? n) && (n <=? 57)) || (n =? 178) || (n =? 179) || (n =? 185))%nat.

Definition isdigit (s : string) : bool :=
  match s with
  | EmptyString => false
  | _ => all_chars is_digit_char s
  end.

Definition pad4 (n : Z) : string :=
  let d := DecimalString.NilZero.string_of_uint (N.to_uint (Z.to_N n)) in
  String.concat "" (repeat "0" (4 - String.length d)) ++ d.

Definition generate_order_no (rt : runtime) (conn : store) : string :=
  let c :=
    List.length
      (List.filter
         (fun o =>
            match o_created_at o with
            | Some t => bool_decide (sql_date rt t = Some (today_iso rt))
            | None => false
            end)
         (orders conn)) in
  "ORD-" ++ today_compact rt ++ "-" ++ pad4 (Z.of_nat c + 1).

Definition current_user_row (conn : store) (session_user_id : option Z) : option user :=
  match session_user_id with
  | None => None
  | Some uid =>
      if (uid =? 0)%Z then None
      else List.find (fun u => (u_id u =? uid)%Z) (users conn)
  end.

Record order_form := {
  f_customer_name : option string;
  f_customer_location : option string;
  f_notes : option string;
  f_comments : option string;
  f_payment_method : option string;
  f_delivery_date : option string;
  f_currency : option string;
  f_sales_rep : option string;
  f_amount : option string;
  f_supplier_ids : list string;
  f_product_ids : list string;
  f_qtys : list string;
  f_prices : list string;
  f_amounts : list string;
  f_descs : list string
}.

(** [x or y] on texts. *)
Definition str_or (x y : string) : string :=
  match x with EmptyString => y | _ => x end.

(** [float(raw or 0)] *)
Definition float_or_zero (rt : runtime) (raw : string) : option PyNum.float :=
  match raw with
  | EmptyString => Some PyNum.zero
  | _ => py_float rt raw
  end.

(** One pass of the loop that builds [lines]. *)
Definition parse_line (rt : runtime) (supplier_by_pid : gmap Z (option Z))
    (pid_raw sid_raw qty_raw prc_raw amt_raw dsc_raw : string) : flow (option line) :=
  pid_i <~ caught (match pid_raw with
                   | EmptyString => Some 0%Z
                   | _ => py_int rt pid_raw
                   end) ;;
  sid_i <~ caught (if isdigit (PyStr.strip sid_raw)
                   then py_int rt sid_raw else Some 0%Z) ;;
  sid_i <~ (if (sid_i <=? 0)%Z then
              match supplier_by_pid !! pid_i with
              | Some (Some owner) => Val owner
              | Some None => Crash
              | None => Val sid_i
              end
            else Val sid_i) ;;
  q_f <~ caught (float_or_zero rt qty_raw) ;;
  q_i <~ in_try (PyNum.to_int q_f) ;;
  pr_f <~ caught (float_or_zero rt prc_raw) ;;
  am_f <~ caught (float_or_zero rt amt_raw) ;;
  if ((pid_i <=? 0) || (q_i <=? 0))%Z then Val None
  else
    am_f <~ (if PyNum.leb am_f PyNum.zero && PyNum.ltb PyNum.zero pr_f
             then match PyNum.of_int q_i with
                  | PyNum.Ok q => Val (PyNum.round2 (PyNum.mul pr_f q))
                  | PyNum.Raise _ => Crash
                  end
             else Val am_f) ;;
    Val (Some {| l_supplier_id := sid_i; l_product_id := pid_i; l_qty := q_i;
                 l_unit_price := pr_f; l_amount := am_f;
                 l_desc := non_empty dsc_raw |}).

(** The loop over [range(len(product_ids_arr))]; [None] is an uncaught
    exception. *)
Fixpoint parse_lines (rt : runtime) (supplier_by_pid : gmap Z (option Z))
    (form : order_form) (indices : list nat) : option (list line) :=
  match indices with
  | [] => Some []
  | i :: rest =>
      let at_ (arr : list string) := nth i arr EmptyString in
      match parse_line rt supplier_by_pid
              (at_ (f_product_ids form)) (at_ (f_supplier_ids form))
              (at_ (f_qtys form)) (at_ (f_prices form))
              (at_ (f_amounts form)) (at_ (f_descs form)) with
      | Crash => None
      | Skip | Val None => parse_lines rt supplier_by_pid form rest
      | Val (Some l) =>
          match parse_lines rt supplier_by_pid form rest with
          | Some ls => Some (l :: ls)
          | None => None
          end
      end
  end.

(** [pids_needed]; [None] when [int] raises on a text that [isdigit]
    accepts. *)
Fixpoint pids_needed (rt : runtime) (product_ids_arr : list string) : option (list Z) :=
  match product_ids_arr with
  | [] => Some []
  | pid :: rest =>
      if isdigit (PyStr.strip pid) then
        match py_int rt pid, pids_needed rt rest with
        | Some n, Some ns => Some (n :: ns)
        | _, _ => None
        end
      else pids_needed rt rest
  end.

(** [{r["id"]: r["supplier_id"] for r in rows}] over the products whose id
    is needed. *)
Definition supplier_by_pid_of (conn : store) (needed : list Z) : gmap Z (option Z) :=
  list_to_map
    (map (fun r => (p_id r, p_supplier_id r))
       (List.filter (fun r => bool_decide (p_id r ∈ needed)) (rev (products conn)))).

(** [manual_total] *)
Definition manual_total_of (rt : runtime) (amount_in : option string) : PyNum.float :=
  match amount_in with
  | None | Some EmptyString => PyNum.zero
  | Some raw =>
      match py_float rt raw with
      | Some x => x
      | None => PyNum.zero
      end
  end.

(** The representative of a new order, when [orders] has a representative
    column: the caller, else the user named by the form, else [staff],
    else [admin]. *)
Definition resolve_rep (conn : store) (session_user_id : option Z)
    (sales_rep_text : string) : option Z :=
  match current_user_row conn session_user_id with
  | Some u => Some (u_id u)
  | None =>
      let by_text :=
        match sales_rep_text with
        | EmptyString => None
        | _ =>
            List.find
              (fun u =>
                 String.eqb (Sql.lower (u_username u)) (Sql.lower sales_rep_text)
                 || String.eqb (Sql.lower (or_empty (u_full_name u)))
                      (Sql.lower sales_rep_text))
              (users conn)
        end in
      let named (n : string) := List.find (fun u => String.eqb (u_username u) n) (users conn) in
      match by_text with
      | Some u => Some (u_id u)
      | None =>
          match named "staff" with
          | Some u => Some (u_id u)
          | None => option_map u_id (named "admin")
          end
      end
  end.

Definition positive_id (n : Z) : option Z :=
  if (n =? 0)%Z then None else Some n.

(** The POST branch of [orders_new], below its [login_required] guard. *)
Definition orders_new_post (rt : runtime) (conn : store)
    (session_user_id : option Z) (form : order_form) : store * response :=
  let customer_name := PyStr.strip (or_empty (f_customer_name form)) in
  let customer_location := PyStr.strip (or_empty (f_customer_location form)) in
  let notes :=
    PyStr.strip (str_or (or_empty (f_notes form)) (or_empty (f_comments form))) in
  let payment_method := str_or (PyStr.strip (or_empty (f_payment_method form))) "COD" in
  let delivery_date := non_empty (PyStr.strip (or_empty (f_delivery_date form))) in
  let currency := str_or (PyStr.strip (or_empty (f_currency form))) "KES" in
  let sales_rep_text := PyStr.strip (or_empty (f_sales_rep form)) in
  let manual_total := manual_total_of rt (f_amount form) in
  match pids_needed rt (f_product_ids form) with
  | None => (conn, ServerError)
  | Some needed =>
      let supplier_by_pid := supplier_by_pid_of conn needed in
      match parse_lines rt supplier_by_pid form
              (seq 0 (List.length (f_product_ids form))) with
      | None => (conn, ServerError)
      | Some [] => (conn, Redirect "orders_new" "error" "Add at least one item.")
      | Some ((first :: _) as lines) =>
          let computed_total := PyNum.round2 (py_sum rt (map l_amount lines)) in
          let total_to_save :=
            if PyNum.ltb PyNum.zero manual_total then manual_total else computed_total in
          let order_no := generate_order_no rt conn in
          let has_rep_col := has_sales_rep_id conn || has_rep_id conn in
          let rep_val :=
            if has_rep_col then resolve_rep conn session_user_id sales_rep_text
            else None in
          if has_rep_col && negb (bool_decide (is_Some rep_val)) then
            (conn, Redirect "orders_new" "error"
                     "Please log in or choose a valid Sales Rep.")
          else
            let id := Sql.next_rowid (map o_id (orders conn)) (orders_seq conn) in
            let row :=
              {| o_id := id;
                 o_order_no := Some order_no;
                 o_created_at := Some (now_ts rt);
                 o_total := Sql.real total_to_save;
                 o_rep_id := if has_sales_rep_id conn then None else rep_val;
                 o_sales_rep_id := if has_sales_rep_id conn then rep_val else None;
                 o_supplier_id := positive_id (l_supplier_id first);
                 o_product_id := Some (l_product_id first);
                 o_quantity := Some (l_qty first);
                 o_unit_price := Sql.real (l_unit_price first);
                 o_payment_method := Some payment_method;
                 o_status := Some "Pending";
                 o_delivery_date := delivery_date;
                 o_currency := Some currency;
                 o_notes := Some notes;
                 o_customer_name := Some customer_name;
                 o_customer_location := Some customer_location;
                 o_line_items := Some lines;
                 o_sales_rep_name := Some sales_rep_text |} in
            let bound :=
              Sql.fits_int64 (l_supplier_id first) && Sql.fits_int64 (l_product_id first)
              && Sql.fits_int64 (l_qty first) in
            let clash :=
              order_no_unique conn
              && existsb (fun o => bool_decide (o_order_no o = Some order_no)) (orders conn) in
            if bound && negb clash then
              (set_orders conn (orders conn ++ [row]) id,
               Redirect "orders_history" "success" ("Order " ++ order_no ++ " saved."))
            else (conn, ServerError)
      end
  end.

(** [login_required]: without a logged-in user the view is not run. *)
Definition login_required (view : store -> option Z -> store * response)
    (conn : store) (session_user_id : option Z) : store * response :=
  match current_user_row conn session_user_id with
  | None => (conn, Redirect "login" "info" "Please login to continue.")
  | Some _ => view conn session_user_id
  end.

(** [POST /orders/new] *)
Definition orders_new (rt : runtime) (conn : store) (session_user_id : option Z)
    (form : order_form) : store * response :=
  login_required (fun c uid => orders_new_post rt c uid form) conn session_user_id.

(** *** Order history *)

Definition res_bind {A B : Type} (m : PyNum.res A) (k : A -> PyNum.res B)
  : PyNum.res B :=
  match m with
  | PyNum.Ok a => k a
  | PyNum.Raise e => PyNum.Raise e
  end.

Notation "x <~~ m ;; k" := (res_bind m (fun x => k))
  (at level 100, m at next level, right associativity).

(** The keys of an element of [items_raw] that the history reads. *)
Record raw_item := {
  r_product_id : option Z;
  r_qty : Z;
  r_unit_price : PyNum.float;
  r_amount : PyNum.float;
  r_desc : option string
}.

Definition raw_of_line (l : line) : raw_item :=
  {| r_product_id := Some (l_product_id l); r_qty := l_qty l;
     r_unit_price := l_unit_price l; r_amount := l_amount l;
     r_desc := l_desc l |}.

(** [int(float(n))] *)
Definition int_float (n : Z) : PyNum.res Z :=
  x <~~ PyNum.of_int n ;; PyNum.to_int x.

(** [float(x or 0.0)] *)
Definition float_or (x : PyNum.float) : PyNum.float :=
  if PyNum.truthy x then x else PyNum.zero.

(** [float(amount or (qty * upx))] *)
Definition amount_or (amount : PyNum.float) (qty : Z) (upx : PyNum.float)
  : PyNum.res PyNum.float :=
  if PyNum.truthy amount then PyNum.Ok amount
  else q <~~ PyNum.of_int qty ;; PyNum.Ok (PyNum.mul q upx).

(** The single line made up for a row without stored lines. *)
Definition legacy_items (h : order) : PyNum.res (list raw_item) :=
  qty <~~ int_float (default 0%Z (o_quantity h)) ;;
  let upx := float_or (default PyNum.zero (o_unit_price h)) in
  amt <~~ amount_or (default PyNum.zero (o_total h)) qty upx ;;
  PyNum.Ok [{| r_product_id := None; r_qty := qty; r_unit_price := upx;
               r_amount := amt; r_desc := None |}].

Definition items_raw_of (h : order) : PyNum.res (list raw_item) :=
  match o_line_items h with
  | Some (l :: ls) => PyNum.Ok (map raw_of_line (l :: ls))
  | _ => legacy_items h
  end.

Record history_item := {
  hi_label : option string;
  hi_qty : Z;
  hi_unit_price : PyNum.float;
  hi_amount : PyNum.float
}.

(** [(nm + (f" ({up})" if up else "")).strip()] *)
Definition product_label (nm up : string) : string :=
  PyStr.strip (nm ++ match up with EmptyString => "" | _ => " (" ++ up ++ ")" end).

Definition prod_map_of (conn : store) : gmap Z string :=
  list_to_map
    (map (fun r =>
            (p_id r,
             product_label (Sql.coalesce3 (p_product_name r) (p_name r) "")
               (Sql.coalesce3 (p_unit_pack_info r) None "")))
       (rev (products conn))).

Definition history_item_of (prod_map : gmap Z string) (it : raw_item)
  : PyNum.res history_item :=
  let label :=
    match r_product_id it with
    | Some pid =>
        if (pid =? 0)%Z then Some (str_or (or_empty (r_desc it)) "Product")
        else prod_map !! pid
    | None => Some (str_or (or_empty (r_desc it)) "Product")
    end in
  qty <~~ int_float (r_qty it) ;;
  let upx := float_or (r_unit_price it) in
  amt <~~ amount_or (r_amount it) qty upx ;;
  PyNum.Ok {| hi_label := label; hi_qty := qty; hi_unit_price := upx;
              hi_amount := amt |}.

(** The loop over [items_raw], with the running [total]. *)
Fixpoint history_items (prod_map : gmap Z string) (items_raw : list raw_item)
    (total : PyNum.float) : PyNum.res (list history_item * PyNum.float) :=
  match items_raw with
  | [] => PyNum.Ok ([], total)
  | it :: rest =>
      item <~~ history_item_of prod_map it ;;
      r <~~ history_items prod_map rest (PyNum.add total (hi_amount item)) ;;
      PyNum.Ok (item :: fst r, snd r)
  end.

Record history_order := {
  ho_id : Z;
  ho_order_no : option string;
  ho_created_at : option string;
  ho_customer_name : string;
  ho_customer_location : string;
  ho_sales_rep : string;
  ho_currency : string;
  ho_items : list history_item;
  ho_total : PyNum.float
}.

(** [_orders_rep_col], then the value of that column. *)
Definition rep_of (conn : store) (h : order) : option Z :=
  if has_rep_id conn then o_rep_id h
  else if has_sales_rep_id conn then o_sales_rep_id h
  else None.

Definition rep_name (conn : store) (rep : option Z) : string :=
  match rep with
  | Some id =>
      if (id =? 0)%Z then ""
      else
        match List.find (fun u => (u_id u =? id)%Z) (users conn) with
        | Some u => default (u_username u) (u_full_name u)
        | None => ""
        end
  | None => ""
  end.

Definition history_order_of (conn : store) (prod_map : gmap Z string) (h : order)
  : PyNum.res history_order :=
  items_raw <~~ items_raw_of h ;;
  r <~~ history_items prod_map items_raw PyNum.zero ;;
  let sales_rep_display :=
    str_or (PyStr.strip (or_empty (o_sales_rep_name h))) (rep_name conn (rep_of conn h)) in
  PyNum.Ok {| ho_id := o_id h;
              ho_order_no := o_order_no h;
              ho_created_at := o_created_at h;
              ho_customer_name := or_empty (o_customer_name h);
              ho_customer_location := or_empty (o_customer_location h);
              ho_sales_rep := sales_rep_display;
              ho_currency := str_or (or_empty (o_currency h)) "KES";
              ho_items := fst r;
              ho_total := PyNum.round2 (snd r) |}.

Fixpoint history_orders (conn : store) (prod_map : gmap Z string)
    (header_rows : list order) : PyNum.res (list history_order) :=
  match header_rows with
  | [] => PyNum.Ok []
  | h :: rest =>
      o <~~ history_order_of conn prod_map h ;;
      os <~~ history_orders conn prod_map rest ;;
      PyNum.Ok (o :: os)
  end.

(** [orders_history]: [where_] is the filter that [_orders_where_and_params]
    builds from the query string, as a predicate on rows; the rows come
    newest first, 500 at most. *)
Definition orders_history (conn : store) (where_ : order -> bool)
  : PyNum.res (list history_order) :=
  let header_rows := take 500 (rev (List.filter where_ (orders conn))) in
  history_orders conn (prod_map_of conn) header_rows.

(** *** Order status *)

Definition valid_status (new_status : string) : bool :=
  String.eqb new_status "Pending" || String.eqb new_status "Delivered"
  || String.eqb new_status "Cancelled".

Definition set_status (new_status : string) (delivery_date : option string)
    (o : order) : order :=
  {| o_id := o_id o; o_order_no := o_order_no o; o_created_at := o_created_at o;
     o_total := o_total o; o_rep_id := o_rep_id o;
     o_sales_rep_id := o_sales_rep_id o; o_supplier_id := o_supplier_id o;
     o_product_id := o_product_id o; o_quantity := o_quantity o;
     o_unit_price := o_unit_price o; o_payment_method := o_payment_method o;
     o_status := Some new_status;
     o_delivery_date := delivery_date;
     o_currency := o_currency o; o_notes := o_notes o;
     o_customer_name := o_customer_name o;
     o_customer_location := o_customer_location o;
     o_line_items := o_line_items o; o_sales_rep_name := o_sales_rep_name o |}.

(** The two UPDATE statements, applied to the rows with that id. *)
Definition update_status (rt : runtime) (new_status : string) (order_id : Z)
    (o : order) : order :=
  if (o_id o =? order_id)%Z then
    if String.eqb new_status "Delivered" then
      set_status new_status
        (Some (default (sql_today rt) (o_delivery_date o))) o
    else set_status new_status (o_delivery_date o) o
  else o.

(** The view below its [admin_required] guard; the redirect goes to the
    referrer when the request has one. *)
Definition orders_update_status_post (rt : runtime) (conn : store) (order_id : Z)
    (status : option string) : store * response :=
  let new_status := PyStr.title (PyStr.strip (or_empty status)) in
  if negb (valid_status new_status) then
    (conn, Redirect "orders_history" "error" "Invalid status.")
  else
    (set_orders conn (map (update_status rt new_status order_id) (orders conn))
       (orders_seq conn),
     Redirect "orders_history" "success" "Order status updated.").

(** [admin_required] *)
Definition admin_required (view : store -> store * response)
    (conn : store) (session_user_id : option Z) : store * response :=
  match current_user_row conn session_user_id with
  | None => (conn, Redirect "login" "info" "Please login to continue.")
  | Some u =>
      if String.eqb (u_role u) "admin" then view conn else (conn, Abort 403)
  end.

(** [POST /orders/<order_id>/status] *)
Definition orders_update_status (rt : runtime) (conn : store)
    (session_user_id : option Z) (order_id : Z) (status : option string)
  : store * response :=
  admin_required (fun c => orders_update_status_post rt c order_id status)
    conn session_user_id.

(** ** Schema evolution (app.py, [ensure_schema])

    Here the store is seen at the level of tables, columns and values,
    since the migration works on shapes that differ from the reconciled
    one.  A table has its column names in order and its rows, each a map
    from column name to value; a run is [None] when a statement raises.
    Table and index names are compared as written.  The constraints that
    a table of an older shape may carry are not part of the model. *)

Module Schema.

Inductive value : Type :=
| Null
| Int (n : Z)
| Real (x : PyNum.float)
| Text (s : string).

#[global] Instance spec_float_eq_dec : EqDecision spec_float.
Proof. solve_decision. Defined.

#[global] Instance value_eq_dec : EqDecision value.
Proof. solve_decision. Defined.

Record table := {
  t_cols : list string;
  t_rows : list (gmap string value)
}.

Record db := {
  tables : gmap string table;
  indexes : gset string
}.

Definition set_table (conn : db) (name : string) (t : table) : db :=
  {| tables := <[name := t]> (tables conn); indexes := indexes conn |}.

(** [table_exists] *)
Definition table_exists (conn : db) (name : string) : bool :=
  bool_decide (is_Some (tables conn !! name)).

(** [has_column]: [PRAGMA table_info] lists nothing for a missing
    table. *)
Definition has_column (conn : db) (table column : string) : bool :=
  match tables conn !! table with
  | Some t =>
      existsb (fun c => String.eqb (PyStr.lower c) (PyStr.lower column)) (t_cols t)
  | None => false
  end.

(** The column that SQLite takes a name in a statement to mean. *)
Definition resolve (t : table) (column : string) : option string :=
  List.find (fun c => String.eqb (Sql.lower c) (Sql.lower column)) (t_cols t).

Definition cell (row : gmap string value) (c : string) : value :=
  default Null (row !! c).

(** [CREATE TABLE name(...)] *)
Definition create_table (conn : db) (name : string) (cols : list string)
  : option db :=
  match tables conn !! name with
  | Some _ => None
  | None => Some (set_table conn name {| t_cols := cols; t_rows := [] |})
  end.

(** [CREATE TABLE IF NOT EXISTS name(...)] *)
Definition create_table_if_not_exists (conn : db) (name : string)
    (cols : list string) : option db :=
  match tables conn !! name with
  | Some _ => Some conn
  | None => create_table conn name cols
  end.

(** [ALTER TABLE table ADD COLUMN column ... DEFAULT dflt]: the rows
    already there take the default. *)
Definition add_column (conn : db) (table column : string) (dflt : value)
  : option db :=
  match tables conn !! table with
  | None => None
  | Some t =>
      if existsb (fun c => String.eqb (Sql.lower c) (Sql.lower column)) (t_cols t)
      then None
      else
        Some (set_table conn table
                {| t_cols := t_cols t ++ [column];
                   t_rows := map (fun row => <[column := dflt]> row) (t_rows t) |})
  end.

(** [if not has_column(conn, table, column): ALTER TABLE ... ADD COLUMN] *)
Definition ensure_column (table column : string) (dflt : value) (conn : db)
  : option db :=
  if has_column conn table column then Some conn
  else add_column conn table column dflt.

(** [for col, typ in [...]: if not has_column(...): ALTER TABLE ...] *)
Fixpoint ensure_columns (table : string) (columns : list string) (conn : db)
  : option db :=
  match columns with
  | [] => Some conn
  | col :: rest =>
      conn ← ensure_column table col Null conn;
      ensure_columns table rest conn
  end.

(** The tuples of a unique index: a row with a NULL among the indexed
    columns is exempt. *)
Definition index_key (cols : list string) (row : gmap string value)
  : option (list value) :=
  let vs := map (cell row) cols in
  if existsb (fun v => bool_decide (v = Null)) vs then None else Some vs.

(** [CREATE UNIQUE INDEX IF NOT EXISTS idx ON table(columns)] *)
Definition create_unique_index_if_not_exists (idx table : string)
    (columns : list string) (conn : db) : option db :=
  if bool_decide (idx ∈ indexes conn) then Some conn
  else
    t ← tables conn !! table;
    cols ← mapM (resolve t) columns;
    let keys := omap (index_key cols) (t_rows t) in
    if bool_decide (NoDup keys)
    then Some {| tables := tables conn; indexes := {[idx]} ∪ indexes conn |}
    else None.

(** [UPDATE products SET product_name = COALESCE(product_name, name)
     WHERE product_name IS NULL OR product_name = ''] on one row. *)
Definition backfill_row (product_name name : string) (row : gmap string value)
  : gmap string value :=
  let old := cell row product_name in
  if bool_decide (old = Null) || bool_decide (old = Text "")
  then <[product_name := match old with Null => cell row name | v => v end]> row
  else row.

Definition backfill_product_name (conn : db) : option db :=
  t ← tables conn !! "products";
  product_name ← resolve t "product_name";
  name ← resolve t "name";
  Some (set_table conn "products"
          {| t_cols := t_cols t;
             t_rows := map (backfill_row product_name name) (t_rows t) |}).

(** The soft migrations of [products]. *)
Definition migrate_products (conn : db) : option db :=
  conn ← ensure_column "products" "name" Null conn;
  if table_exists conn "products" then
    conn ← (if has_column conn "products" "product_name" then Some conn
            else
              conn ← add_column conn "products" "product_name" Null;
              if has_column conn "products" "name"
              then backfill_product_name conn else Some conn);
    conn ← ensure_column "products" "unit_pack_info" Null conn;
    ensure_column "products" "supplier_id" Null conn
  else Some conn.

Definition migrate_orders (conn : db) : option db :=
  conn ← (if table_exists conn "orders" then Some conn
          else create_table conn "orders" ["id"; "created_at"; "total"]);
  conn ← ensure_column "orders" "created_at" Null conn;
  conn ← ensure_column "orders" "total" Null conn;
  conn ← ensure_columns "orders"
           ["supplier_id"; "product_id"; "quantity"; "notes"] conn;
  conn ← (if has_column conn "orders" "order_no" then Some conn
          else
            conn ← add_column conn "orders" "order_no" Null;
            create_unique_index_if_not_exists
              "idx_orders_order_no" "orders" ["order_no"] conn);
  conn ← ensure_column "orders" "unit_price" Null conn;
  conn ← ensure_column "orders" "payment_method" Null conn;
  conn ← ensure_column "orders" "status" (Text "Pending") conn;
  conn ← ensure_column "orders" "delivery_date" Null conn;
  conn ← ensure_column "orders" "currency" (Text "KES") conn;
  conn ← ensure_column "orders" "customer_name" Null conn;
  conn ← ensure_column "orders" "customer_location" Null conn;
  conn ← ensure_column "orders" "line_items" Null conn;
  ensure_column "orders" "sales_rep_name" Null conn.

Definition target_cols (owner value : string) : list string :=
  ["id"; owner; "month"; "year"; value].

Definition create_targets (conn : db) : option db :=
  conn ← create_table_if_not_exists conn "rep_targets"
           (target_cols "rep_id" "target_value");
  conn ← create_table_if_not_exists conn "supplier_targets"
           (target_cols "supplier_id" "target_value");
  conn ← create_unique_index_if_not_exists "idx_supplier_targets_unique"
           "supplier_targets" ["supplier_id"; "month"; "year"] conn;
  conn ← create_unique_index_if_not_exists "idx_rep_targets_unique"
           "rep_targets" ["rep_id"; "month"; "year"] conn;
  conn ← create_table_if_not_exists conn "supplier_actuals"
           (target_cols "supplier_id" "mtd_value");
  create_table_if_not_exists conn "rep_actuals" (target_cols "rep_id" "mtd_value").

(** [SELECT 1 FROM users WHERE username=?]: whether a row is found. *)
Definition user_exists (conn : db) (username : string) : option bool :=
  t ← tables conn !! "users";
  c ← resolve t "username";
  Some (existsb (fun row => bool_decide (cell row c = Text username)) (t_rows t)).

Definition next_id (t : table) (c : string) : Z :=
  (fold_right Z.max 0
     (map (fun row => match cell row c with Int n => n | _ => 0%Z end) (t_rows t))
   + 1)%Z.

(** [INSERT INTO users(username, password_hash, role, created_at,
    full_name) VALUES (...)] *)
Definition insert_user (conn : db)
    (username password_hash role created_at full_name : string) : option db :=
  t ← tables conn !! "users";
  cols ← mapM (resolve t)
           ["username"; "password_hash"; "role"; "created_at"; "full_name"];
  let row : gmap string value :=
    list_to_map
      (zip cols
         [Text username; Text password_hash; Text role; Text created_at;
          Text full_name]) in
  let row :=
    match resolve t "id" with
    | Some c => <[c := Int (next_id t c)]> row
    | None => row
    end in
  Some (set_table conn "users"
          {| t_cols := t_cols t; t_rows := t_rows t ++ [row] |}).

(** What a run takes from outside: the clock and the two salted
    password hashes. *)
Record seeds := {
  seed_now_ts : string;
  hash_admin : string;
  hash_staff : string
}.

Definition seed_user (sd : seeds) (username password_hash role full_name : string)
    (conn : db) : option db :=
  match user_exists conn username with
  | Some true => Some conn
  | Some false =>
      insert_user conn username password_hash role (seed_now_ts sd) full_name
  | None => None
  end.

Definition ensure_schema (sd : seeds) (conn : db) : option db :=
  conn ← create_table_if_not_exists conn "users"
           ["id"; "username"; "password_hash"; "role"; "created_at"; "full_name"];
  conn ← create_table_if_not_exists conn "suppliers" ["id"; "name"];
  conn ← create_table_if_not_exists conn "products"
           ["id"; "supplier_id"; "product_name"; "unit_pack_info"];
  conn ← migrate_products conn;
  conn ← migrate_orders conn;
  conn ← create_targets conn;
  conn ← seed_user sd "admin" (hash_admin sd) "admin" "Administrator" conn;
  seed_user sd "staff" (hash_staff sd) "rep" "Staff" conn.

End Schema.

(** ** Supplier merge script (data/fix_suppliers.py)

    The script works on the tables [suppliers] and [products] of the
    store, in the shape that [ensure_schema] gives them: [products] has a
    foreign key to [suppliers] and no unique constraint, and no other
    table refers to [suppliers].  A scan of [suppliers] yields the rows in
    rowid order. *)

Module FixSuppliers.

(** [s.split()]: the maximal runs of characters that are not white
    space; [word] is the run being read. *)
Fixpoint split_go (word : string) (s : string) : list string :=
  match s with
  | EmptyString => match word with EmptyString => [] | _ => [word] end
  | String c s' =>
      if PyStr.is_space c then
        match word with
        | EmptyString => split_go "" s'
        | _ => word :: split_go "" s'
        end
      else split_go (word ++ String c "") s'
  end.

Definition split (s : string) : list string := split_go "" s.

(** [" ".join(s.split())] *)
Definition collapse (s : string) : string := String.concat " " (split s).

Definition _norm (s : option string) : string :=
  match s with
  | None => ""
  | Some s => PyStr.lower (PyStr.strip (collapse s))
  end.

Definition find_supplier_by_normalized (conn : store) (target_name : string)
  : option supplier :=
  let tnorm := _norm (Some target_name) in
  List.find (fun row => String.eqb (_norm (Some (s_name row))) tnorm) (suppliers conn).

Definition ensure_good_supplier (conn : store) (good_name : string) : Z * store :=
  match find_supplier_by_normalized conn good_name with
  | Some row => (s_id row, conn)
  | None =>
      let lastrowid :=
        Sql.next_rowid (map s_id (suppliers conn)) (suppliers_seq conn) in
      (lastrowid,
       set_suppliers conn
         (suppliers conn ++ [{| s_id := lastrowid; s_name := good_name |}])
         lastrowid)
  end.

Record merge_result := {
  bad_found : bool;
  moved : Z;
  deleted : bool;
  renamed : bool
}.

(** [UPDATE suppliers SET name = ? WHERE id = ?] on one row. *)
Definition rename (good_name : string) (bad_id : Z) (row : supplier) : supplier :=
  if (s_id row =? bad_id)%Z then {| s_id := s_id row; s_name := good_name |} else row.

(** [UPDATE products SET supplier_id = ? WHERE supplier_id = ?] on one
    row. *)
Definition relink (good_id bad_id : Z) (p : product) : product :=
  if bool_decide (p_supplier_id p = Some bad_id) then
    {| p_id := p_id p; p_supplier_id := Some good_id;
       p_product_name := p_product_name p;
       p_unit_pack_info := p_unit_pack_info p; p_name := p_name p |}
  else p.

(** Whether [UPDATE products SET supplier_id = ? WHERE supplier_id = ?]
    is refused: under the constraint [UNIQUE(supplier_id, name)] of a
    [products] table of the older shape, when a product of the variant
    has the name of a product of the canonical supplier.  Within one
    supplier that constraint keeps the names apart already, and NULL
    names never clash. *)
Definition relink_refused (conn : store) (good_id bad_id : Z) : bool :=
  product_name_unique conn
  && existsb
       (fun p =>
          bool_decide (p_supplier_id p = Some bad_id)
          && match p_name p with
             | Some n =>
                 existsb
                   (fun q =>
                      bool_decide (p_supplier_id q = Some good_id)
                      && bool_decide (p_name q = Some n))
                   (products conn)
             | None => false
             end)
       (products conn).

(** [merge_one]; [None] is the [IntegrityError] of a refused UPDATE,
    which nothing catches.  The INSERT and the UPDATE on [suppliers] are
    never refused by a [UNIQUE] on the name: they are reached only when
    no stored name has the normal form of [good_name]. *)
Definition merge_one (conn : store) (good_name bad_name : string)
  : option (store * merge_result) :=
  match find_supplier_by_normalized conn bad_name with
  | None =>
      Some (conn,
            {| bad_found := false; moved := 0; deleted := false; renamed := false |})
  | Some bad =>
      let bad_id := s_id bad in
      match find_supplier_by_normalized conn good_name with
      | None =>
          Some (set_suppliers conn (map (rename good_name bad_id) (suppliers conn))
                  (suppliers_seq conn),
                {| bad_found := true; moved := 0; deleted := false; renamed := true |})
      | Some good =>
          let good_id := s_id good in
          if (good_id =? bad_id)%Z then
            Some (conn,
                  {| bad_found := true; moved := 0; deleted := false; renamed := false |})
          else if relink_refused conn good_id bad_id then None
          else
            let rowcount :=
              List.length
                (List.filter (fun p => bool_decide (p_supplier_id p = Some bad_id))
                   (products conn)) in
            let conn :=
              set_products conn (map (relink good_id bad_id) (products conn))
                (products_seq conn) in
            let conn :=
              set_suppliers conn
                (List.filter (fun row => negb (s_id row =? bad_id)%Z) (suppliers conn))
                (suppliers_seq conn) in
            Some (conn,
                  {| bad_found := true; moved := Z.of_nat rowcount; deleted := true;
                     renamed := false |})
      end
  end.

(** The inner loop of [main] over the variants of one entry, [results]
    being the results of the calls so far; an exception ends it. *)
Fixpoint merge_variants (conn : store) (good_name : string)
    (bad_variants : list string) (results : list merge_result)
  : option (store * list merge_result) :=
  match bad_variants with
  | [] => Some (conn, results)
  | bad :: rest =>
      match merge_one conn good_name bad with
      | Some (conn', res) => merge_variants conn' good_name rest (results ++ [res])
      | None => None
      end
  end.

(** The body of the loop of [main] for one entry of [MERGES]: the store
    after it and the results of its calls of [merge_one]; [None] when a
    call raises, which ends the script before its commit. *)
Definition merge_entry (conn : store) (good : string) (bad_variants : list string)
  : option (store * list merge_result) :=
  let good_name := PyStr.strip (collapse good) in
  let conn := snd (ensure_good_supplier conn good_name) in
  merge_variants conn good_name bad_variants [].

End FixSuppliers.

(** ** Targets and actuals (app.py, [targets_rep_add],
    [targets_supplier_add], [targets_supplier_actual] and
    [targets_rep_actual])

    The four tables have the same shape: an id, the owner (a
    representative or a supplier), month, year and a value that is not
    NULL, with a unique index on owner, month and year. *)

Record target_row := {
  tr_id : Z;
  tr_owner : Z;
  tr_month : Z;
  tr_year : Z;
  tr_value : PyNum.float
}.

Record target_table := {
  tt_rows : list target_row;
  tt_seq : Z
}.

Record targets_db := {
  rep_targets : target_table;
  supplier_targets : target_table;
  supplier_actuals : target_table;
  rep_actuals : target_table
}.

Definition same_key (owner month year : Z) (r : target_row) : bool :=
  ((tr_owner r =? owner) && (tr_month r =? month) && (tr_year r =? year))%Z.

Definition with_value (value : PyNum.float) (r : target_row) : target_row :=
  {| tr_id := tr_id r; tr_owner := tr_owner r; tr_month := tr_month r;
     tr_year := tr_year r; tr_value := value |}.

(** [INSERT INTO t(owner, month, year, value) VALUES (?, ?, ?, ?)
     ON CONFLICT(owner, month, year) DO UPDATE SET value = excluded.value].
    SQLite leaves open whether an insertion that ends in the update uses
    up a rowid; [burn] says whether it does. *)
Definition upsert_value (burn : bool) (t : target_table)
    (owner month year : Z) (value : PyNum.float) : target_table :=
  let next := Sql.next_rowid (map tr_id (tt_rows t)) (tt_seq t) in
  if existsb (same_key owner month year) (tt_rows t) then
    {| tt_rows :=
         map (fun r => if same_key owner month year r then with_value value r else r)
           (tt_rows t);
       tt_seq := if burn then next else tt_seq t |}
  else
    {| tt_rows :=
         tt_rows t ++ [{| tr_id := next; tr_owner := owner; tr_month := month;
                          tr_year := year; tr_value := value |}];
       tt_seq := next |}.

Record target_form := {
  tf_owner : option string;
  tf_month : option string;
  tf_year : option string;
  tf_value : option string
}.

(** [int(raw or 0)] *)
Definition int_or_zero (rt : runtime) (raw : option string) : option Z :=
  match or_empty raw with
  | EmptyString => Some 0%Z
  | s => py_int rt s
  end.

(** The body that the four views share, below their [admin_required]
    guard; the three flash messages are those of the view. *)
Definition save_value (invalid provide saved_message : string) (rt : runtime)
    (burn : bool) (t : target_table) (form : target_form)
  : target_table * response :=
  match int_or_zero rt (tf_owner form), int_or_zero rt (tf_month form),
        int_or_zero rt (tf_year form), float_or_zero rt (or_empty (tf_value form)) with
  | Some owner, Some month, Some year, Some value =>
      if negb ((0 <? owner) && (1 <=? month) && (month <=? 12) && (2000 <=? year))%Z
      then (t, Redirect "targets" "error" provide)
      else if negb (Sql.fits_int64 owner && Sql.fits_int64 year) then (t, ServerError)
      else
        match Sql.real value with
        | None => (t, ServerError)
        | Some v =>
            (upsert_value burn t owner month year v,
             Redirect "targets" "success" saved_message)
        end
  | _, _, _, _ => (t, Redirect "targets" "error" invalid)
  end.

Definition targets_rep_add (rt : runtime) (burn : bool) (conn : targets_db)
    (form : target_form) : targets_db * response :=
  let r :=
    save_value "Invalid input for rep target."
      "Provide valid rep_id, month (1-12), and year." "Rep target saved."
      rt burn (rep_targets conn) form in
  ({| rep_targets := fst r; supplier_targets := supplier_targets conn;
      supplier_actuals := supplier_actuals conn; rep_actuals := rep_actuals conn |},
   snd r).

Definition targets_supplier_add (rt : runtime) (burn : bool) (conn : targets_db)
    (form : target_form) : targets_db * response :=
  let r :=
    save_value "Invalid input for supplier target."
      "Provide valid supplier_id, month (1-12), and year." "Supplier target saved."
      rt burn (supplier_targets conn) form in
  ({| rep_targets := rep_targets conn; supplier_targets := fst r;
      supplier_actuals := supplier_actuals conn; rep_actuals := rep_actuals conn |},
   snd r).

Definition targets_supplier_actual (rt : runtime) (burn : bool) (conn : targets_db)
    (form : target_form) : targets_db * response :=
  let r :=
    save_value "Invalid input for supplier MTD."
      "Provide valid supplier_id, month (1-12), and year." "Supplier MTD saved."
      rt burn (supplier_actuals conn) form in
  ({| rep_targets := rep_targets conn; supplier_targets := supplier_targets conn;
      supplier_actuals := fst r; rep_actuals := rep_actuals conn |},
   snd r).

Definition targets_rep_actual (rt : runtime) (burn : bool) (conn : targets_db)
    (form : target_form) : targets_db * response :=
  let r :=
    save_value "Invalid input for rep MTD."
      "Provide valid rep_id, month (1-12), and year." "Rep MTD saved."
      rt burn (rep_actuals conn) form in
  ({| rep_targets := rep_targets conn; supplier_targets := supplier_targets conn;
      supplier_actuals := supplier_actuals conn; rep_actuals := fst r |},
   snd r).


(** No representative can be resolved: no logged-in caller, no user whose
    username or full name is the sales-rep text of the form, and neither
    of the default accounts. *)
Definition unresolvable (conn : store) (session_user_id : option Z)
    (sales_rep_text : string) : Prop :=
  current_user_row conn session_user_id = None
  /\ Forall (fun u =>
               Sql.lower (u_username u) <> Sql.lower sales_rep_text
               /\ Sql.lower (or_empty (u_full_name u)) <> Sql.lower sales_rep_text)
       (users conn)
  /\ Forall (fun u => u_username u <> "staff" /\ u_username u <> "admin") (users conn).

(** The pass of the import loop over a row when the INSERT is accepted:
    [upload_row] without the refusal. *)
Definition upload_step (st : upload) (r : csv_row) : upload :=
  let supplier_name := PyStr.strip (or_empty (csv_supplier r)) in
  let product_name := PyStr.strip (or_empty (csv_product r)) in
  let unit_pack := PyStr.strip (or_empty (csv_unit r)) in
  let skip :=
    {| up_conn := up_conn st; up_existing := up_existing st;
       up_added := up_added st; up_skipped := (up_skipped st + 1)%Z |} in
  match supplier_name, product_name with
  | EmptyString, _ | _, EmptyString => skip
  | _, _ =>
      let '(sid, conn) := _upsert_supplier (up_conn st) (Some supplier_name) in
      if (sid <=? 0)%Z then
        {| up_conn := conn; up_existing := up_existing st;
           up_added := up_added st; up_skipped := (up_skipped st + 1)%Z |}
      else
        let existing := _load_existing conn (up_existing st) sid in
        let cand := _canon_pair (Some product_name) (Some unit_pack) in
        if bool_decide (cand ∈ existing !!! sid) then
          {| up_conn := conn; up_existing := existing;
             up_added := up_added st; up_skipped := (up_skipped st + 1)%Z |}
        else
          let id := Sql.next_rowid (map p_id (products conn)) (products_seq conn) in
          let row :=
            {| p_id := id; p_supplier_id := Some sid;
               p_product_name := Some product_name;
               p_unit_pack_info := non_empty unit_pack;
               p_name := Some product_name |} in
          {| up_conn := set_products conn (products conn ++ [row]) id;
             up_existing := <[sid := {[cand]} ∪ existing !!! sid]> existing;
             up_added := (up_added st + 1)%Z;
             up_skipped := up_skipped st |}
  end.

(** The import when every INSERT is accepted. *)
Definition accepted_upload (conn : store) (rows : list csv_row) : store * (Z * Z) :=
  let st :=
    fold_left upload_step rows
      {| up_conn := conn; up_existing := ∅; up_added := 0; up_skipped := 0 |} in
  (up_conn st, (up_added st, up_skipped st)).

(** The row lacks the supplier name or the product name. *)
Definition missing_name (r : csv_row) : Prop :=
  PyStr.strip (or_empty (csv_supplier r)) = ""
  \/ PyStr.strip (or_empty (csv_product r)) = "".

(** The key under which the import compares a row, and the supplier id
    that its supplier name resolves to. *)
Definition row_key (r : csv_row) : string :=
  _canon_pair (Some (PyStr.strip (or_empty (csv_product r))))
    (Some (PyStr.strip (or_empty (csv_unit r)))).

Definition row_supplier_id (conn : store) (r : csv_row) : Z :=
  fst (_upsert_supplier conn (Some (PyStr.strip (or_empty (csv_supplier r))))).

(** The row is new to the store: its key is not among the keys stored for
    its supplier. *)
Definition new_to_store (conn : store) (r : csv_row) : Prop :=
  row_key r ∉ stored_keys conn (row_supplier_id conn r).

(** The INSERT of the row would be refused: the store carries the
    constraint of the older shape and a stored product of the supplier of
    the row has the product name of the row. *)
Definition row_refused (conn : store) (r : csv_row) : bool :=
  insert_refused conn (row_supplier_id conn r) (PyStr.strip (or_empty (csv_product r))).

(** The supplier of a stored product and the key under which the import
    compares it. *)
Definition product_key (r : product) : option Z * string :=
  (p_supplier_id r,
   _canon_pair
     (Some (Sql.coalesce3 (p_product_name r) (p_name r) ""))
     (Some (Sql.coalesce3 (p_unit_pack_info r) None ""))).

(** No two products of one supplier have the same key. *)
Definition unique_keys (conn : store) : Prop :=
  NoDup (map product_key (products conn)).

(** No two suppliers have the same name up to the case of the ASCII
    letters. *)
Definition unique_names (conn : store) : Prop :=
  NoDup (map (fun r => Sql.lower (s_name r)) (suppliers conn)).

(** The cache of an import holds, for every supplier in it, the keys of
    the products stored for that supplier. *)
Definition cache_coherent (st : upload) : Prop :=
  forall sid keys,
    up_existing st !! sid = Some keys -> keys = stored_keys (up_conn st) sid.

(** The store holds the row already: the supplier of the row is stored
    and, unless its id is not positive, so is the key of the row. *)
Definition covered (conn : store) (r : csv_row) : Prop :=
  missing_name r
  \/ (supplier_by_name conn (PyStr.strip (or_empty (csv_supplier r))) <> None
      /\ ((row_supplier_id conn r <= 0)%Z
          \/ row_key r ∈ stored_keys conn (row_supplier_id conn r))).

(** The catalog of [conn'] extends that of [conn]: the supplier and
    product rows of [conn] are the first ones of [conn'], as they were,
    and the rest of the store is the same. *)
Definition extends (conn conn' : store) : Prop :=
  (exists rows, suppliers conn' = (suppliers conn ++ rows)%list)
  /\ (exists rows, products conn' = (products conn ++ rows)%list)
  /\ users conn' = users conn
  /\ orders conn' = orders conn
  /\ orders_seq conn' = orders_seq conn
  /\ has_rep_id conn' = has_rep_id conn
  /\ has_sales_rep_id conn' = has_sales_rep_id conn
  /\ order_no_unique conn' = order_no_unique conn
  /\ product_name_unique conn' = product_name_unique conn.

(** The number of stored orders created on the day of the request, the
    count that [generate_order_no] numbers from. *)
Definition orders_on_day (rt : runtime) (conn : store) : nat :=
  List.length
    (List.filter
       (fun o =>
          match o_created_at o with
          | Some t => bool_decide (sql_date rt t = Some (today_iso rt))
          | None => false
          end)
       (orders conn)).

(** The request was accepted and the order saved. *)
Definition saved (r : store * response) : Prop :=
  exists msg, snd r = Redirect "orders_history" "success" msg.

(** A line that the filter of [orders_new] keeps. *)
Definition valid_line (l : line) : Prop :=
  (0 < l_product_id l)%Z /\ (0 < l_qty l)%Z.

(** Every product with a supplier id belongs to a stored supplier. *)
Definition attached (conn : store) : Prop :=
  Forall
    (fun p => forall sid, p_supplier_id p = Some sid -> In sid (map s_id (suppliers conn)))
    (products conn).

(** The number of products stored for the supplier [sid]. *)
Definition products_of (conn : store) (sid : Z) : nat :=
  List.length
    (List.filter (fun p => bool_decide (p_supplier_id p = Some sid)) (products conn)).

(** No two rows of the table have the same owner, month and year. *)
Definition unique_targets (t : target_table) : Prop :=
  NoDup (map (fun r => (tr_owner r, tr_month r, tr_year r)) (tt_rows t)).

(** A Schema store without tables. *)
Definition empty_db : Schema.db :=
  {| Schema.tables := ∅; Schema.indexes := ∅ |}.

(** *** What a migration keeps, and the reconciled shape *)

(** [row'] has the values of [row] in the columns [cols]. *)
Definition agree (cols : list string) (row row' : gmap string Schema.value) : Prop :=
  forall c, In c cols -> row' !! c = row !! c.

(** [t'] has the columns of [t], in the same order and possibly followed
    by more, and for every row of [t] a row at the same place with the same
    values in the columns of [t]. *)
Definition table_kept (t t' : Schema.table) : Prop :=
  (exists extra, Schema.t_cols t' = (Schema.t_cols t ++ extra)%list)
  /\ forall i row,
      Schema.t_rows t !! i = Some row ->
      exists row', Schema.t_rows t' !! i = Some row' /\ agree (Schema.t_cols t) row row'.

(** [conn'] keeps every index, table, column, row and value of [conn]. *)
Definition preserved (conn conn' : Schema.db) : Prop :=
  Schema.indexes conn ⊆ Schema.indexes conn'
  /\ forall name t,
      Schema.tables conn !! name = Some t ->
      exists t', Schema.tables conn' !! name = Some t' /\ table_kept t t'.

(** The tests that [ensure_schema] makes before it changes anything. *)
Inductive fact : Type :=
| TableExists (name : string)
| HasColumn (table column : string)
| IndexExists (idx : string)
| UserExists (username : string).

#[global] Instance fact_eq_dec : EqDecision fact.
Proof. solve_decision. Defined.

Definition holds (conn : Schema.db) (f : fact) : Prop :=
  match f with
  | TableExists name => Schema.table_exists conn name = true
  | HasColumn table column => Schema.has_column conn table column = true
  | IndexExists idx => idx ∈ Schema.indexes conn
  | UserExists username => Schema.user_exists conn username = Some true
  end.

Definition reconciled_facts : list fact :=
  [ TableExists "users"; TableExists "suppliers"; TableExists "products";
    HasColumn "products" "name"; HasColumn "products" "product_name";
    HasColumn "products" "unit_pack_info"; HasColumn "products" "supplier_id";
    TableExists "orders";
    HasColumn "orders" "created_at"; HasColumn "orders" "total";
    HasColumn "orders" "supplier_id"; HasColumn "orders" "product_id";
    HasColumn "orders" "quantity"; HasColumn "orders" "notes";
    HasColumn "orders" "order_no"; HasColumn "orders" "unit_price";
    HasColumn "orders" "payment_method"; HasColumn "orders" "status";
    HasColumn "orders" "delivery_date"; HasColumn "orders" "currency";
    HasColumn "orders" "customer_name"; HasColumn "orders" "customer_location";
    HasColumn "orders" "line_items"; HasColumn "orders" "sales_rep_name";
    TableExists "rep_targets"; TableExists "supplier_targets";
    IndexExists "idx_supplier_targets_unique"; IndexExists "idx_rep_targets_unique";
    TableExists "supplier_actuals"; TableExists "rep_actuals";
    UserExists "admin"; UserExists "staff" ].

(** The store has the shape that [ensure_schema] brings about. *)
Definition reconciled (conn : Schema.db) : Prop :=
  Forall (holds conn) reconciled_facts.

(** ** Sample data

    A runtime for running the views on plain inputs: decimal numerals,
    [sum] as the additions from left to right starting at 0, and
    timestamps of the form [YYYY-MM-DD HH:MM:SS], whose date is their
    first ten characters. *)

Definition sum_left (xs : list PyNum.float) : PyNum.float :=
  fold_left PyNum.add xs PyNum.zero.

Definition plain_runtime : runtime :=
  {| py_float := PyNum.decimal_float;
     py_int := PyNum.decimal_int;
     py_sum := sum_left;
     sql_date := fun t => Some (String.substring 0 10 t);
     now_ts := "2026-11-04 10:15:00";
     today_iso := "2026-11-04";
     today_compact := "20261104";
     sql_today := "2026-11-04" |}.

Definition sample_store : store :=
  {| suppliers := [ {| s_id := 1; s_name := "Haco Industries" |} ];
     suppliers_seq := 1;
     products :=
       [ {| p_id := 1; p_supplier_id := Some 1%Z;
            p_product_name := Some "Kaluma King"; p_unit_pack_info := Some "1x18pk";
            p_name := Some "Kaluma King" |};
         {| p_id := 2; p_supplier_id := Some 1%Z;
            p_product_name := Some "Sonamoja Tab"; p_unit_pack_info := None;
            p_name := Some "Sonamoja Tab" |} ];
     products_seq := 2;
     users :=
       [ {| u_id := 1; u_username := "admin"; u_role := "admin";
            u_full_name := Some "Administrator" |};
         {| u_id := 2; u_username := "staff"; u_role := "rep";
            u_full_name := Some "Staff" |} ];
     orders := [];
     orders_seq := 0;
     has_rep_id := false;
     has_sales_rep_id := false;
     order_no_unique := true;
     product_name_unique := false |}.

(** Two lines, (product 1, qty 2, unit price 100) and (product 2, qty 1,
    unit price 50), with the total override [amount]. *)
Definition sample_form (amount : option string) : order_form :=
  {| f_customer_name := Some "Mama Njeri"; f_customer_location := Some "Thika";
     f_notes := None; f_comments := None; f_payment_method := None;
     f_delivery_date := None; f_currency := None; f_sales_rep := None;
     f_amount := amount;
     f_supplier_ids := ["1"; "1"];
     f_product_ids := ["1"; "2"];
     f_qtys := ["2"; "1"];
     f_prices := ["100"; "50"];
     f_amounts := [""; ""];
     f_descs := [""; ""] |}.

Definition float_of_Z (n : Z) : PyNum.float :=
  binary_normalize PyNum.prec PyNum.emax n 0 false.

(** A store with a representative column on [orders] and no user at all. *)
Definition store_without_users : store :=
  {| suppliers := suppliers sample_store; suppliers_seq := 1;
     products := products sample_store; products_seq := 2;
     users := [];
     orders := []; orders_seq := 0;
     has_rep_id := true; has_sales_rep_id := false;
     order_no_unique := true;
     product_name_unique := false |}.

Definition delivered_store : store :=
  set_orders sample_store
    [ {| o_id := 1; o_order_no := Some "ORD-20261101-0001";
         o_created_at := Some "2026-11-01 09:00:00";
         o_total := Some (float_of_Z 250);
         o_rep_id := None; o_sales_rep_id := None;
         o_supplier_id := Some 1%Z; o_product_id := Some 1%Z;
         o_quantity := Some 2%Z; o_unit_price := Some (float_of_Z 100);
         o_payment_method := Some "COD"; o_status := Some "Delivered";
         o_delivery_date := Some "2026-11-02"; o_currency := Some "KES";
         o_notes := Some ""; o_customer_name := Some "Mama Njeri";
         o_customer_location := Some "Thika"; o_line_items := None;
         o_sales_rep_name := Some "" |} ] 1.

(** A stored order of one line of amount 200 whose total was overridden
    to 300. *)
Definition overridden_order : order :=
  {| o_id := 1; o_order_no := Some "ORD-20261101-0001";
     o_created_at := Some "2026-11-01 09:00:00";
     o_total := Some (float_of_Z 300);
     o_rep_id := None; o_sales_rep_id := None;
     o_supplier_id := Some 1%Z; o_product_id := Some 1%Z;
     o_quantity := Some 2%Z; o_unit_price := Some (float_of_Z 100);
     o_payment_method := Some "COD"; o_status := Some "Pending";
     o_delivery_date := None; o_currency := Some "KES";
     o_notes := Some ""; o_customer_name := Some "Mama Njeri";
     o_customer_location := Some "Thika";
     o_line_items :=
       Some [ {| l_supplier_id := 1; l_product_id := 1; l_qty := 2;
                 l_unit_price := float_of_Z 100; l_amount := float_of_Z 200;
                 l_desc := None |} ];
     o_sales_rep_name := Some "" |}.

(** A store whose only order of the day carries the ordinal 2, as after
    the removal of the first one. *)
Definition renumbered_store : store :=
  set_orders sample_store
    [ {| o_id := 2; o_order_no := Some "ORD-20261104-0002";
         o_created_at := Some "2026-11-04 09:00:00";
         o_total := Some (float_of_Z 250);
         o_rep_id := None; o_sales_rep_id := None;
         o_supplier_id := Some 1%Z; o_product_id := Some 1%Z;
         o_quantity := Some 2%Z; o_unit_price := Some (float_of_Z 100);
         o_payment_method := Some "COD"; o_status := Some "Pending";
         o_delivery_date := None; o_currency := Some "KES";
         o_notes := Some ""; o_customer_name := Some "Mama Njeri";
         o_customer_location := Some "Thika"; o_line_items := None;
         o_sales_rep_name := Some "" |} ] 2.

(** A store with one order whose stored line has a quantity that no
    double holds, as a line written by another tool may have. *)
Definition oversized_store : store :=
  set_orders sample_store
    [ {| o_id := 1; o_order_no := Some "ORD-20261101-0001";
         o_created_at := Some "2026-11-01 09:00:00";
         o_total := Some (float_of_Z 300);
         o_rep_id := None; o_sales_rep_id := None;
         o_supplier_id := Some 1%Z; o_product_id := Some 1%Z;
         o_quantity := Some 2%Z; o_unit_price := Some (float_of_Z 100);
         o_payment_method := Some "COD"; o_status := Some "Pending";
         o_delivery_date := None; o_currency := Some "KES";
         o_notes := Some ""; o_customer_name := Some "Mama Njeri";
         o_customer_location := Some "Thika";
         o_line_items :=
           Some [ {| l_supplier_id := 1; l_product_id := 1; l_qty := 2 ^ 1100;
                     l_unit_price := float_of_Z 100; l_amount := float_of_Z 200;
                     l_desc := None |} ];
         o_sales_rep_name := Some "" |} ] 1.

(** The sample store with the representative column [rep_id] on
    [orders], and with both representative columns. *)
Definition rep_column_store (both : bool) : store :=
  {| suppliers := suppliers sample_store; suppliers_seq := 1;
     products := products sample_store; products_seq := 2;
     users := users sample_store;
     orders := []; orders_seq := 0;
     has_rep_id := true; has_sales_rep_id := both;
     order_no_unique := true;
     product_name_unique := false |}.

(** A store with two spellings of one supplier, each with a product. *)
Definition variant_store : store :=
  {| suppliers :=
       [ {| s_id := 1; s_name := "Haco Industries" |};
         {| s_id := 2; s_name := "Haco Industries Ltd" |} ];
     suppliers_seq := 2;
     products :=
       [ {| p_id := 1; p_supplier_id := Some 1%Z;
            p_product_name := Some "Kaluma King"; p_unit_pack_info := Some "1x18pk";
            p_name := Some "Kaluma King" |};
         {| p_id := 2; p_supplier_id := Some 2%Z;
            p_product_name := Some "Sonamoja Tab"; p_unit_pack_info := None;
            p_name := Some "Sonamoja Tab" |} ];
     products_seq := 2;
     users := users sample_store;
     orders := []; orders_seq := 0;
     has_rep_id := false; has_sales_rep_id := false;
     order_no_unique := true;
     product_name_unique := false |}.

(** The same two spellings on a [products] table of the older shape,
    with a product of one name under each. *)
Definition clashing_store : store :=
  {| suppliers := suppliers variant_store; suppliers_seq := 2;
     products :=
       [ {| p_id := 1; p_supplier_id := Some 1%Z;
            p_product_name := Some "Kaluma King"; p_unit_pack_info := Some "1x18pk";
            p_name := Some "Kaluma King" |};
         {| p_id := 2; p_supplier_id := Some 2%Z;
            p_product_name := Some "Kaluma King"; p_unit_pack_info := Some "24 pk";
            p_name := Some "Kaluma King" |} ];
     products_seq := 2;
     users := users sample_store;
     orders := []; orders_seq := 0;
     has_rep_id := false; has_sales_rep_id := false;
     order_no_unique := true;
     product_name_unique := true |}.

(** A target table with the November target of representative 2. *)
Definition sample_targets : target_table :=
  {| tt_rows :=
       [ {| tr_id := 1; tr_owner := 2; tr_month := 11; tr_year := 2026;
            tr_value := float_of_Z 50000 |} ];
     tt_seq := 1 |}.

Definition target_form_of (owner month year value : string) : target_form :=
  {| tf_owner := Some owner; tf_month := Some month; tf_year := Some year;
     tf_value := Some value |}.

(** The sample store with a [products] table of the older shape, which
    carries [UNIQUE(supplier_id, name)]. *)
Definition constrained_store : store :=
  {| suppliers := suppliers sample_store; suppliers_seq := 1;
     products := products sample_store; products_seq := 2;
     users := users sample_store;
     orders := []; orders_seq := 0;
     has_rep_id := false; has_sales_rep_id := false;
     order_no_unique := true;
     product_name_unique := true |}.

Definition csv (supplier product unit : string) : csv_row :=
  {| csv_supplier := Some supplier; csv_product := Some product;
     csv_unit := Some unit |}.

(** A store of an older shape: products with the single text column
    [name], and orders without the later columns. *)
Definition legacy_db : Schema.db :=
  {| Schema.tables :=
       {[ "products" :=
            {| Schema.t_cols := ["id"; "supplier_id"; "name"];
               Schema.t_rows :=
                 [ {[ "id" := Schema.Int 1; "supplier_id" := Schema.Int 1;
                      "name" := Schema.Text "Kaluma King" ]} ] |};
          "orders" :=
            {| Schema.t_cols := ["id"; "created_at"; "total"];
               Schema.t_rows :=
                 [ {[ "id" := Schema.Int 1;
                      "created_at" := Schema.Text "2024-03-01 08:00:00";
                      "total" := Schema.Real (float_of_Z 250) ]} ] |} ]};
     Schema.indexes := ∅ |}.

Definition sample_seeds : Schema.seeds :=
  {| Schema.seed_now_ts := "2026-11-04 10:15:00";
     Schema.hash_admin := "scrypt:32768:8:1$a$1";
     Schema.hash_staff := "scrypt:32768:8:1$b$2" |}.

Definition later_seeds : Schema.seeds :=
  {| Schema.seed_now_ts := "2026-11-05 07:00:00";
     Schema.hash_admin := "scrypt:32768:8:1$c$3";
     Schema.hash_staff := "scrypt:32768:8:1$d$4" |}.

(** * Properties *)

Example canon_1x48 :
  _canon "1 X 48" = "1x48" /\ _canon "1x48" = "1x48" /\ _canon "1X48" = "1x48".
Proof. repeat split; reflexivity. Qed.

Example canon_pair_basmati :
  _canon_pair (Some "Basmati Sunrice") (Some "5X5Kg Z")
  = _canon_pair (Some "basmati sunrice 5x5kgz") (Some "").
Proof. reflexivity. Qed.

Example canon_samples :
  _canon "  Kaluma   Balm 4gm 1 x 24 x 24pkt " = "kaluma balm 4g 1x24x24pk"
  /\ _canon "500gm Z" = "500gz"
  /\ _canon "72pkts" = "72pks"
  /\ _canon "72pk" = "72pk"
  /\ _canon "pktt" = "pkt"
  /\ _canon "pkt" = "pk".
Proof. repeat split; reflexivity. Qed.

Example round2_samples :
  PyNum.decimal_float "250" = Some (S754_finite false 8796093022208000 (-45))
  /\ option_map PyNum.round2 (PyNum.decimal_float "2.675") = PyNum.decimal_float "2.67"
  /\ option_map PyNum.round2 (PyNum.decimal_float "0.125") = PyNum.decimal_float "0.12"
  /\ option_map PyNum.round2 (PyNum.decimal_float "0.375") = PyNum.decimal_float "0.38"
  /\ option_map PyNum.round2 (PyNum.decimal_float "250.004") = PyNum.decimal_float "250"
  /\ option_map PyNum.round2 (PyNum.decimal_float "-0.001") = Some (S754_zero true)
  /\ PyNum.of_int 250 = PyNum.Ok (S754_finite false 8796093022208000 (-45)).
Proof. repeat split; vm_compute; reflexivity. Qed.

(** ** Python strings *)

Section Strip.
Import PyStr.

Lemma rstrip_idem s : rstrip (rstrip s) = rstrip s.
Proof.
  induction s as [|c s IH]; cbn; [done|].
  destruct (rstrip s) as [|d r] eqn:Hr.
  - destruct (is_space c) eqn:Hc; cbn; [done|]. by rewrite Hc.
  - cbn [rstrip]. cbn [rstrip] in IH. by rewrite IH.
Qed.

Lemma rstrip_cons_keep c s :
  is_space c = false -> exists r, rstrip (String c s) = String c r.
Proof.
  intros Hc. cbn. destruct (rstrip s); [rewrite Hc|]; eauto.
Qed.

Lemma lstrip_head s :
  lstrip s = "" \/ exists c t, lstrip s = String c t /\ is_space c = false.
Proof.
  induction s as [|c s IH]; cbn; [by left|].
  destruct (is_space c) eqn:Hc; [done|]. right. eauto.
Qed.

Lemma lstrip_keep c s : is_space c = false -> lstrip (String c s) = String c s.
Proof. intros Hc. cbn. by rewrite Hc. Qed.

Lemma strip_head s :
  strip s = "" \/ exists c t, strip s = String c t /\ is_space c = false.
Proof.
  unfold strip. destruct (lstrip_head s) as [->|(c & t & -> & Hc)]; [by left|].
  right. destruct (rstrip_cons_keep c t Hc) as [r ->]. eauto.
Qed.

(** [strip] leaves a stripped text as it is. *)
Lemma strip_idem s : strip (strip s) = strip s.
Proof.
  destruct (strip_head s) as [E|(c & t & E & Hc)].
  - by rewrite E.
  - unfold strip at 1. rewrite E, (lstrip_keep _ _ Hc), <- E.
    unfold strip. apply rstrip_idem.
Qed.

End Strip.

Section Replace.
Import PyStr.

Lemma append_cons c s t : String c s ++ t = String c (s ++ t).
Proof. reflexivity. Qed.

Lemma append_nil_l s : "" ++ s = s.
Proof. reflexivity. Qed.

Lemma append_nil_r s : s ++ "" = s.
Proof. induction s as [|c s IH]; [done | by rewrite append_cons, IH]. Qed.

Lemma append_not_empty a b : a <> "" -> a ++ b <> "".
Proof. destruct a; [done|]. by rewrite append_cons. Qed.

Lemma append_assoc a b c : (a ++ b) ++ c = a ++ (b ++ c).
Proof. induction a as [|x a IH]; [done | by rewrite !append_cons, IH]. Qed.

Lemma length_append a b :
  String.length (a ++ b) = (String.length a + String.length b)%nat.
Proof.
  induction a as [|x a IH]; [done|]. rewrite append_cons. cbn. by rewrite IH.
Qed.

Lemma prefix_nil s : String.prefix "" s = true.
Proof. by destruct s. Qed.

Lemma prefix_append old rest : String.prefix old (old ++ rest) = true.
Proof.
  induction old as [|c old IH]; [by destruct rest|].
  rewrite append_cons. cbn. by destruct (ascii_dec c c).
Qed.

Lemma prefix_split old s :
  String.prefix old s = true -> exists rest, s = old ++ rest.
Proof.
  revert s. induction old as [|c old IH]; intros s.
  - intros _. by exists s.
  - destruct s as [|d s]; cbn; [discriminate|].
    destruct (ascii_dec c d) as [->|]; [|discriminate].
    intros [rest ->]%IH. by exists rest.
Qed.


Lemma string_drop_append a b : string_drop (String.length a) (a ++ b) = b.
Proof.
  induction a as [|x a IH]; [by destruct b|]. rewrite append_cons. by cbn.
Qed.

Lemma string_drop_length n s : String.length (string_drop n s) <= String.length s.
Proof.
  revert s. induction n as [|n IH]; intros [|c s]; cbn; try lia.
  specialize (IH s). lia.
Qed.

Lemma replace_go_skip old new k s :
  replace_go old new k s = replace_go old new 0 (string_drop k s).
Proof.
  revert k. induction s as [|c s IH]; intros [|k]; try done.
  cbn [replace_go string_drop]. apply IH.
Qed.

Lemma replace_go_match old new rest :
  old <> "" ->
  replace_go old new 0 (old ++ rest) = new ++ replace_go old new 0 rest.
Proof.
  destruct old as [|c old]; [done|]. intros _.
  rewrite append_cons. cbn [replace_go]. rewrite <- append_cons.
  rewrite prefix_append, replace_go_skip. cbn [String.length Nat.sub].
  by rewrite Nat.sub_0_r, string_drop_append.
Qed.

(** The scan of [replace], as an induction principle: [P s out] relates a
    text with what the scan makes of it. *)
Lemma replace_ind (old new : string) (P : string -> string -> Prop) :
  old <> "" ->
  P "" "" ->
  (forall c s out,
      String.prefix old (String c s) = false -> P s out ->
      P (String c s) (String c out)) ->
  (forall rest out, P rest out -> P (old ++ rest) (new ++ out)) ->
  forall s, P s (replace old new s).
Proof.
  intros Hold Hnil Hkeep Hmatch s.
  assert (Hrep : replace old new s = replace_go old new 0 s).
  { unfold replace. by destruct old. }
  rewrite Hrep. clear Hrep.
  remember (String.length s) as n eqn:Hn.
  revert s Hn. induction n as [n IH] using lt_wf_ind. intros s Hn.
  destruct s as [|c s]; [done|].
  destruct (String.prefix old (String c s)) eqn:Hp.
  - destruct (prefix_split _ _ Hp) as [rest Hs]. rewrite Hs.
    rewrite replace_go_match by done. apply Hmatch.
    apply (IH (String.length rest)); [|done].
    rewrite Hn, Hs, length_append. destruct old; [done | cbn; lia].
  - cbn [replace_go]. rewrite Hp. apply Hkeep; [done|].
    apply (IH (String.length s)); [|done]. rewrite Hn. cbn. lia.
Qed.

Lemma contains_prefix old s : String.prefix old s = true -> contains old s = true.
Proof. intros H. destruct s; cbn in *; by rewrite H. Qed.

Lemma contains_tail old c s : contains old (String c s) = false -> contains old s = false.
Proof. cbn [contains]. by intros [_ H]%orb_false_elim. Qed.

(** Without an occurrence of [old] the text stays as it is. *)
Lemma replace_absent old new s :
  old <> "" -> contains old s = false -> replace old new s = s.
Proof.
  intros Hold. revert s.
  apply (replace_ind old new (fun s out => contains old s = false -> out = s)); try done.
  - intros c s out _ IH Hc. f_equal. apply IH. by apply contains_tail in Hc.
  - intros rest out _ Hc.
    by rewrite (contains_prefix _ _ (prefix_append old rest)) in Hc.
Qed.

Lemma all_chars_append f a b :
  all_chars f (a ++ b) = all_chars f a && all_chars f b.
Proof.
  induction a as [|x a IH]; [done|]. rewrite append_cons. cbn.
  by rewrite IH, andb_assoc.
Qed.

Lemma replace_all_chars f old new s :
  old <> "" -> all_chars f new = true -> all_chars f s = true ->
  all_chars f (replace old new s) = true.
Proof.
  intros Hold Hnew. revert s.
  apply (replace_ind old new
           (fun s out => all_chars f s = true -> all_chars f out = true)); try done.
  - intros c s out _ IH. cbn. intros [-> H]%andb_prop. by rewrite IH.
  - intros rest out IH. rewrite !all_chars_append.
    intros [_ H]%andb_prop. by rewrite Hnew, IH.
Qed.

(** A one-character [old] that is not in [new] is gone afterwards. *)
Lemma replace_char_gone c new s :
  all_chars (fun d => negb (Ascii.eqb d c)) new = true ->
  all_chars (fun d => negb (Ascii.eqb d c)) (replace (String c "") new s) = true.
Proof.
  intros Hnew. revert s.
  apply (replace_ind (String c "") new
           (fun s out => all_chars (fun d => negb (Ascii.eqb d c)) out = true)); try done.
  - intros d s out Hp IH. cbn. rewrite IH, andb_true_r.
    cbn in Hp. destruct (ascii_dec c d) as [->|Hne].
    + by destruct s.
    + apply negb_true_iff, Ascii.eqb_neq. congruence.
  - intros rest out IH. by rewrite all_chars_append, Hnew, IH.
Qed.

Lemma replace_length old new s :
  old <> "" -> String.length new < String.length old ->
  String.length (replace old new s) <= String.length s
  /\ (contains old s = true -> String.length (replace old new s) < String.length s).
Proof.
  intros Hold Hlen. revert s.
  apply (replace_ind old new
           (fun s out =>
              String.length out <= String.length s
              /\ (contains old s = true -> String.length out < String.length s)));
    try done.
  - split; [done|]. destruct old; [done | discriminate].
  - intros c s out Hp [IH1 IH2]. cbn [String.length contains]. rewrite Hp.
    split; [lia|]. cbn. intros H%IH2. lia.
  - intros rest out [IH1 _]. rewrite !length_append. split; [lia|]. intros _. lia.
Qed.

Lemma contains_spec q s :
  contains q s = true <-> exists l r, s = l ++ q ++ r.
Proof.
  split.
  - induction s as [|c s IH]; cbn [contains].
    + rewrite orb_false_r. intros [r Hr]%prefix_split. exists "", r. exact Hr.
    + intros [[r Hr]%prefix_split | (l & r & ->)%IH]%orb_prop.
      * exists "", r. exact Hr.
      * exists (String c l), r. reflexivity.
  - intros (l & r & ->). induction l as [|c l IH].
    + rewrite append_nil_l. apply contains_prefix, prefix_append.
    + rewrite append_cons. cbn [contains]. by rewrite IH, orb_true_r.
Qed.

(** A text without [p] has no longer pattern around [p] either. *)
Lemma contains_around a p b s :
  contains p s = false -> contains (a ++ p ++ b) s = false.
Proof.
  intros Hp. apply not_true_iff_false. intros (l & r & ->)%contains_spec.
  apply not_true_iff_false in Hp. apply Hp, contains_spec.
  exists (l ++ a), (b ++ r). by rewrite !append_assoc.
Qed.

Lemma last_char_none s : last_char s = None -> s = "".
Proof.
  destruct s as [|c s]; [done|]. cbn. by destruct (last_char s).
Qed.

Lemma last_char_append a b :
  last_char (a ++ b) = match last_char b with None => last_char a | l => l end.
Proof.
  induction a as [|c a IH]; [rewrite append_nil_l; by destruct (last_char b)|].
  rewrite append_cons. cbn. rewrite IH.
  destruct (last_char b); [done|]. by destruct (last_char a).
Qed.

Lemma first_char_append a b :
  first_char (a ++ b) = match first_char a with None => first_char b | f => f end.
Proof. destruct a; [by rewrite append_nil_l | done]. Qed.

Lemma no_bad_append bad p a b :
  no_bad bad p (a ++ b)
  = no_bad bad p a && no_bad bad (match last_char a with None => p | l => l end) b.
Proof.
  revert p. induction a as [|c a IH]; intros p; [by rewrite append_nil_l|].
  rewrite append_cons. cbn. rewrite IH, andb_assoc.
  by destruct (last_char a).
Qed.

Lemma no_bad_prev bad q q' s :
  (forall n, bad q' n = true -> bad q n = true) ->
  no_bad bad (Some q) s = true -> no_bad bad (Some q') s = true.
Proof.
  intros Hq. destruct s as [|c s]; [done|]. cbn.
  intros [Hc ->]%andb_prop. rewrite andb_true_r.
  apply negb_true_iff, not_true_iff_false. intros H%Hq.
  by rewrite H in Hc.
Qed.

Lemma no_bad_no_prev bad p s : no_bad bad p s = true -> no_bad bad None s = true.
Proof. destruct s as [|c s]; [done|]. cbn. by intros [_ ->]%andb_prop. Qed.

Lemma no_bad_first bad p s c :
  no_bad bad (Some p) s = true -> first_char s = Some c -> bad p c = false.
Proof.
  destruct s as [|d s]; [done|]. cbn. intros [H _]%andb_prop [= ->].
  by apply negb_true_iff.
Qed.

(** A replacement keeps a text free of bad neighbours when [new] has none
    and its ends are no worse than those of [old]. *)
Lemma replace_no_bad bad old new ho lo hn ln :
  first_char old = Some ho -> last_char old = Some lo ->
  first_char new = Some hn -> last_char new = Some ln ->
  (forall p, bad p hn = true -> bad p ho = true) ->
  (forall n, bad ln n = true -> bad lo n = true) ->
  no_bad bad None new = true ->
  forall s p, no_bad bad p s = true -> no_bad bad p (replace old new s) = true.
Proof.
  intros Hho Hlo Hhn Hln HL HR Hnew.
  assert (Hold : old <> "") by (by intros ->).
  apply (replace_ind old new
           (fun s out => forall p, no_bad bad p s = true -> no_bad bad p out = true));
    try done.
  - intros c s out _ IH p. cbn. intros [-> H]%andb_prop. by rewrite IH.
  - intros rest out IH p. rewrite !no_bad_append, Hlo, Hln.
    intros [Ho Hr]%andb_prop. apply andb_true_intro. split.
    + destruct new as [|n new]; [done|]. injection Hhn as ->.
      destruct old as [|o old]; [done|]. injection Hho as ->.
      cbn in *. apply andb_prop in Ho as [Ho _]. rewrite Hnew, andb_true_r.
      destruct p as [q|]; [|done].
      apply negb_true_iff, not_true_iff_false. intros H%HL. by rewrite H in Ho.
    + apply IH in Hr. by apply (no_bad_prev bad lo ln).
Qed.

Lemma replace_first old new s :
  old <> "" ->
  not_space (first_char s) = true ->
  (new <> "" /\ not_space (first_char new) = true)
  \/ not_space (first_char old) = false ->
  not_space (first_char (replace old new s)) = true.
Proof.
  intros Hold Hs Hcond. revert s Hs.
  apply (replace_ind old new
           (fun s out => not_space (first_char s) = true ->
                         not_space (first_char out) = true)); try done.
  intros rest out _. rewrite !first_char_append.
  destruct old as [|o old]; [done|]. cbn [first_char]. intros Ho.
  destruct Hcond as [[Hn Hf]|Hf]; [|cbn [first_char] in Hf; congruence].
  by destruct new.
Qed.

Lemma replace_last old new s :
  old <> "" -> new <> "" ->
  not_space (last_char s) = true ->
  not_space (last_char new) = true \/ not_space (last_char old) = false ->
  not_space (last_char (replace old new s)) = true.
Proof.
  intros Hold Hnew Hs Hcond.
  cut ((s = "" <-> replace old new s = "")
       /\ (not_space (last_char s) = true ->
           not_space (last_char (replace old new s)) = true)).
  { intros [_ H]. by apply H. }
  clear Hs. revert s.
  apply (replace_ind old new
           (fun s out =>
              (s = "" <-> out = "")
              /\ (not_space (last_char s) = true -> not_space (last_char out) = true)));
    try done.
  - intros c s out _ [Hemp IH]. split; [done|]. cbn [last_char].
    destruct (last_char s) as [l|] eqn:Hl.
    + destruct (last_char out) as [l'|] eqn:Hl'; [done|].
      apply last_char_none, Hemp in Hl'. by subst.
    + apply last_char_none, Hemp in Hl as ->. done.
  - intros rest out [Hemp IH]. split.
    + split; intros H.
      * by apply (append_not_empty old rest) in H.
      * by apply (append_not_empty new out) in H.
    + rewrite !last_char_append.
      destruct (last_char rest) as [l|] eqn:Hl.
      * intros H%IH. destruct (last_char out) eqn:Ho; [done|].
        apply last_char_none, Hemp in Ho. by subst.
      * apply last_char_none, Hemp in Hl as ->. cbn [last_char].
        intros Ho. destruct Hcond; congruence.
Qed.

(** The loop that collapses the spaces ends with no two spaces in a row:
    the length of the text is fuel enough. *)
Lemma collapse_loop_done fuel s :
  String.length s <= fuel -> contains "  " (collapse_loop fuel s) = false.
Proof.
  revert s. induction fuel as [|fuel IH]; intros s Hlen; cbn [collapse_loop].
  - destruct s; [reflexivity | cbn in Hlen; lia].
  - destruct (contains "  " s) eqn:Hc; [|done]. apply IH.
    destruct (replace_length "  " " " s) as [_ H]; [done | cbn; lia |].
    specialize (H Hc). lia.
Qed.

Lemma collapse_loop_keeps (Q : string -> Prop) fuel s :
  (forall t, Q t -> Q (replace "  " " " t)) -> Q s -> Q (collapse_loop fuel s).
Proof.
  intros Hstep. revert s. induction fuel as [|fuel IH]; intros s Hs; [done|].
  cbn [collapse_loop]. destruct (contains "  " s); [|done]. by apply IH, Hstep.
Qed.

Lemma collapse_loop_absent fuel s :
  contains "  " s = false -> collapse_loop fuel s = s.
Proof. destruct fuel; [done|]. cbn [collapse_loop]. by intros ->. Qed.

Lemma no_double_space s p :
  contains "  " s = false ->
  (p = Some " "%char -> first_char s <> Some " "%char) ->
  no_bad bad_sp_sp p s = true.
Proof.
  revert p. induction s as [|c s IH]; intros p Hc Hp; [done|].
  cbn [no_bad]. apply andb_true_intro. split.
  - destruct p as [q|]; [|done]. unfold bad_sp_sp, is_sp.
    destruct (Ascii.eqb_spec q " ") as [Eq|Nq]; [|done].
    destruct (Ascii.eqb_spec c " ") as [Ec|Nc]; [|done].
    subst. by destruct Hp.
  - apply IH; [by apply contains_tail in Hc|].
    intros [= ->] Hf. destruct s as [|d s]; [done|]. injection Hf as ->.
    cbn in Hc. by rewrite prefix_nil in Hc.
Qed.

(** A text without bad neighbours has no occurrence of a bad pair. *)
Lemma no_bad_contains bad a b s p :
  bad a b = true -> no_bad bad p s = true ->
  contains (String a (String b "")) s = false.
Proof.
  intros Hab. revert p. induction s as [|c s IH]; intros p; [done|].
  cbn [no_bad contains]. intros [_ Hs]%andb_prop.
  rewrite (IH _ Hs), orb_false_r.
  destruct s as [|d s]; cbn.
  - destruct (ascii_dec a c); done.
  - destruct (ascii_dec a c) as [->|]; [|done].
    destruct (ascii_dec b d) as [->|]; [|done].
    cbn in Hs. by rewrite Hab in Hs.
Qed.

(** After [replace(" x", "x")] no space stands before an [x]. *)
Lemma replace_space_x s :
  no_bad bad_sp_sp None s = true ->
  no_bad bad_sp_any None (replace " x" "x" s) = true.
Proof.
  cut (forall p,
          no_bad bad_sp_sp p s = true ->
          (p = Some " "%char -> first_char s <> Some "x"%char) ->
          no_bad bad_sp_any p (replace " x" "x" s) = true).
  { intros H Hs. by apply H. }
  revert s.
  apply (replace_ind " x" "x"
           (fun s out =>
              forall p,
                no_bad bad_sp_sp p s = true ->
                (p = Some " "%char -> first_char s <> Some "x"%char) ->
                no_bad bad_sp_any p out = true)); try done.
  - intros c s out Hpre IH p. cbn [no_bad first_char].
    intros [Hc Hs]%andb_prop Hp. apply andb_true_intro. split.
    + destruct p as [q|]; [|done]. revert Hc.
      unfold bad_sp_sp, bad_sp_any, is_sp, is_x.
      destruct (Ascii.eqb_spec q " ") as [Eq|Nq]; [|done].
      destruct (Ascii.eqb_spec c " ") as [Ec|Nc]; [done|].
      destruct (Ascii.eqb_spec c "x") as [Ex|Nx]; [|done].
      subst. by destruct Hp.
    + apply IH; [done|]. intros [= ->] Hf.
      destruct s as [|d s]; [done|]. injection Hf as ->. cbn in Hpre.
      by rewrite prefix_nil in Hpre.
  - intros rest out IH p.
    change (" x" ++ rest) with (String " " (String "x" rest)).
    change ("x" ++ out) with (String "x" out).
    cbn [no_bad]. intros [Hc [_ Hs]%andb_prop]%andb_prop _.
    apply andb_true_intro. split.
    + destruct p as [q|]; [|done]. revert Hc.
      unfold bad_sp_sp, bad_sp_any, is_sp, is_x.
      destruct (Ascii.eqb_spec q " ") as [Eq|Nq]; done.
    + by apply IH.
Qed.

(** After [replace("x ", "x")] no space stands after an [x] either. *)
Lemma replace_x_space s :
  no_bad bad_sp_any None s = true ->
  no_bad bad_tight None (replace "x " "x" s) = true.
Proof.
  cut (forall p,
          no_bad bad_sp_any p s = true ->
          (p = Some "x"%char -> first_char s <> Some " "%char) ->
          no_bad bad_tight p (replace "x " "x" s) = true).
  { intros H Hs. by apply H. }
  revert s.
  apply (replace_ind "x " "x"
           (fun s out =>
              forall p,
                no_bad bad_sp_any p s = true ->
                (p = Some "x"%char -> first_char s <> Some " "%char) ->
                no_bad bad_tight p out = true)); try done.
  - intros c s out Hpre IH p. cbn [no_bad first_char].
    intros [Hc Hs]%andb_prop Hp. apply andb_true_intro. split.
    + destruct p as [q|]; [|done]. revert Hc.
      unfold bad_tight, bad_sp_any, is_sp, is_x.
      intros Hc%negb_true_iff. rewrite Hc. cbn [orb].
      destruct (Ascii.eqb_spec q "x") as [Eq|Nq]; [|done].
      destruct (Ascii.eqb_spec c " ") as [Ec|Nc]; [|done].
      subst. by destruct Hp.
    + apply IH; [done|]. intros [= ->] Hf.
      destruct s as [|d s]; [done|]. injection Hf as ->. cbn in Hpre.
      by rewrite prefix_nil in Hpre.
  - intros rest out IH p.
    change ("x " ++ rest) with (String "x" (String " " rest)).
    change ("x" ++ out) with (String "x" out).
    cbn [no_bad]. intros [Hc [_ Hs]%andb_prop]%andb_prop _.
    apply andb_true_intro. split.
    + destruct p as [q|]; [|done]. revert Hc.
      unfold bad_tight, bad_sp_any, is_sp, is_x.
      destruct (Ascii.eqb_spec q " ") as [Eq|Nq]; [done|].
      cbn. by rewrite andb_false_r.
    + apply IH.
      * by apply (no_bad_prev bad_sp_any " " "x").
      * intros _ Hf. pose proof (no_bad_first _ _ _ _ Hs Hf) as E. by vm_compute in E.
Qed.

Lemma lstrip_fixed s : not_space (first_char s) = true -> lstrip s = s.
Proof.
  destruct s as [|c s]; [done|]. cbn. by intros ->%negb_true_iff.
Qed.

Lemma rstrip_fixed s : not_space (last_char s) = true -> rstrip s = s.
Proof.
  induction s as [|c s IH]; [done|]. cbn [last_char rstrip].
  destruct (last_char s) as [l|] eqn:Hl.
  - intros H. rewrite (IH H). destruct s; [discriminate | done].
  - apply last_char_none in Hl as ->. cbn. by intros ->%negb_true_iff.
Qed.

Lemma strip_fixed s :
  not_space (first_char s) = true -> not_space (last_char s) = true -> strip s = s.
Proof.
  intros Hf Hl. unfold strip. rewrite (lstrip_fixed s Hf). by apply rstrip_fixed.
Qed.

Lemma rstrip_last s : not_space (last_char (rstrip s)) = true.
Proof.
  induction s as [|c s IH]; [done|]. cbn [rstrip].
  destruct (rstrip s) as [|d r] eqn:Hr.
  - destruct (is_space c) eqn:Hc; [done|]. cbn. by rewrite Hc.
  - cbn [last_char] in *. by destruct (last_char r).
Qed.

Lemma strip_first s : not_space (first_char (strip s)) = true.
Proof.
  destruct (strip_head s) as [->|(c & t & -> & Hc)]; [done|]. cbn. by rewrite Hc.
Qed.

Lemma strip_last s : not_space (last_char (strip s)) = true.
Proof. apply rstrip_last. Qed.

Lemma lower_char_space c : is_space (lower_char c) = is_space c.
Proof. by destruct c as [[] [] [] [] [] [] [] []]. Qed.

Lemma lower_char_fixed c : lower_fixed (lower_char c) = true.
Proof. by destruct c as [[] [] [] [] [] [] [] []]. Qed.

Lemma lower_first s : not_space (first_char (lower s)) = not_space (first_char s).
Proof. destruct s as [|c s]; [done|]. cbn. by rewrite lower_char_space. Qed.

Lemma lower_last s : not_space (last_char (lower s)) = not_space (last_char s).
Proof.
  induction s as [|c s IH]; [done|]. cbn [lower last_char].
  destruct (last_char s) as [l|] eqn:Hl.
  - destruct (last_char (lower s)) as [l'|] eqn:Hl'; [done|].
    apply last_char_none in Hl'. by destruct s.
  - apply last_char_none in Hl as ->. cbn. by rewrite lower_char_space.
Qed.

Lemma lower_all_fixed s : all_chars lower_fixed (lower s) = true.
Proof.
  induction s as [|c s IH]; [done|]. cbn. by rewrite lower_char_fixed, IH.
Qed.

Lemma lower_fixed_string s : all_chars lower_fixed s = true -> lower s = s.
Proof.
  induction s as [|c s IH]; [done|]. cbn.
  intros [Hc Hs]%andb_prop. rewrite (IH Hs). f_equal.
  by apply Ascii.eqb_eq.
Qed.

Lemma lower_strip_trimmed s : trimmed (lower (strip s)).
Proof.
  split_and!.
  - rewrite lower_first. apply strip_first.
  - rewrite lower_last. apply strip_last.
  - apply lower_all_fixed.
Qed.

Lemma replace_trimmed old new s :
  keeps_trim old new = true -> trimmed s -> trimmed (replace old new s).
Proof.
  unfold keeps_trim.
  destruct (first_char old) as [ho|] eqn:Hho; [|done].
  destruct (last_char old) as [lo|] eqn:Hlo; [|done].
  destruct (first_char new) as [hn|] eqn:Hhn; [|done].
  destruct (last_char new) as [ln|] eqn:Hln; [|done].
  intros [[Hlow Hf]%andb_prop Hl]%andb_prop (Hsf & Hsl & Hslow).
  assert (Hold : old <> "") by (by intros ->).
  assert (Hnew : new <> "") by (by intros ->).
  split_and!.
  - apply replace_first; [done | done |]. rewrite Hho, Hhn. cbn.
    apply orb_prop in Hf as [Hf|Hf]; [by left | right; by rewrite Hf].
  - apply replace_last; [done | done | done |]. rewrite Hlo, Hln. cbn.
    apply orb_prop in Hl as [Hl|Hl]; [by left | right; by rewrite Hl].
  - by apply replace_all_chars.
Qed.

Lemma same_class_bad_l a b p :
  same_class a b = true -> bad_tight p b = bad_tight p a.
Proof.
  unfold same_class, bad_tight.
  intros [H1%Bool.eqb_prop H2%Bool.eqb_prop]%andb_prop. by rewrite H1, H2.
Qed.

Lemma same_class_bad_r a b n :
  same_class a b = true -> bad_tight b n = bad_tight a n.
Proof.
  unfold same_class, bad_tight.
  intros [H1%Bool.eqb_prop H2%Bool.eqb_prop]%andb_prop. by rewrite H1, H2.
Qed.

Lemma replace_tight old new s :
  keeps_tight old new = true ->
  no_bad bad_tight None s = true -> no_bad bad_tight None (replace old new s) = true.
Proof.
  unfold keeps_tight.
  destruct (first_char old) as [ho|] eqn:Hho; [|done].
  destruct (last_char old) as [lo|] eqn:Hlo; [|done].
  destruct (first_char new) as [hn|] eqn:Hhn; [|done].
  destruct (last_char new) as [ln|] eqn:Hln; [|done].
  intros [[Hf Hl]%andb_prop Hnew]%andb_prop.
  apply (replace_no_bad bad_tight old new ho lo hn ln); try done.
  - intros p. by rewrite (same_class_bad_l ho hn).
  - intros n. by rewrite (same_class_bad_r lo ln).
Qed.

Lemma endswith_split suffix s :
  endswith suffix s = true -> exists t, s = t ++ suffix.
Proof.
  induction s as [|c s IH]; cbn [endswith].
  - rewrite orb_false_r. intros ->%String.eqb_eq. by exists "".
  - intros [->%String.eqb_eq | [t ->]%IH]%orb_prop.
    + by exists "".
    + by exists (String c t).
Qed.

Lemma snoc_inj t u z y :
  t ++ String z "" = u ++ String y "" -> t = u /\ z = y.
Proof.
  revert u. induction t as [|c t IH]; intros [|d u]; rewrite ?append_cons, ?append_nil_l.
  - by intros [= ->].
  - intros [= -> H]. destruct u; discriminate.
  - intros [= -> H]. destruct t; discriminate.
  - intros [= -> [-> ->]%IH]. done.
Qed.

Lemma drop_last2_snoc t a b : drop_last2 (t ++ String a (String b "")) = t.
Proof.
  induction t as [|c t IH]; [done|]. rewrite append_cons.
  assert (H : exists x y r, t ++ String a (String b "") = String x (String y r)).
  { destruct t as [|x [|y t]]; rewrite ?append_cons, ?append_nil_l; eauto. }
  destruct H as (x & y & r & E). rewrite E.
  change (drop_last2 (String c (String x (String y r))))
    with (String c (drop_last2 (String x (String y r)))).
  by rewrite <- E, IH.
Qed.

(** What folding the trailing letter does: it takes the space out of a
    text that ends in a space and the letter, and nothing else. *)
Lemma fold_tail_cases z s :
  (exists t, s = t ++ String " " (String z "")
             /\ fold_tail (String z "") s = t ++ String z "")
  \/ (endswith (String " " (String z "")) s = false
      /\ fold_tail (String z "") s = s).
Proof.
  unfold fold_tail. change (" " ++ String z "") with (String " " (String z "")).
  destruct (endswith _ s) eqn:He; [left | by right].
  destruct (endswith_split _ _ He) as [t ->]. exists t.
  by rewrite drop_last2_snoc.
Qed.

Lemma no_bad_snoc_space bad u rest p :
  bad " "%char " "%char = true ->
  no_bad bad p ((u ++ " ") ++ String " " rest) = false.
Proof.
  intros Hbad. rewrite append_assoc, no_bad_append.
  apply andb_false_intro2. change (" " ++ String " " rest) with (String " " (String " " rest)).
  cbn [no_bad]. rewrite Hbad. cbn. by rewrite andb_false_r.
Qed.

(** Folding a trailing letter keeps the shape of the text, and leaves no
    text that ends in a space and that letter. *)
Lemma fold_tail_shape z s :
  is_space z = false -> is_sp z = false -> is_x z = false ->
  lower_fixed z = true -> not_times z = true ->
  trimmed s -> all_chars not_times s = true -> no_bad bad_tight None s = true ->
  let out := fold_tail (String z "") s in
  trimmed out /\ all_chars not_times out = true /\ no_bad bad_tight None out = true
  /\ endswith (String " " (String z "")) out = false
  /\ (forall y, endswith (String " " (String y "")) s = false ->
                endswith (String " " (String y "")) out = false).
Proof.
  intros Hz1 Hz2 Hz3 Hz4 Hz5 (Hf & Hl & Hlow) Hnt Ht. cbn zeta.
  destruct (fold_tail_cases z s) as [(t & -> & ->)|[He ->]]; [|by split_and!].
  rewrite all_chars_append in Hlow, Hnt.
  apply andb_prop in Hlow as [Hlow _]. apply andb_prop in Hnt as [Hnt _].
  rewrite no_bad_append in Ht. apply andb_prop in Ht as [Ht Hj].
  assert (Hend : forall y, endswith (String " " (String y "")) (t ++ String z "") = false).
  { intros y. apply not_true_iff_false. intros [u E]%endswith_split.
    change (String " " (String y "")) with (" " ++ String y "") in E.
    rewrite <- append_assoc in E. apply snoc_inj in E as [-> _].
    rewrite last_char_append in Hj. cbn in Hj. discriminate. }
  split_and!; [unfold trimmed; split_and! | | | apply Hend | intros y _; apply Hend].
  - rewrite first_char_append. rewrite first_char_append in Hf.
    destruct (first_char t); [done|]. cbn. by rewrite Hz1.
  - rewrite last_char_append. cbn. by rewrite Hz1.
  - rewrite all_chars_append, Hlow. cbn. by rewrite Hz4.
  - rewrite all_chars_append, Hnt. cbn. by rewrite Hz5.
  - rewrite no_bad_append, Ht. cbn. rewrite andb_true_r.
    destruct (last_char t) as [q|]; [|done]. cbn.
    unfold bad_tight. by rewrite Hz2, Hz3, !andb_false_r.
Qed.

Lemma fold_tail_fixed z s :
  endswith (String " " (String z "")) s = false -> fold_tail (String z "") s = s.
Proof.
  unfold fold_tail. change (" " ++ String z "") with (String " " (String z "")).
  by intros ->.
Qed.

(** A step of the pipeline that keeps a text trimmed, free of the
    multiplication sign and free of spaces next to a space or an [x]. *)
Lemma replace_rule old new s :
  keeps_trim old new = true -> keeps_tight old new = true ->
  all_chars not_times new = true ->
  trimmed s /\ all_chars not_times s = true /\ no_bad bad_tight None s = true ->
  trimmed (replace old new s)
  /\ all_chars not_times (replace old new s) = true
  /\ no_bad bad_tight None (replace old new s) = true.
Proof.
  intros H1 H2 H3 (Ht & Hn & Hb).
  assert (Hold : old <> "").
  { intros ->. by vm_compute in H1. }
  split_and!.
  - by apply replace_trimmed.
  - by apply replace_all_chars.
  - by apply replace_tight.
Qed.

Lemma empty_canonical : canonical "".
Proof. by repeat split. Qed.

(** Every key that [_canon] returns has the canonical shape. *)
Lemma canon_canonical text : canonical (_canon text).
Proof.
  unfold _canon. destruct text as [|c0 text0]; [apply empty_canonical|].
  set (text := String c0 text0). clearbody text. clear c0 text0.
  pose proof (lower_strip_trimmed text) as T0.
  set (s0 := lower (strip text)) in *. clearbody s0.
  (* the multiplication sign *)
  assert (T1 : trimmed (replace times_sign "x" s0)) by (by apply replace_trimmed).
  assert (N1 : all_chars not_times (replace times_sign "x" s0) = true).
  { by apply (replace_char_gone (ascii_of_nat 215) "x"). }
  set (s1 := replace times_sign "x" s0) in *. clearbody s1. clear T0 s0.
  (* runs of spaces *)
  assert (T2 : trimmed (collapse_spaces s1)).
  { apply (collapse_loop_keeps trimmed); [|done]. intros t. by apply replace_trimmed. }
  assert (N2 : all_chars not_times (collapse_spaces s1) = true).
  { apply (collapse_loop_keeps (fun t => all_chars not_times t = true)); [|done].
    intros t. by apply replace_all_chars. }
  assert (B2 : no_bad bad_sp_sp None (collapse_spaces s1) = true).
  { apply no_double_space; [|done]. by apply collapse_loop_done. }
  set (s2 := collapse_spaces s1) in *. clearbody s2. clear T1 N1 s1.
  (* spaces around x *)
  unfold squeeze_x.
  assert (T3 : trimmed (replace " x " "x" s2)) by (by apply replace_trimmed).
  assert (N3 : all_chars not_times (replace " x " "x" s2) = true)
    by (by apply replace_all_chars).
  assert (B3 : no_bad bad_sp_sp None (replace " x " "x" s2) = true).
  { apply (replace_no_bad bad_sp_sp " x " "x" " " " " "x" "x"); try done.
    intros p. unfold bad_sp_sp. by rewrite andb_false_r. }
  set (s3 := replace " x " "x" s2) in *. clearbody s3. clear T2 N2 B2 s2.
  assert (T4 : trimmed (replace " x" "x" s3)) by (by apply replace_trimmed).
  assert (N4 : all_chars not_times (replace " x" "x" s3) = true)
    by (by apply replace_all_chars).
  assert (B4 := replace_space_x s3 B3).
  set (s4 := replace " x" "x" s3) in *. clearbody s4. clear T3 N3 B3 s3.
  assert (T5 : trimmed (replace "x " "x" s4)) by (by apply replace_trimmed).
  assert (N5 : all_chars not_times (replace "x " "x" s4) = true)
    by (by apply replace_all_chars).
  assert (B5 := replace_x_space s4 B4).
  set (s5 := replace "x " "x" s4) in *. clearbody s5. clear T4 N4 B4 s4.
  (* the unit spellings and the double space *)
  assert (S := conj T5 (conj N5 B5)). clear T5 N5 B5.
  unfold norm_pk, norm_g, norm_kg, norm_ml.
  repeat match goal with
         | S : trimmed ?s /\ _ |- context [replace ?old ?new ?s] =>
             apply (replace_rule old new s eq_refl eq_refl eq_refl) in S;
             let t := fresh "s" in
             set (t := replace old new s) in *; clearbody t
         end.
  destruct S as (T & N & B).
  (* the trailing letters *)
  destruct (fold_tail_shape "z" _ eq_refl eq_refl eq_refl eq_refl eq_refl T N B)
    as (Tz & Nz & Bz & Ez & _).
  destruct (fold_tail_shape "v" _ eq_refl eq_refl eq_refl eq_refl eq_refl Tz Nz Bz)
    as (Tv & Nv & Bv & Ev & Keep).
  split_and!; try done. by apply Keep.
Qed.

Lemma not_times_absent s :
  all_chars not_times s = true -> contains times_sign s = false.
Proof.
  induction s as [|c s IH]; [done|]. cbn [all_chars contains].
  intros [Hc Hs]%andb_prop. rewrite (IH Hs), orb_false_r.
  unfold times_sign. cbn.
  destruct (ascii_dec (ascii_of_nat 215) c) as [<-|]; [|done].
  by vm_compute in Hc.
Qed.

(** [_canon] leaves a canonical key without unit spellings as it is. *)
Lemma canon_fixed s : canonical s -> unit_free s -> _canon s = s.
Proof.
  intros ((Hf & Hl & Hlow) & Hnt & Hb & Hz & Hv) (Hpk & Hgm & Hkg & Hml).
  unfold _canon. destruct s as [|c0 s0]; [done|].
  set (s := String c0 s0) in *. clearbody s. clear c0 s0.
  rewrite (strip_fixed s Hf Hl), (lower_fixed_string s Hlow).
  rewrite (replace_absent times_sign "x" s) by (done || by apply not_times_absent).
  assert (Hss : contains "  " s = false)
    by (by apply (no_bad_contains bad_tight _ _ _ None)).
  assert (Hsx : contains " x" s = false)
    by (by apply (no_bad_contains bad_tight _ _ _ None)).
  assert (Hxs : contains "x " s = false)
    by (by apply (no_bad_contains bad_tight _ _ _ None)).
  unfold collapse_spaces. rewrite (collapse_loop_absent _ s Hss).
  unfold squeeze_x.
  rewrite (replace_absent " x " "x" s) by (done || exact (contains_around "" " x" " " s Hsx)).
  rewrite (replace_absent " x" "x" s), (replace_absent "x " "x" s) by done.
  unfold norm_pk.
  rewrite (replace_absent "pkt" "pk" s) by done.
  rewrite (replace_absent "pkts" "pk" s) by (done || exact (contains_around "" "pkt" "s" s Hpk)).
  unfold norm_g.
  rewrite (replace_absent " gms" " g" s) by (done || exact (contains_around " " "gm" "s" s Hgm)).
  rewrite (replace_absent " gm" " g" s) by (done || exact (contains_around " " "gm" "" s Hgm)).
  rewrite (replace_absent "gms" "g" s) by (done || exact (contains_around "" "gm" "s" s Hgm)).
  rewrite (replace_absent "gm" "g" s) by done.
  unfold norm_kg.
  rewrite (replace_absent " kgs" " kg" s) by (done || exact (contains_around " " "kgs" "" s Hkg)).
  rewrite (replace_absent "kgs" "kg" s) by done.
  unfold norm_ml.
  rewrite (replace_absent " mls" " ml" s) by (done || exact (contains_around " " "mls" "" s Hml)).
  rewrite (replace_absent "mls" "ml" s) by done.
  rewrite (replace_absent "  " " " s) by done.
  by rewrite (fold_tail_fixed "z" s Hz), (fold_tail_fixed "v" s Hv).
Qed.

End Replace.

(** ** Python floats *)

Example float_samples :
  PyNum.decimal_float "0.1" = Some (S754_finite false 7205759403792794 (-56))
  /\ (x ← PyNum.decimal_float "0.1"; y ← PyNum.decimal_float "0.2"; Some (PyNum.add x y))
     = Some (S754_finite false 5404319552844596 (-54))
  /\ option_map PyNum.round2 (PyNum.decimal_float "1.005") = PyNum.decimal_float "1"
  /\ option_map PyNum.round2 (PyNum.decimal_float "1234567.891")
     = PyNum.decimal_float "1234567.89"
  /\ option_map PyNum.round2 (PyNum.decimal_float "70368744177664.125")
     = PyNum.decimal_float "70368744177664.12"
  /\ option_map PyNum.round2 (PyNum.decimal_float "123456789012345678")
     = PyNum.decimal_float "123456789012345678"
  /\ option_map PyNum.to_int (PyNum.decimal_float "-2.9") = Some (PyNum.Ok (-2)%Z).
Proof. split_and!; vm_compute; reflexivity. Qed.

(** ** Order creation *)

Example sample_order_lines :
  let '(conn, resp) := orders_new plain_runtime sample_store (Some 2%Z) (sample_form None) in
  resp = Redirect "orders_history" "success" "Order ORD-20261104-0001 saved."
  /\ map (fun o => (o_total o, o_product_id o, o_quantity o, o_unit_price o))
       (orders conn)
     = [(Some (float_of_Z 250), Some 1%Z, Some 2%Z, Some (float_of_Z 100))]
  /\ map (fun o => option_map (map l_amount) (o_line_items o)) (orders conn)
     = [Some [float_of_Z 200; float_of_Z 50]].
Proof. vm_compute. repeat split; reflexivity. Qed.

(** Case analysis on the test of the conditional that heads the goal. *)
Ltac case_head_if :=
  match goal with
  | |- context [(if ?b then _ else _) = _] => destruct b eqn:?
  | |- context [fst (if ?b then _ else _)] => destruct b eqn:?
  end.

Lemma orders_new_post_saved rt conn uid form conn' msg :
  orders_new_post rt conn uid form = (conn', Redirect "orders_history" "success" msg) ->
  exists row l ls,
    conn' = set_orders conn (orders conn ++ [row])
              (Sql.next_rowid (map o_id (orders conn)) (orders_seq conn))
    /\ o_line_items row = Some (l :: ls)
    /\ o_total row =
         Sql.real
           (if PyNum.ltb PyNum.zero (manual_total_of rt (f_amount form))
            then manual_total_of rt (f_amount form)
            else PyNum.round2 (py_sum rt (map l_amount (l :: ls))))
    /\ (has_sales_rep_id conn || has_rep_id conn = true ->
        is_Some (resolve_rep conn uid (PyStr.strip (or_empty (f_sales_rep form))))).
Proof.
  unfold orders_new_post.
  destruct (pids_needed rt (f_product_ids form)) as [needed|]; [|discriminate].
  destruct (parse_lines _ _ _ _) as [[|l ls]|]; [discriminate| |discriminate].
  destruct (has_sales_rep_id conn || has_rep_id conn) eqn:Hcol; cbn [andb].
  - destruct (bool_decide _) eqn:Hrep; cbn [negb]; [|discriminate].
    case_head_if; [|discriminate].
    intros [= <- _]. eexists _, l, ls. split; [reflexivity|]. cbn.
    split_and!; try done. intros _. by apply bool_decide_eq_true in Hrep.
  - case_head_if; [|discriminate].
    intros [= <- _]. eexists _, l, ls. split; [reflexivity|]. cbn.
    split_and!; done.
Qed.

Lemma orders_new_inv rt conn uid form conn' msg :
  orders_new rt conn uid form = (conn', Redirect "orders_history" "success" msg) ->
  orders_new_post rt conn uid form = (conn', Redirect "orders_history" "success" msg).
Proof.
  unfold orders_new, login_required.
  destruct (current_user_row conn uid); [done | discriminate].
Qed.

(** C1: when an order is saved, the lines kept by the filter are not empty
    and the stored total is the override of the form when that is positive,
    and [round(sum of the line amounts, 2)] otherwise (a REAL column holds
    a NaN as NULL).  The lines (qty 2, price 100), (qty 1, price 50) store
    250.00 without an override, and 300.00 with the override 300 while
    their amounts still add up to 250.00. *)
Theorem order_total_override_or_sum :
  (forall rt conn uid form conn' msg,
      orders_new rt conn uid form
      = (conn', Redirect "orders_history" "success" msg) ->
      exists row l ls,
        orders conn' = (orders conn ++ [row])%list
        /\ o_line_items row = Some (l :: ls)
        /\ let manual_total := manual_total_of rt (f_amount form) in
           let total :=
             if PyNum.ltb PyNum.zero manual_total then manual_total
             else PyNum.round2 (py_sum rt (map l_amount (l :: ls))) in
           o_total row = Sql.real total
           /\ (total <> S754_nan -> o_total row = Some total))
  /\ (let conn := fst (orders_new plain_runtime sample_store (Some 2%Z) (sample_form None)) in
      map o_total (orders conn) = [PyNum.decimal_float "250.00"])
  /\ (let conn :=
        fst (orders_new plain_runtime sample_store (Some 2%Z) (sample_form (Some "300"))) in
      map o_total (orders conn) = [PyNum.decimal_float "300.00"]
      /\ map (fun o => option_map (fun ls => sum_left (map l_amount ls)) (o_line_items o))
           (orders conn)
         = [Some (float_of_Z 250)]
      /\ PyNum.decimal_float "250.00" = Some (float_of_Z 250)).
Proof.
  split; [|split; [|split_and!]]; [|by vm_compute..].
  intros rt conn uid form conn' msg H%orders_new_inv.
  apply orders_new_post_saved in H as (row & l & ls & -> & Hl & Ht & _).
  exists row, l, ls. cbn. split_and!; [done | done | done |].
  intros Hnan. rewrite Ht.
  destruct (if PyNum.ltb _ _ then _ else _); done.
Qed.

Lemma order_total_override_or_sum_witness :
  exists row l ls,
    orders (fst (orders_new plain_runtime sample_store (Some 2%Z) (sample_form (Some "300"))))
    = (orders sample_store ++ [row])%list
    /\ o_line_items row = Some (l :: ls)
    /\ let manual_total := manual_total_of plain_runtime (Some "300") in
       let total :=
         if PyNum.ltb PyNum.zero manual_total then manual_total
         else PyNum.round2 (sum_left (map l_amount (l :: ls))) in
       o_total row = Sql.real total
       /\ (total <> S754_nan -> o_total row = Some total).
Proof.
  destruct order_total_override_or_sum as [H _].
  apply (H plain_runtime sample_store (Some 2%Z) (sample_form (Some "300")) _
           "Order ORD-20261104-0001 saved.").
  vm_compute. reflexivity.
Defined.

Lemma find_none_forall {A} (f : A -> bool) (l : list A) :
  Forall (fun x => f x = false) l -> List.find f l = None.
Proof.
  induction 1 as [|x l Hx _ IH]; cbn; [done|]. by rewrite Hx.
Qed.

Lemma unresolvable_resolve_rep conn uid text :
  unresolvable conn uid text -> resolve_rep conn uid text = None.
Proof.
  intros (Hu & Ht & Hd). unfold resolve_rep. rewrite Hu.
  assert (Hs : forall n, (n = "staff" \/ n = "admin") ->
             List.find (fun u => String.eqb (u_username u) n) (users conn) = None).
  { intros n Hn. apply find_none_forall. eapply Forall_impl; [exact Hd|].
    intros u [H1 H2]. apply String.eqb_neq. destruct Hn; congruence. }
  rewrite !Hs by auto. cbn.
  destruct text; [done|].
  rewrite find_none_forall; [done|].
  eapply Forall_impl; [exact Ht|]. intros u [H1 H2]. cbn beta.
  apply orb_false_intro; by apply String.eqb_neq.
Qed.

(** C9: a request for which no representative can be resolved creates no
    order.  [POST /orders/new] stops at its login guard and leaves the store
    as it is; the view below the guard, on a store whose [orders] table has
    a representative column, rejects the form and leaves the store as it
    is as well. *)
Theorem unattributed_order_rejected rt conn uid form :
  unresolvable conn uid (PyStr.strip (or_empty (f_sales_rep form))) ->
  orders_new rt conn uid form
  = (conn, Redirect "login" "info" "Please login to continue.")
  /\ (has_sales_rep_id conn || has_rep_id conn = true ->
      fst (orders_new_post rt conn uid form) = conn
      /\ forall msg,
          snd (orders_new_post rt conn uid form)
          <> Redirect "orders_history" "success" msg).
Proof.
  intros Hun. split.
  - unfold orders_new, login_required. by destruct Hun as [-> _].
  - intros Hcol.
    assert (Hno : forall conn' msg,
               orders_new_post rt conn uid form
               <> (conn', Redirect "orders_history" "success" msg)).
    { intros conn' msg H.
      apply orders_new_post_saved in H as (_ & _ & _ & _ & _ & _ & Hrep).
      specialize (Hrep Hcol).
      rewrite (unresolvable_resolve_rep _ _ _ Hun) in Hrep. by destruct Hrep. }
    split.
    + revert Hno. unfold orders_new_post.
      destruct (pids_needed rt (f_product_ids form)) as [needed|]; [|done].
      destruct (parse_lines _ _ _ _) as [[|l ls]|]; [done| |done].
      rewrite Hcol. cbn [andb].
      destruct (bool_decide _); cbn [negb]; [|done].
      case_head_if; [|done].
      intros Hno. by edestruct Hno.
    + intros msg H. apply (Hno (fst (orders_new_post rt conn uid form)) msg).
      rewrite <- H. by destruct (orders_new_post rt conn uid form).
Qed.

Lemma unattributed_order_rejected_witness :
  orders_new plain_runtime store_without_users None (sample_form None)
  = (store_without_users, Redirect "login" "info" "Please login to continue.")
  /\ (has_sales_rep_id store_without_users || has_rep_id store_without_users = true ->
      fst (orders_new_post plain_runtime store_without_users None (sample_form None))
      = store_without_users
      /\ forall msg,
          snd (orders_new_post plain_runtime store_without_users None (sample_form None))
          <> Redirect "orders_history" "success" msg).
Proof.
  apply unattributed_order_rejected.
  repeat split; cbn; constructor.
Defined.

(** ** Order history *)

Lemma history_items_total pm items total its total' :
  history_items pm items total = PyNum.Ok (its, total') ->
  Forall2 (fun it hi => history_item_of pm it = PyNum.Ok hi) items its
  /\ total' = fold_left PyNum.add (map hi_amount its) total.
Proof.
  revert total its total'.
  induction items as [|it items IH]; intros total its total'; cbn.
  - intros [= <- <-]. split; [constructor | done].
  - destruct (history_item_of pm it) as [hi|] eqn:Hit; cbn; [|discriminate].
    destruct (history_items pm items _) as [[its0 t0]|] eqn:Hrest; cbn; [|discriminate].
    intros [= <- <-]. apply IH in Hrest as [HF ->].
    split; [by constructor | done].
Qed.





(** ** Order status *)

(** C4, as the code has it: a requested status whose trimmed, title-cased
    form is not Pending, Delivered or Cancelled is rejected and the store is
    left as it is; any other request sets the status of the order with that
    id to the requested one whatever its status was, sets the delivery date
    of an order marked Delivered when it had none, and leaves the other
    orders as they are. *)
Theorem status_update_sets_requested rt conn order_id status :
  let new_status := PyStr.title (PyStr.strip (or_empty status)) in
  let result := orders_update_status_post rt conn order_id status in
  if valid_status new_status then
    Forall2
      (fun o o' =>
         o_id o' = o_id o
         /\ (o_id o = order_id ->
             o_status o' = Some new_status
             /\ o_delivery_date o'
                = if String.eqb new_status "Delivered"
                  then Some (default (sql_today rt) (o_delivery_date o))
                  else o_delivery_date o)
         /\ (o_id o <> order_id -> o' = o))
      (orders conn) (orders (fst result))
    /\ snd result = Redirect "orders_history" "success" "Order status updated."
  else
    result = (conn, Redirect "orders_history" "error" "Invalid status.").
Proof.
  cbn zeta. unfold orders_update_status_post.
  destruct (valid_status _) eqn:Hv; cbn [negb]; [|done].
  split; [|done]. cbn [fst orders set_orders].
  apply Forall2_fmap_r, Forall_Forall2_diag, Forall_forall.
  intros o _. unfold compose, update_status.
  destruct (Z.eqb_spec (o_id o) order_id) as [Heq|Hne].
  - destruct (String.eqb _ "Delivered"); cbn; split_and!; done.
  - done.
Qed.

Lemma status_update_sets_requested_witness :
  Forall2
    (fun o o' =>
       o_id o' = o_id o
       /\ (o_id o = 1%Z ->
           o_status o' = Some "Cancelled" /\ o_delivery_date o' = o_delivery_date o)
       /\ (o_id o <> 1%Z -> o' = o))
    (orders delivered_store)
    (orders (fst (orders_update_status_post plain_runtime delivered_store 1
                    (Some " cancelled "))))
  /\ snd (orders_update_status_post plain_runtime delivered_store 1 (Some " cancelled "))
     = Redirect "orders_history" "success" "Order status updated.".
Proof.
  exact (status_update_sets_requested plain_runtime delivered_store 1 (Some " cancelled ")).
Defined.

(** A delivered order is set back to Pending by an administrator. *)
Lemma delivered_order_reopened :
  map o_status (orders delivered_store) = [Some "Delivered"]
  /\ map o_status
       (orders (fst (orders_update_status plain_runtime delivered_store (Some 1%Z) 1
                       (Some "Pending"))))
     = [Some "Pending"].
Proof. split; reflexivity. Qed.

(** ** Canonicalization *)

(** C3 at the label [72pkts]: the replacement of [pkt] runs before that of
    [pkts], so the [s] stays and the key differs from that of [72pk]; the
    other synonyms, whose longer form is replaced first, come out as
    documented. *)
Theorem canon_pkts_keeps_s :
  _canon "72pkts" = "72pks"
  /\ _canon "72pk" = "72pk"
  /\ _canon "72pkts" <> _canon "72pk"
  /\ _canon "72pkt" = _canon "72pk"
  /\ _canon "500gms" = "500g" /\ _canon "500 gms" = "500 g"
  /\ _canon "500gm" = "500g" /\ _canon "500 gm" = "500 g"
  /\ _canon "5kgs" = "5kg" /\ _canon "250mls" = "250ml".
Proof. split_and!; by vm_compute. Qed.

(** C2, as the code has it: a second pass of [_canon] over a key leaves
    it as it is whenever the key holds none of the unit spellings [pkt],
    [gm], [kgs], [mls] that a pass rewrites. *)
Theorem canon_idempotent_without_units x :
  unit_free (_canon x) -> _canon (_canon x) = _canon x.
Proof. intros H. apply canon_fixed; [apply canon_canonical | exact H]. Qed.

Lemma canon_idempotent_without_units_witness :
  _canon (_canon ("  Kaluma   Balm 4gm 1 X 24 " ++ times_sign ++ " 24pkt Z "))
  = _canon ("  Kaluma   Balm 4gm 1 X 24 " ++ times_sign ++ " 24pkt Z ").
Proof.
  apply canon_idempotent_without_units. by vm_compute.
Defined.

Example canon_times_sign :
  _canon ("  Kaluma   Balm 4gm 1 X 24 " ++ times_sign ++ " 24pkt Z ")
  = "kaluma balm 4g 1x24x24pkz".
Proof. by vm_compute. Qed.

(** One pass leaves [kgs] in the key of [5kgss], and a second pass
    rewrites it. *)
Lemma canon_twice_differs :
  _canon "5kgss" = "5kgs"
  /\ _canon (_canon "5kgss") = "5kg"
  /\ _canon (_canon "5kgss") <> _canon "5kgss".
Proof. split_and!; by vm_compute. Qed.

(** ** Product import *)

Lemma upload_step_missing st r :
  missing_name r ->
  upload_step st r
  = {| up_conn := up_conn st; up_existing := up_existing st;
       up_added := up_added st; up_skipped := (up_skipped st + 1)%Z |}.
Proof.
  unfold upload_step. intros [H|H]; rewrite H; [done|].
  by destruct (PyStr.strip (or_empty (csv_supplier r))).
Qed.

Lemma upload_step_counts st r :
  (up_added (upload_step st r) + up_skipped (upload_step st r)
   = up_added st + up_skipped st + 1)%Z.
Proof.
  unfold upload_step.
  destruct (PyStr.strip (or_empty (csv_supplier r))); [cbn; lia|].
  destruct (PyStr.strip (or_empty (csv_product r))); [cbn; lia|].
  destruct (_upsert_supplier _ _) as [sid conn].
  destruct (sid <=? 0)%Z; [cbn; lia|].
  destruct (bool_decide _); cbn; lia.
Qed.

Lemma upload_steps_counts rows st :
  (up_added (fold_left upload_step rows st) + up_skipped (fold_left upload_step rows st)
   = up_added st + up_skipped st + Z.of_nat (List.length rows))%Z.
Proof.
  revert st. induction rows as [|r rows IH]; intros st; cbn [fold_left List.length].
  - lia.
  - rewrite IH, upload_step_counts. lia.
Qed.

(** The same with every INSERT accepted. *)
Lemma accepted_missing_name_row conn rows r :
  missing_name r ->
  accepted_upload conn (rows ++ [r])
  = (fst (accepted_upload conn rows),
     (fst (snd (accepted_upload conn rows)),
      (snd (snd (accepted_upload conn rows)) + 1)%Z))
  /\ (fst (snd (accepted_upload conn (rows ++ [r])))
      + snd (snd (accepted_upload conn (rows ++ [r])))
      = Z.of_nat (List.length (rows ++ [r])))%Z.
Proof.
  intros Hm. unfold accepted_upload. cbn [fst snd]. split.
  - rewrite fold_left_app. cbn [fold_left]. by rewrite upload_step_missing.
  - rewrite upload_steps_counts. cbn. lia.
Qed.

(** *** The import and its accepted passes *)

Lemma upsert_supplier_flag conn name :
  product_name_unique (snd (_upsert_supplier conn name)) = product_name_unique conn.
Proof.
  unfold _upsert_supplier. destruct (PyStr.strip (or_empty name)); [done|].
  by destruct (supplier_by_name _ _).
Qed.

Lemma upload_step_flag st r :
  product_name_unique (up_conn (upload_step st r)) = product_name_unique (up_conn st).
Proof.
  unfold upload_step.
  destruct (PyStr.strip (or_empty (csv_supplier r))) as [|c0 sname]; [done|].
  destruct (PyStr.strip (or_empty (csv_product r))); [done|].
  pose proof (upsert_supplier_flag (up_conn st) (Some (String c0 sname))) as Hflag.
  destruct (_upsert_supplier _ _) as [sid conn]. cbn [snd] in Hflag.
  destruct (sid <=? 0)%Z; [done|]. by destruct (bool_decide _).
Qed.

(** A pass over a row either is the accepted pass, or raises: then the
    store carries the constraint and the accepted pass would insert. *)
Lemma upload_row_cases st r :
  upload_row st r = Some (upload_step st r)
  \/ (upload_row st r = None
      /\ product_name_unique (up_conn st) = true
      /\ up_added (upload_step st r) = (up_added st + 1)%Z).
Proof.
  unfold upload_row, upload_step.
  destruct (PyStr.strip (or_empty (csv_supplier r))) as [|c0 sname]; [by left|].
  destruct (PyStr.strip (or_empty (csv_product r))) as [|c1 pname]; [by left|].
  pose proof (upsert_supplier_flag (up_conn st) (Some (String c0 sname))) as Hflag.
  destruct (_upsert_supplier _ _) as [sid conn]. cbn [snd] in Hflag.
  destruct (sid <=? 0)%Z; [by left|].
  destruct (bool_decide _); [by left|].
  destruct (insert_refused conn sid (String c1 pname)) eqn:Href; [right | by left].
  split_and!; [done | | done].
  unfold insert_refused in Href. apply andb_prop in Href as [Href _]. congruence.
Qed.

Lemma upload_row_missing st r :
  missing_name r ->
  upload_row st r
  = Some {| up_conn := up_conn st; up_existing := up_existing st;
            up_added := up_added st; up_skipped := (up_skipped st + 1)%Z |}.
Proof.
  intros Hm. destruct (upload_row_cases st r) as [->|(_ & _ & Ha)].
  - by rewrite upload_step_missing.
  - rewrite (upload_step_missing st r Hm) in Ha. cbn in Ha. lia.
Qed.

Lemma upload_rows_steps rows st st' :
  upload_rows st rows = Some st' -> st' = fold_left upload_step rows st.
Proof.
  revert st. induction rows as [|r rows IH]; intros st; cbn [upload_rows fold_left].
  { by intros [= <-]. }
  destruct (upload_row_cases st r) as [->|[-> _]]; [apply IH | discriminate].
Qed.

Lemma upload_rows_none rows st :
  upload_rows st rows = None -> product_name_unique (up_conn st) = true.
Proof.
  revert st. induction rows as [|r rows IH]; intros st; cbn [upload_rows]; [discriminate|].
  destruct (upload_row_cases st r) as [->|(-> & Hflag & _)]; [|done].
  intros H%IH. by rewrite upload_step_flag in H.
Qed.

Lemma upload_rows_app st rows r :
  upload_rows st (rows ++ [r])
  = match upload_rows st rows with
    | Some st' => upload_row st' r
    | None => None
    end.
Proof.
  revert st. induction rows as [|r0 rows IH]; intros st; cbn [app upload_rows].
  - by destruct (upload_row st r).
  - destruct (upload_row st r0); [apply IH | done].
Qed.

(** The import either is the one with every INSERT accepted, or it
    raises on a store that carries the constraint and changes nothing. *)
Lemma products_upload_cases conn rows :
  products_upload conn rows
  = (fst (accepted_upload conn rows), Some (snd (accepted_upload conn rows)))
  \/ (products_upload conn rows = (conn, None) /\ product_name_unique conn = true).
Proof.
  unfold products_upload, accepted_upload.
  destruct (upload_rows _ rows) as [st|] eqn:E.
  - left. by apply upload_rows_steps in E as ->.
  - right. by apply upload_rows_none in E.
Qed.

(** C7, as the code has it: a row without a supplier name or without a
    product name inserts nothing and adds one to [skipped], the one counter
    that duplicates are added to as well; the import reports the two counts
    [added] and [skipped], and every row is counted in exactly one of them.
    An import that raises reports no counts, with the row or without it. *)
Theorem missing_name_row_skipped conn rows r :
  missing_name r ->
  products_upload conn (rows ++ [r])
  = (fst (products_upload conn rows),
     (fun counts => (fst counts, (snd counts + 1)%Z)) <$> snd (products_upload conn rows))
  /\ (forall added skipped,
         snd (products_upload conn (rows ++ [r])) = Some (added, skipped) ->
         (added + skipped = Z.of_nat (List.length (rows ++ [r])))%Z).
Proof.
  intros Hm. unfold products_upload. rewrite upload_rows_app.
  destruct (upload_rows _ rows) as [st|] eqn:E; cbn [fst snd fmap option_fmap option_map].
  - rewrite (upload_row_missing st r Hm). cbn [fst snd up_conn up_added up_skipped].
    split; [done|]. intros added skipped [= <- <-].
    apply upload_rows_steps in E as ->. rewrite length_app.
    pose proof (upload_steps_counts rows
                  {| up_conn := conn; up_existing := ∅; up_added := 0; up_skipped := 0 |}) as H.
    cbn [up_added up_skipped List.length] in *. lia.
  - split; [done|]. discriminate.
Qed.

Lemma missing_name_row_skipped_witness :
  products_upload sample_store
    ([csv "Haco Industries" "Kaluma King" "1x18pk"] ++ [csv "Haco Industries" "  " ""])
  = (sample_store, Some (0%Z, 2%Z)).
Proof.
  destruct (missing_name_row_skipped sample_store
              [csv "Haco Industries" "Kaluma King" "1x18pk"]
              (csv "Haco Industries" "  " "")) as [H _].
  - right. reflexivity.
  - rewrite H. vm_compute. reflexivity.
Defined.

(** One [skipped] count of 1 stands for a row without a product name in
    one import and for a duplicate in another. *)
Lemma skips_not_told_apart :
  snd (products_upload sample_store [csv "Haco Industries" "" ""]) = Some (0%Z, 1%Z)
  /\ snd (products_upload sample_store [csv "Haco Industries" "Kaluma King" "1x18pk"])
     = Some (0%Z, 1%Z)
  /\ missing_name (csv "Haco Industries" "" "")
  /\ ~ missing_name (csv "Haco Industries" "Kaluma King" "1x18pk").
Proof.
  split_and!; try by vm_compute.
  - by right.
  - intros [H|H]; vm_compute in H; discriminate.
Qed.

(** ** Suppliers *)

Lemma sql_lower_empty s : Sql.lower s = "" -> s = "".
Proof. by destruct s. Qed.

Lemma supplier_by_name_lower conn a b :
  Sql.lower a = Sql.lower b -> supplier_by_name conn a = supplier_by_name conn b.
Proof. unfold supplier_by_name. by intros ->. Qed.

Lemma fold_max_ge (ids : list Z) (x : Z) :
  In x ids -> (x <= fold_right Z.max 0 ids)%Z.
Proof.
  induction ids as [|y ids IH]; cbn; [done|].
  intros [->|H]; [lia|]. specialize (IH H). lia.
Qed.

Lemma next_rowid_fresh ids seq :
  (0 < Sql.next_rowid ids seq)%Z /\ ~ In (Sql.next_rowid ids seq) ids.
Proof.
  unfold Sql.next_rowid. split.
  - assert (0 <= fold_right Z.max 0 ids)%Z; [|lia].
    induction ids; cbn; lia.
  - intros H%fold_max_ge. lia.
Qed.

Lemma find_app_none {A} (f : A -> bool) (l : list A) (x : A) :
  List.find f l = None ->
  List.find f (l ++ [x]) = if f x then Some x else None.
Proof.
  induction l as [|y l IH]; cbn; [done|].
  destruct (f y); [discriminate | exact IH].
Qed.

Lemma upsert_supplier_unfold conn name :
  _upsert_supplier conn name =
  let n := PyStr.strip (or_empty name) in
  if String.eqb n "" then (0%Z, conn)
  else match supplier_by_name conn n with
       | Some row => (s_id row, conn)
       | None =>
           let id := Sql.next_rowid (map s_id (suppliers conn)) (suppliers_seq conn) in
           (id, set_suppliers conn
                  (suppliers conn ++ [{| s_id := id; s_name := n |}]) id)
       end.
Proof. unfold _upsert_supplier. by destruct (PyStr.strip (or_empty name)). Qed.

Lemma upsert_supplier_again conn name name2 :
  PyStr.strip (or_empty name) <> "" ->
  Sql.lower (PyStr.strip (or_empty name2)) = Sql.lower (PyStr.strip (or_empty name)) ->
  _upsert_supplier (snd (_upsert_supplier conn name)) name2
  = (fst (_upsert_supplier conn name), snd (_upsert_supplier conn name)).
Proof.
  intros Hne Hlow. rewrite !upsert_supplier_unfold. cbn zeta.
  set (n := PyStr.strip (or_empty name)) in *.
  set (n2 := PyStr.strip (or_empty name2)) in *.
  assert (Hne2 : n2 <> "").
  { intros E. rewrite E in Hlow. symmetry in Hlow. by apply sql_lower_empty in Hlow. }
  apply String.eqb_neq in Hne, Hne2. rewrite Hne.
  destruct (supplier_by_name conn n) as [row|] eqn:Hfind; cbn [fst snd].
  - rewrite Hne2, (supplier_by_name_lower conn n2 n Hlow), Hfind. done.
  - rewrite Hne2. unfold supplier_by_name in *. cbn [suppliers set_suppliers].
    rewrite find_app_none by (by rewrite Hlow).
    cbn [s_name s_id]. by rewrite Hlow, String.eqb_refl.
Qed.

Lemma find_some_in {A} (f : A -> bool) (l : list A) (x : A) :
  List.find f l = Some x -> In x l /\ f x = true.
Proof. apply List.find_some. Qed.

Lemma find_none_all {A} (f : A -> bool) (l : list A) :
  List.find f l = None -> Forall (fun x => f x = false) l.
Proof.
  intros H. apply List.Forall_forall. intros x Hx.
  by apply (List.find_none f l H).
Qed.

(** C5, as the code has it: the name is trimmed, an empty one yields the
    id 0 and no change; otherwise the first supplier whose name is equal
    to it up to the case of the ASCII letters gives its id, and when there
    is none a row with the trimmed name is added under a new, positive id.
    Hence a second name that is equal to the first one after trimming and
    folding the ASCII letters resolves to the same id. *)
Theorem upsert_supplier_trimmed_ascii_fold conn name :
  let n := PyStr.strip (or_empty name) in
  (n = "" -> _upsert_supplier conn name = (0%Z, conn))
  /\ (forall row,
         n <> "" -> supplier_by_name conn n = Some row ->
         _upsert_supplier conn name = (s_id row, conn)
         /\ In row (suppliers conn)
         /\ Sql.lower (s_name row) = Sql.lower n)
  /\ (n <> "" -> supplier_by_name conn n = None ->
      let id := fst (_upsert_supplier conn name) in
      suppliers (snd (_upsert_supplier conn name))
      = (suppliers conn ++ [{| s_id := id; s_name := n |}])%list
      /\ ~ In id (map s_id (suppliers conn))
      /\ (0 < id)%Z
      /\ Forall (fun r => Sql.lower (s_name r) <> Sql.lower n) (suppliers conn))
  /\ (forall name2,
         n <> "" ->
         Sql.lower (PyStr.strip (or_empty name2)) = Sql.lower n ->
         fst (_upsert_supplier (snd (_upsert_supplier conn name)) name2)
         = fst (_upsert_supplier conn name)).
Proof.
  cbn zeta. split_and!.
  - intros E. rewrite upsert_supplier_unfold. cbn zeta. by rewrite E.
  - intros row Hne Hfind. rewrite upsert_supplier_unfold. cbn zeta.
    apply String.eqb_neq in Hne. rewrite Hne, Hfind.
    apply find_some_in in Hfind as [Hin Heq]. by apply String.eqb_eq in Heq.
  - intros Hne Hfind. rewrite upsert_supplier_unfold. cbn zeta.
    apply String.eqb_neq in Hne. rewrite Hne, Hfind. cbn [fst snd suppliers set_suppliers].
    destruct (next_rowid_fresh (map s_id (suppliers conn)) (suppliers_seq conn)) as [Hpos Hfresh].
    split_and!; [done | done | done |].
    apply find_none_all in Hfind. eapply Forall_impl; [exact Hfind|].
    intros r Hr. by apply String.eqb_neq.
  - intros name2 Hne Hlow. by rewrite upsert_supplier_again.
Qed.

Lemma upsert_supplier_trimmed_ascii_fold_witness :
  fst (_upsert_supplier (snd (_upsert_supplier sample_store (Some "Kilimanjaro Foods ")))
         (Some "  KILIMANJARO foods"))
  = fst (_upsert_supplier sample_store (Some "Kilimanjaro Foods ")).
Proof.
  destruct (upsert_supplier_trimmed_ascii_fold sample_store (Some "Kilimanjaro Foods "))
    as (_ & _ & _ & H).
  apply H; [discriminate | reflexivity].
Defined.

(** Two names that differ in white space only, inside the name, resolve
    to two suppliers. *)
Lemma inner_space_makes_second_supplier :
  fst (_upsert_supplier sample_store (Some "Haco Industries")) = 1%Z
  /\ fst (_upsert_supplier (snd (_upsert_supplier sample_store (Some "Haco Industries")))
            (Some "Haco  Industries")) = 2%Z.
Proof. split; reflexivity. Qed.

(** ** Duplicate suppression of the import *)

Lemma upsert_supplier_products conn name :
  products (snd (_upsert_supplier conn name)) = products conn
  /\ products_seq (snd (_upsert_supplier conn name)) = products_seq conn.
Proof.
  rewrite upsert_supplier_unfold. cbn zeta.
  destruct (String.eqb _ ""); [done|].
  by destruct (supplier_by_name _ _).
Qed.

Lemma upsert_supplier_set_products conn ps q name :
  _upsert_supplier (set_products conn ps q) name
  = (fst (_upsert_supplier conn name),
     set_products (snd (_upsert_supplier conn name)) ps q).
Proof.
  rewrite !upsert_supplier_unfold. cbn zeta.
  destruct (String.eqb _ ""); [done|].
  unfold supplier_by_name. cbn [suppliers set_products].
  by destruct (List.find _ _).
Qed.

Lemma upsert_supplier_positive conn name :
  Forall (fun r => (0 < s_id r)%Z) (suppliers conn) ->
  PyStr.strip (or_empty name) <> "" ->
  (0 < fst (_upsert_supplier conn name))%Z.
Proof.
  intros Hpos Hne. rewrite upsert_supplier_unfold. cbn zeta.
  apply String.eqb_neq in Hne. rewrite Hne.
  destruct (supplier_by_name _ _) as [row|] eqn:Hfind; cbn [fst].
  - apply find_some_in in Hfind as [Hin _].
    rewrite List.Forall_forall in Hpos. by apply Hpos.
  - apply next_rowid_fresh.
Qed.

Lemma stored_keys_products conn conn' sid :
  products conn = products conn' -> stored_keys conn sid = stored_keys conn' sid.
Proof. unfold stored_keys. by intros ->. Qed.

Lemma coalesce_non_empty u : Sql.coalesce3 (non_empty u) None "" = u.
Proof. by destruct u. Qed.

Lemma stored_keys_appended conn sid pname unit id q :
  _canon_pair (Some pname) (Some unit)
  ∈ stored_keys
      (set_products conn
         (products conn ++
          [{| p_id := id; p_supplier_id := Some sid; p_product_name := Some pname;
              p_unit_pack_info := non_empty unit; p_name := Some pname |}]) q)
      sid.
Proof.
  unfold stored_keys. cbn [products set_products].
  rewrite elem_of_list_to_set, list_elem_of_In, List.in_map_iff.
  eexists. split; [|apply List.filter_In; split; [apply List.in_or_app; right; left; done|]].
  - cbn. by rewrite coalesce_non_empty.
  - cbn. by apply bool_decide_eq_true.
Qed.

Lemma upload_step_unfold st r :
  upload_step st r =
  let supplier_name := PyStr.strip (or_empty (csv_supplier r)) in
  let product_name := PyStr.strip (or_empty (csv_product r)) in
  let unit_pack := PyStr.strip (or_empty (csv_unit r)) in
  if String.eqb supplier_name "" || String.eqb product_name "" then
    {| up_conn := up_conn st; up_existing := up_existing st;
       up_added := up_added st; up_skipped := (up_skipped st + 1)%Z |}
  else
    let sid := fst (_upsert_supplier (up_conn st) (Some supplier_name)) in
    let conn := snd (_upsert_supplier (up_conn st) (Some supplier_name)) in
    if (sid <=? 0)%Z then
      {| up_conn := conn; up_existing := up_existing st;
         up_added := up_added st; up_skipped := (up_skipped st + 1)%Z |}
    else
      let existing := _load_existing conn (up_existing st) sid in
      if bool_decide (row_key r ∈ existing !!! sid) then
        {| up_conn := conn; up_existing := existing;
           up_added := up_added st; up_skipped := (up_skipped st + 1)%Z |}
      else
        let id := Sql.next_rowid (map p_id (products conn)) (products_seq conn) in
        {| up_conn :=
             set_products conn
               (products conn ++
                [{| p_id := id; p_supplier_id := Some sid;
                    p_product_name := Some product_name;
                    p_unit_pack_info := non_empty unit_pack;
                    p_name := Some product_name |}]) id;
           up_existing := <[sid := {[row_key r]} ∪ existing !!! sid]> existing;
           up_added := (up_added st + 1)%Z;
           up_skipped := up_skipped st |}.
Proof.
  unfold upload_step, row_key. cbn zeta.
  destruct (PyStr.strip (or_empty (csv_supplier r))) eqn:Hs; [done|].
  destruct (PyStr.strip (or_empty (csv_product r))) eqn:Hp; [done|].
  cbn [String.eqb orb].
  by destruct (_upsert_supplier _ _).
Qed.

Lemma not_missing_name r :
  ~ missing_name r ->
  String.eqb (PyStr.strip (or_empty (csv_supplier r))) ""
  || String.eqb (PyStr.strip (or_empty (csv_product r))) "" = false.
Proof.
  intros H. apply orb_false_intro; apply String.eqb_neq; intros E; apply H.
  - by left.
  - by right.
Qed.

(** What one pass over a row with both names does, from a state whose
    cache does not hold the supplier of the row yet. *)
Lemma upload_step_first_touch st r :
  Forall (fun s => (0 < s_id s)%Z) (suppliers (up_conn st)) ->
  ~ missing_name r ->
  up_existing st !! row_supplier_id (up_conn st) r = None ->
  let sid := row_supplier_id (up_conn st) r in
  let conn := snd (_upsert_supplier (up_conn st)
                     (Some (PyStr.strip (or_empty (csv_supplier r))))) in
  let st' := upload_step st r in
  row_key r ∈ stored_keys (up_conn st') sid
  /\ row_supplier_id (up_conn st') r = sid
  /\ Forall (fun s => (0 < s_id s)%Z) (suppliers (up_conn st'))
  /\ (forall name2, _upsert_supplier (up_conn st') name2
                    = (fst (_upsert_supplier conn name2),
                       set_products (snd (_upsert_supplier conn name2))
                         (products (up_conn st')) (products_seq (up_conn st'))))
  /\ (if bool_decide (row_key r ∈ stored_keys (up_conn st) sid)
      then up_added st' = up_added st /\ up_skipped st' = (up_skipped st + 1)%Z
           /\ up_existing st' = <[sid := stored_keys (up_conn st) sid]> (up_existing st)
      else up_added st' = (up_added st + 1)%Z /\ up_skipped st' = up_skipped st
           /\ up_existing st'
              = <[sid := {[row_key r]} ∪ stored_keys (up_conn st) sid]>
                  (<[sid := stored_keys (up_conn st) sid]> (up_existing st))).
Proof.
  intros Hpos Hvalid Hcache. cbn zeta.
  rewrite upload_step_unfold. cbn zeta. rewrite (not_missing_name r Hvalid).
  unfold row_supplier_id in *.
  set (sname := PyStr.strip (or_empty (csv_supplier r))) in *.
  assert (Hsn : PyStr.strip (or_empty (Some sname)) <> "").
  { change (PyStr.strip (PyStr.strip (or_empty (csv_supplier r))) <> "").
    rewrite strip_idem. intros E. apply Hvalid. by left. }
  pose proof (upsert_supplier_positive _ (Some sname) Hpos Hsn) as Hsid.
  destruct (upsert_supplier_products (up_conn st) (Some sname)) as [Hps Hseq].
  set (sid := fst (_upsert_supplier (up_conn st) (Some sname))) in *.
  set (conn := snd (_upsert_supplier (up_conn st) (Some sname))) in *.
  assert (Hagain : _upsert_supplier conn (Some sname) = (sid, conn)).
  { by apply upsert_supplier_again. }
  assert (Hpos' : Forall (fun s => (0 < s_id s)%Z) (suppliers conn)).
  { unfold conn. rewrite upsert_supplier_unfold. cbn zeta.
    destruct (String.eqb _ ""); [done|].
    destruct (supplier_by_name _ _) eqn:Hf; [done|]. cbn [snd suppliers set_suppliers].
    apply Forall_app; split; [done|]. constructor; [|done]. cbn.
    apply next_rowid_fresh. }
  destruct (Z.leb_spec sid 0) as [?|_]; [lia|].
  unfold _load_existing. rewrite Hcache, lookup_total_insert_eq.
  rewrite (stored_keys_products conn (up_conn st) sid Hps).
  destruct (bool_decide (row_key r ∈ stored_keys (up_conn st) sid)) eqn:Hdup;
    cbn [up_conn up_added up_skipped up_existing].
  - apply bool_decide_eq_true in Hdup. rewrite Hagain. cbn [fst].
    split_and!; try done.
    + by rewrite (stored_keys_products conn (up_conn st) sid Hps).
    + intros name2. destruct (upsert_supplier_products conn name2) as [E1 E2].
      rewrite <- E1, <- E2. by destruct (_upsert_supplier conn name2) as [? []].
  - rewrite upsert_supplier_set_products, Hagain. cbn [fst].
    split_and!; try done.
    + unfold row_key. apply stored_keys_appended.
    + intros name2. by rewrite upsert_supplier_set_products.
Qed.

(** A row whose supplier is in the cache with the key of the row is
    skipped. *)
Lemma upload_step_cached st r keys :
  Forall (fun s => (0 < s_id s)%Z) (suppliers (up_conn st)) ->
  ~ missing_name r ->
  up_existing st !! row_supplier_id (up_conn st) r = Some keys ->
  row_key r ∈ keys ->
  up_added (upload_step st r) = up_added st
  /\ up_skipped (upload_step st r) = (up_skipped st + 1)%Z.
Proof.
  intros Hpos Hvalid Hcache Hin.
  rewrite upload_step_unfold. cbn zeta. rewrite (not_missing_name r Hvalid).
  unfold row_supplier_id in *.
  set (sname := PyStr.strip (or_empty (csv_supplier r))) in *.
  assert (Hsn : PyStr.strip (or_empty (Some sname)) <> "").
  { change (PyStr.strip (PyStr.strip (or_empty (csv_supplier r))) <> "").
    rewrite strip_idem. intros E. apply Hvalid. by left. }
  pose proof (upsert_supplier_positive _ (Some sname) Hpos Hsn) as Hsid.
  destruct (Z.leb_spec (fst (_upsert_supplier (up_conn st) (Some sname))) 0) as [?|_];
    [lia|].
  unfold _load_existing. rewrite Hcache.
  rewrite (lookup_total_correct _ _ _ Hcache).
  by rewrite bool_decide_eq_true_2.
Qed.

Lemma upload_step_other_suppliers st r sid' :
  sid' <> row_supplier_id (up_conn st) r ->
  up_existing (upload_step st r) !! sid' = up_existing st !! sid'.
Proof.
  intros Hne. rewrite upload_step_unfold. cbn zeta.
  destruct (_ || _); [done|].
  fold (row_supplier_id (up_conn st) r).
  destruct (_ <=? 0)%Z; [done|].
  assert (Hload : forall c,
             _load_existing c (up_existing st) (row_supplier_id (up_conn st) r) !! sid'
             = up_existing st !! sid').
  { intros c. unfold _load_existing.
    destruct (up_existing st !! row_supplier_id (up_conn st) r); [done|].
    by rewrite lookup_insert_ne. }
  destruct (bool_decide _); cbn [up_existing]; [apply Hload|].
  rewrite lookup_insert_ne by done. apply Hload.
Qed.

(** The same row twice when every INSERT is accepted: the counts of one
    import with the row twice and of two imports in a row, and what a
    pass does to the cache. *)
Lemma accepted_same_row_twice conn r :
  Forall (fun s => (0 < s_id s)%Z) (suppliers conn) ->
  ~ missing_name r ->
  (new_to_store conn r ->
   snd (accepted_upload conn [r; r]) = (1%Z, 1%Z)
   /\ snd (accepted_upload conn [r]) = (1%Z, 0%Z))
  /\ snd (accepted_upload (fst (accepted_upload conn [r])) [r]) = (0%Z, 1%Z)
  /\ (forall st,
         Forall (fun s => (0 < s_id s)%Z) (suppliers (up_conn st)) ->
         up_existing st !! row_supplier_id (up_conn st) r = None ->
         exists keys,
           up_existing (upload_step st r) !! row_supplier_id (up_conn st) r = Some keys
           /\ stored_keys (up_conn st) (row_supplier_id (up_conn st) r) ⊆ keys
           /\ keys ⊆ {[row_key r]} ∪ stored_keys (up_conn st) (row_supplier_id (up_conn st) r))
  /\ (forall st sid',
         sid' <> row_supplier_id (up_conn st) r ->
         up_existing (upload_step st r) !! sid' = up_existing st !! sid').
Proof.
  intros Hpos Hvalid.
  set (st0 := {| up_conn := conn; up_existing := ∅; up_added := 0; up_skipped := 0 |}).
  assert (Hfirst := upload_step_first_touch st0 r Hpos Hvalid (lookup_empty _)).
  cbn zeta in Hfirst. cbn [up_conn up_added up_skipped up_existing st0] in Hfirst.
  fold st0 in Hfirst.
  destruct Hfirst as (Hkey & Hsid & Hpos1 & _ & Hcount).
  split_and!.
  - intros Hnew. unfold new_to_store in Hnew.
    rewrite bool_decide_eq_false_2 in Hcount by done.
    destruct Hcount as (Ha & Hs & Hex).
    unfold accepted_upload. cbn [fold_left fst snd]. fold st0.
    split; [|by rewrite Ha, Hs].
    destruct (upload_step_cached (upload_step st0 r) r
                ({[row_key r]} ∪ stored_keys conn (row_supplier_id conn r)))
      as [Ha2 Hs2]; try done.
    + by rewrite Hsid, Hex, lookup_insert_eq.
    + apply elem_of_union_l. by apply elem_of_singleton.
    + by rewrite Ha2, Hs2, Ha, Hs.
  - unfold accepted_upload at 2. cbn [fold_left fst snd]. fold st0.
    set (conn1 := up_conn (upload_step st0 r)) in *.
    set (st1 := {| up_conn := conn1; up_existing := ∅; up_added := 0; up_skipped := 0 |}).
    assert (Hsecond := upload_step_first_touch st1 r Hpos1 Hvalid (lookup_empty _)).
    cbn zeta in Hsecond. cbn [up_conn up_added up_skipped up_existing st1] in Hsecond.
    fold st1 in Hsecond.
    destruct Hsecond as (_ & _ & _ & _ & Hcount2).
    rewrite Hsid in Hcount2.
    rewrite bool_decide_eq_true_2 in Hcount2 by done.
    destruct Hcount2 as (Ha & Hs & _).
    unfold accepted_upload. cbn [fold_left fst snd]. fold st1.
    by rewrite Ha, Hs.
  - intros st Hpos' Hnone.
    destruct (upload_step_first_touch st r Hpos' Hvalid Hnone) as (_ & _ & _ & _ & Hc).
    cbn zeta in Hc.
    destruct (bool_decide
                (row_key r ∈ stored_keys (up_conn st) (row_supplier_id (up_conn st) r)))
      eqn:Hdup.
    + destruct Hc as (_ & _ & ->). rewrite lookup_insert_eq. eexists. split; [done|].
      split; [done | apply union_subseteq_r].
    + destruct Hc as (_ & _ & ->). rewrite lookup_insert_eq. eexists. split; [done|].
      split; [apply union_subseteq_r | done].
  - intros st sid'. apply upload_step_other_suppliers.
Qed.

(** The pass over a row with the refusal of the INSERT spelt out. *)
Lemma upload_row_unfold st r :
  upload_row st r =
  if String.eqb (PyStr.strip (or_empty (csv_supplier r))) ""
     || String.eqb (PyStr.strip (or_empty (csv_product r))) ""
  then Some (upload_step st r)
  else
    let sid := row_supplier_id (up_conn st) r in
    let conn := snd (_upsert_supplier (up_conn st)
                       (Some (PyStr.strip (or_empty (csv_supplier r))))) in
    if (sid <=? 0)%Z then Some (upload_step st r)
    else if bool_decide (row_key r ∈ _load_existing conn (up_existing st) sid !!! sid)
         then Some (upload_step st r)
         else if row_refused (up_conn st) r then None else Some (upload_step st r).
Proof.
  unfold upload_row, upload_step, row_refused, row_supplier_id, row_key. cbn zeta.
  destruct (PyStr.strip (or_empty (csv_supplier r))) as [|c0 sname]; [done|].
  destruct (PyStr.strip (or_empty (csv_product r))) as [|c1 pname]; [done|].
  cbn [String.eqb orb].
  pose proof (upsert_supplier_flag (up_conn st) (Some (String c0 sname))) as Hflag.
  destruct (upsert_supplier_products (up_conn st) (Some (String c0 sname))) as [Hps _].
  destruct (_upsert_supplier _ _) as [sid conn]. cbn [fst snd] in *.
  destruct (sid <=? 0)%Z; [done|].
  destruct (bool_decide _); [done|].
  unfold insert_refused. rewrite Hflag, Hps.
  by destruct (_ && _).
Qed.

(** The first pass of an import over a row with both names that is new
    to the store: it raises when the INSERT is refused, and is the accepted
    pass otherwise. *)
Lemma upload_row_new conn r :
  Forall (fun s => (0 < s_id s)%Z) (suppliers conn) ->
  ~ missing_name r ->
  new_to_store conn r ->
  let st0 := {| up_conn := conn; up_existing := ∅; up_added := 0; up_skipped := 0 |} in
  upload_row st0 r = if row_refused conn r then None else Some (upload_step st0 r).
Proof.
  intros Hpos Hvalid Hnew st0.
  rewrite upload_row_unfold. cbn zeta. rewrite (not_missing_name r Hvalid).
  cbn [up_conn up_existing st0].
  assert (Hsn : PyStr.strip (or_empty (Some (PyStr.strip (or_empty (csv_supplier r))))) <> "").
  { change (PyStr.strip (PyStr.strip (or_empty (csv_supplier r))) <> "").
    rewrite strip_idem. intros E. apply Hvalid. by left. }
  pose proof (upsert_supplier_positive _ _ Hpos Hsn) as Hsid.
  fold (row_supplier_id conn r) in Hsid.
  destruct (Z.leb_spec (row_supplier_id conn r) 0) as [?|_]; [lia|].
  unfold _load_existing. rewrite lookup_empty, lookup_total_insert_eq.
  destruct (upsert_supplier_products conn
              (Some (PyStr.strip (or_empty (csv_supplier r))))) as [Hps _].
  rewrite (stored_keys_products _ conn _ Hps).
  by rewrite bool_decide_eq_false_2.
Qed.

(** A pass that the accepted pass counts as a skip does not raise. *)
Lemma upload_row_skip st r :
  up_added (upload_step st r) = up_added st ->
  upload_row st r = Some (upload_step st r).
Proof.
  intros Ha. destruct (upload_row_cases st r) as [H|(_ & _ & H)]; [done | lia].
Qed.

(** C6: the same row in an import twice, for a store whose supplier ids
    are positive and a row with both names.  When the row is new to the
    store and its INSERT is accepted, one import with the row twice
    inserts it once and skips it once; when the INSERT is refused, because
    the [products] table has the constraint [UNIQUE(supplier_id, name)] of
    the older shape and the supplier has a product of that name in
    another pack, the import raises, reports no counts and leaves the
    store as it was.  A second import of the row after a first one that
    did not raise inserts nothing and skips the row, its cache being read
    from the stored products.  At its first touch in an import a supplier
    enters the cache with the keys of its stored products, and a pass
    over a row does not load the keys of any supplier but the one of the
    row.  The last part evaluates the import on [constrained_store] and a
    second pack of a stored product: the row is new by its key, the
    import raises, and the same rows on the same contents without the
    constraint are inserted once and skipped once. *)
Theorem import_same_row_twice :
  (forall conn r,
      Forall (fun s => (0 < s_id s)%Z) (suppliers conn) ->
      ~ missing_name r ->
      (new_to_store conn r ->
       if row_refused conn r
       then products_upload conn [r; r] = (conn, None)
            /\ products_upload conn [r] = (conn, None)
       else snd (products_upload conn [r; r]) = Some (1%Z, 1%Z)
            /\ snd (products_upload conn [r]) = Some (1%Z, 0%Z))
      /\ (snd (products_upload conn [r]) <> None ->
          snd (products_upload (fst (products_upload conn [r])) [r]) = Some (0%Z, 1%Z))
      /\ (forall st st',
             Forall (fun s => (0 < s_id s)%Z) (suppliers (up_conn st)) ->
             up_existing st !! row_supplier_id (up_conn st) r = None ->
             upload_row st r = Some st' ->
             exists keys,
               up_existing st' !! row_supplier_id (up_conn st) r = Some keys
               /\ stored_keys (up_conn st) (row_supplier_id (up_conn st) r) ⊆ keys
               /\ keys ⊆ {[row_key r]}
                         ∪ stored_keys (up_conn st) (row_supplier_id (up_conn st) r))
      /\ (forall st st' sid',
             sid' <> row_supplier_id (up_conn st) r ->
             upload_row st r = Some st' ->
             up_existing st' !! sid' = up_existing st !! sid'))
  /\ (let r := csv "Haco Industries" "Kaluma King" "24 pk" in
      new_to_store constrained_store r
      /\ row_refused constrained_store r = true
      /\ products_upload constrained_store [r; r] = (constrained_store, None)
      /\ products_upload constrained_store [r] = (constrained_store, None)
      /\ snd (products_upload sample_store [r; r]) = Some (1%Z, 1%Z)).
Proof.
  split.
  2: { cbn zeta. split_and!; try (vm_compute; reflexivity).
       unfold new_to_store. apply (bool_decide_unpack _). vm_compute. exact I. }
  intros conn r Hpos Hvalid.
  destruct (accepted_same_row_twice conn r Hpos Hvalid) as (Hnew & Hsecond & Hload & Hother).
  set (st0 := {| up_conn := conn; up_existing := ∅; up_added := 0; up_skipped := 0 |}).
  split_and!.
  - intros Hn. specialize (Hnew Hn) as [H2 H1].
    pose proof (upload_row_new conn r Hpos Hvalid Hn) as Hrow. cbn zeta in Hrow.
    fold st0 in Hrow.
    unfold products_upload. cbn [upload_rows]. fold st0. rewrite Hrow.
    destruct (row_refused conn r); [done|].
    unfold accepted_upload in H1, H2. cbn [fold_left snd] in H1, H2. fold st0 in H1, H2.
    injection H1 as Ha1 Hs1. injection H2 as Ha2 Hs2.
    rewrite (upload_row_skip (upload_step st0 r) r) by lia.
    cbn [snd]. by rewrite Ha1, Hs1, Ha2, Hs2.
  - intros Hsome.
    assert (Hfst : fst (products_upload conn [r]) = fst (accepted_upload conn [r])).
    { destruct (products_upload_cases conn [r]) as [->|[E _]]; [done|].
      by rewrite E in Hsome. }
    rewrite Hfst.
    set (conn1 := fst (accepted_upload conn [r])) in *.
    unfold accepted_upload in Hsecond. cbn [fold_left snd] in Hsecond.
    injection Hsecond as Ha Hs.
    unfold products_upload. cbn [upload_rows].
    rewrite upload_row_skip by (rewrite Ha; done).
    cbn [snd]. by rewrite Ha, Hs.
  - intros st st' Hpos' Hnone Hrow.
    destruct (upload_row_cases st r) as [E|[E _]]; rewrite E in Hrow; [|done].
    injection Hrow as <-. by apply Hload.
  - intros st st' sid' Hne Hrow.
    destruct (upload_row_cases st r) as [E|[E _]]; rewrite E in Hrow; [|done].
    injection Hrow as <-. by apply Hother.
Qed.

Lemma import_same_row_twice_witness :
  snd (products_upload sample_store
         [csv "haco industries " "Kaluma Balm 4gm" "1 x 24";
          csv "haco industries " "Kaluma Balm 4gm" "1 x 24"])
  = Some (1%Z, 1%Z)
  /\ snd (products_upload sample_store [csv "haco industries " "Kaluma Balm 4gm" "1 x 24"])
     = Some (1%Z, 0%Z).
Proof.
  destruct import_same_row_twice as [H _].
  destruct (H sample_store (csv "haco industries " "Kaluma Balm 4gm" "1 x 24"))
    as [Hnew _].
  - repeat constructor.
  - intros [E|E]; vm_compute in E; discriminate.
  - assert (Href : row_refused sample_store
                     (csv "haco industries " "Kaluma Balm 4gm" "1 x 24") = false)
      by (vm_compute; reflexivity).
    rewrite Href in Hnew. apply Hnew. vm_compute. discriminate.
Defined.

(** ** Schema evolution *)

Section SchemaFacts.
Import Schema.

Lemma agree_refl cols row : agree cols row row.
Proof. by intros c _. Qed.

Lemma agree_trans cols extra row row' row'' :
  agree cols row row' -> agree (cols ++ extra) row' row'' -> agree cols row row''.
Proof.
  intros H1 H2 c Hc. rewrite H2, H1; [done | done |].
  apply List.in_or_app. by left.
Qed.

Lemma table_kept_refl t : table_kept t t.
Proof.
  split; [exists []; by rewrite app_nil_r|].
  intros i row Hrow. exists row. split; [done | apply agree_refl].
Qed.

Lemma table_kept_trans t t' t'' :
  table_kept t t' -> table_kept t' t'' -> table_kept t t''.
Proof.
  intros [[e1 Hc1] Hr1] [[e2 Hc2] Hr2]. split.
  - exists (e1 ++ e2)%list. by rewrite Hc2, Hc1, app_assoc.
  - intros i row Hrow.
    destruct (Hr1 i row Hrow) as (row' & Hrow' & Ha1).
    destruct (Hr2 i row' Hrow') as (row'' & Hrow'' & Ha2).
    exists row''. split; [done|]. rewrite Hc1 in Ha2. by eapply agree_trans.
Qed.

Lemma preserved_refl conn : preserved conn conn.
Proof.
  split; [done|]. intros name t Ht. exists t. split; [done | apply table_kept_refl].
Qed.

Lemma preserved_trans conn conn' conn'' :
  preserved conn conn' -> preserved conn' conn'' -> preserved conn conn''.
Proof.
  intros [Hi1 Ht1] [Hi2 Ht2]. split; [set_solver|].
  intros name t Ht.
  destruct (Ht1 name t Ht) as (t' & Ht' & Hk1).
  destruct (Ht2 name t' Ht') as (t'' & Ht'' & Hk2).
  exists t''. split; [done | by eapply table_kept_trans].
Qed.

Lemma find_app_some {A} (f : A -> bool) (l extra : list A) (x : A) :
  List.find f l = Some x -> List.find f (l ++ extra) = Some x.
Proof.
  induction l as [|y l IH]; cbn; [discriminate|].
  by destruct (f y).
Qed.

Lemma resolve_kept t t' column c :
  table_kept t t' -> resolve t column = Some c ->
  resolve t' column = Some c /\ In c (t_cols t).
Proof.
  intros [[extra Hc] _] Hres. unfold resolve in *. rewrite Hc. split.
  - by apply find_app_some.
  - by apply List.find_some in Hres as [? _].
Qed.

Lemma holds_preserved conn conn' f :
  preserved conn conn' -> holds conn f -> holds conn' f.
Proof.
  intros [Hidx Htab] Hf. destruct f as [name|table column|idx|username]; cbn in *.
  - unfold table_exists in *. apply bool_decide_eq_true in Hf as [t Ht].
    apply bool_decide_eq_true. destruct (Htab name t Ht) as (t' & -> & _). eauto.
  - unfold has_column in *. destruct (tables conn !! table) as [t|] eqn:Ht; [|done].
    destruct (Htab table t Ht) as (t' & -> & [[extra ->] _]).
    rewrite existsb_app, Hf. done.
  - set_solver.
  - unfold user_exists in *.
    destruct (tables conn !! "users") as [t|] eqn:Ht; [|done]. cbn in Hf.
    destruct (resolve t "username") as [c|] eqn:Hc; [|done]. cbn in Hf.
    injection Hf as Hf.
    destruct (Htab "users" t Ht) as (t' & -> & Hk). cbn.
    destruct (resolve_kept t t' _ c Hk Hc) as [-> Hin]. cbn. f_equal.
    apply existsb_exists in Hf as (row & Hrow & Hcell).
    apply list_elem_of_In, list_elem_of_lookup in Hrow as [i Hi].
    destruct Hk as [_ Hrows]. destruct (Hrows i row Hi) as (row' & Hi' & Hag).
    apply existsb_exists. exists row'. split.
    + apply list_elem_of_In, list_elem_of_lookup. eauto.
    + unfold cell in *. by rewrite (Hag c Hin).
Qed.

Lemma preserved_set_table conn name t' :
  (forall t, tables conn !! name = Some t -> table_kept t t') ->
  preserved conn (set_table conn name t').
Proof.
  intros Hk. split; [done|]. intros n t Ht. cbn.
  destruct (decide (name = n)) as [->|Hne].
  - rewrite lookup_insert_eq. eauto.
  - rewrite lookup_insert_ne by done. exists t. split; [done | apply table_kept_refl].
Qed.

Lemma table_exists_set_table conn name t : table_exists (set_table conn name t) name = true.
Proof. apply bool_decide_eq_true. cbn. rewrite lookup_insert_eq. eauto. Qed.

Lemma create_table_step conn name cols conn' :
  create_table conn name cols = Some conn' ->
  preserved conn conn' /\ holds conn' (TableExists name).
Proof.
  unfold create_table. destruct (tables conn !! name) eqn:Ht; [discriminate|].
  intros [= <-]. split; [|apply table_exists_set_table].
  apply preserved_set_table. intros t. by rewrite Ht.
Qed.

Lemma create_table_if_not_exists_step conn name cols conn' :
  create_table_if_not_exists conn name cols = Some conn' ->
  preserved conn conn' /\ holds conn' (TableExists name).
Proof.
  unfold create_table_if_not_exists.
  destruct (tables conn !! name) eqn:Ht; [|apply create_table_step].
  intros [= <-]. split; [apply preserved_refl|].
  apply bool_decide_eq_true. rewrite Ht. eauto.
Qed.

Lemma sql_lower_eqb_in column cols :
  existsb (fun c => String.eqb (Sql.lower c) (Sql.lower column)) cols = false ->
  ~ In column cols.
Proof.
  intros Hex Hin. apply not_true_iff_false in Hex. apply Hex.
  apply existsb_exists. exists column. split; [done | apply String.eqb_refl].
Qed.

Lemma add_column_kept t column dflt :
  ~ In column (t_cols t) ->
  table_kept t
    {| t_cols := t_cols t ++ [column];
       t_rows := map (fun row => <[column := dflt]> row) (t_rows t) |}.
Proof.
  intros Hnew. split; [by exists [column]|]. cbn.
  intros i row Hrow. exists (<[column := dflt]> row). split.
  - change (map ?f ?l) with (f <$> l). by rewrite list_lookup_fmap, Hrow.
  - intros c Hc. rewrite lookup_insert_ne; [done|]. by intros ->.
Qed.

Lemma add_column_step conn table column dflt conn' :
  add_column conn table column dflt = Some conn' ->
  preserved conn conn' /\ holds conn' (HasColumn table column).
Proof.
  unfold add_column. destruct (tables conn !! table) as [t|] eqn:Ht; [|discriminate].
  destruct (existsb _ (t_cols t)) eqn:Hex; [discriminate|].
  intros [= <-]. split.
  - apply preserved_set_table. intros t0. rewrite Ht. intros [= <-].
    apply add_column_kept. by apply sql_lower_eqb_in.
  - cbn. unfold has_column. cbn. rewrite lookup_insert_eq. cbn.
    rewrite existsb_app. cbn. by rewrite String.eqb_refl, orb_true_r.
Qed.

Lemma ensure_column_step table column dflt conn conn' :
  ensure_column table column dflt conn = Some conn' ->
  preserved conn conn' /\ holds conn' (HasColumn table column).
Proof.
  unfold ensure_column. destruct (has_column conn table column) eqn:Hc.
  - intros [= <-]. split; [apply preserved_refl | done].
  - apply add_column_step.
Qed.

Lemma ensure_columns_step table columns conn conn' :
  ensure_columns table columns conn = Some conn' ->
  preserved conn conn' /\ Forall (holds conn') (map (HasColumn table) columns).
Proof.
  revert conn. induction columns as [|c columns IH]; intros conn; cbn.
  - intros [= <-]. split; [apply preserved_refl | constructor].
  - destruct (ensure_column table c Null conn) as [conn1|] eqn:H1; [|discriminate].
    cbn. intros H2. apply ensure_column_step in H1 as [Hp1 Hc1].
    apply IH in H2 as [Hp2 Hc2]. split; [by eapply preserved_trans|].
    constructor; [|done]. by apply (holds_preserved conn1 conn' (HasColumn table c)).
Qed.

Lemma create_unique_index_step idx table columns conn conn' :
  create_unique_index_if_not_exists idx table columns conn = Some conn' ->
  preserved conn conn' /\ holds conn' (IndexExists idx).
Proof.
  unfold create_unique_index_if_not_exists.
  destruct (bool_decide (idx ∈ indexes conn)) eqn:Hin.
  - intros [= <-]. split; [apply preserved_refl|]. by apply bool_decide_eq_true in Hin.
  - destruct (tables conn !! table) as [t|]; [|discriminate]. cbn.
    destruct (mapM (resolve t) columns) as [cols|]; [|discriminate]. cbn.
    destruct (bool_decide (NoDup _)); [|discriminate].
    intros [= <-]. split; [|cbn; set_solver].
    split; [cbn; set_solver|]. intros name t0 Ht0. exists t0.
    split; [done | apply table_kept_refl].
Qed.

(** The backfill leaves a product name that is there as it is. *)
Lemma backfill_row_keeps_value product_name name row :
  cell row product_name <> Null ->
  cell row product_name <> Text "" ->
  backfill_row product_name name row = row.
Proof.
  intros H1 H2. unfold backfill_row.
  by rewrite !bool_decide_eq_false_2.
Qed.

Lemma backfill_row_agree cols product_name name row :
  ~ In product_name cols -> agree cols row (backfill_row product_name name row).
Proof.
  intros Hnew c Hc. unfold backfill_row.
  destruct (_ || _); [|done].
  rewrite lookup_insert_ne; [done|]. by intros ->.
Qed.

Lemma resolve_added cols rows column :
  existsb (fun c => String.eqb (Sql.lower c) (Sql.lower column)) cols = false ->
  resolve {| t_cols := cols ++ [column]; t_rows := rows |} column = Some column.
Proof.
  intros Hex. unfold resolve. cbn [t_cols]. rewrite find_app_none.
  - by rewrite String.eqb_refl.
  - apply find_none_forall, List.Forall_forall. intros c Hc.
    apply not_true_iff_false. intros Heq. apply not_true_iff_false in Hex.
    apply Hex, existsb_exists. eauto.
Qed.

(** The new column and its backfill, taken together, keep what was there. *)
Lemma add_product_name_step conn conn1 conn' :
  add_column conn "products" "product_name" Null = Some conn1 ->
  backfill_product_name conn1 = Some conn' ->
  preserved conn conn' /\ holds conn' (HasColumn "products" "product_name").
Proof.
  unfold add_column, backfill_product_name.
  destruct (tables conn !! "products") as [t|] eqn:Ht; [|discriminate].
  destruct (existsb _ (t_cols t)) eqn:Hex; [discriminate|].
  intros [= <-]. cbn -[resolve]. rewrite lookup_insert_eq. cbn -[resolve].
  rewrite resolve_added by done. cbn -[resolve].
  destruct (resolve _ "name") as [n|]; [|discriminate]. cbn.
  intros [= <-]. split.
  - split; [done|]. intros name0 t0 Ht0. cbn.
    destruct (decide ("products" = name0)) as [<-|Hne].
    + rewrite lookup_insert_eq. eexists. split; [done|].
      rewrite Ht in Ht0. injection Ht0 as <-.
      split; [by exists ["product_name"]|]. cbn.
      intros i row Hrow.
      exists (backfill_row "product_name" n (<["product_name" := Null]> row)). split.
      * change (map ?f ?l) with (f <$> l).
        by rewrite !list_lookup_fmap, Hrow.
      * pose proof (sql_lower_eqb_in "product_name" (t_cols t) Hex) as Hnew.
        intros c Hc.
        rewrite (backfill_row_agree (t_cols t) "product_name" n _ Hnew c Hc).
        rewrite lookup_insert_ne; [done|]. by intros <-.
    + rewrite !lookup_insert_ne by done. exists t0.
      split; [done | apply table_kept_refl].
  - cbn. unfold has_column. cbn. rewrite lookup_insert_eq. cbn.
    rewrite existsb_app. cbn. by rewrite orb_true_r.
Qed.

Lemma resolve_lower t column c :
  resolve t column = Some c -> Sql.lower c = Sql.lower column.
Proof.
  unfold resolve. intros H. apply List.find_some in H as [_ H].
  by apply String.eqb_eq in H.
Qed.

Lemma insert_user_step conn username password_hash role created_at full_name conn' :
  insert_user conn username password_hash role created_at full_name = Some conn' ->
  preserved conn conn' /\ holds conn' (UserExists username).
Proof.
  unfold insert_user.
  destruct (tables conn !! "users") as [t|] eqn:Ht; [|discriminate].
  cbn -[resolve].
  destruct (resolve t "username") as [c0|] eqn:H0; [|discriminate].
  destruct (resolve t "password_hash") as [c1|]; [|discriminate].
  destruct (resolve t "role") as [c2|]; [|discriminate].
  destruct (resolve t "created_at") as [c3|]; [|discriminate].
  destruct (resolve t "full_name") as [c4|]; [|discriminate].
  cbn -[resolve]. intros [= <-]. split.
  - apply preserved_set_table. intros t0. rewrite Ht. intros [= <-].
    split; [exists []; cbn; by rewrite app_nil_r|]. cbn.
    intros i row Hrow. exists row. split; [|apply agree_refl].
    by apply lookup_app_l_Some.
  - cbn -[resolve]. unfold user_exists. cbn -[resolve]. rewrite lookup_insert_eq.
    cbn -[resolve].
    change (resolve {| t_cols := t_cols t; t_rows := ?r |} "username")
      with (resolve t "username").
    rewrite H0. cbn -[resolve]. f_equal.
    rewrite existsb_app. apply orb_true_iff. right. cbn -[resolve].
    rewrite orb_false_r. apply bool_decide_eq_true. unfold cell.
    destruct (resolve t "id") as [cid|] eqn:Hid.
    + rewrite lookup_insert_ne, lookup_insert_eq; [done|].
      intros ->. apply resolve_lower in H0, Hid. rewrite H0 in Hid. discriminate.
    + by rewrite lookup_insert_eq.
Qed.

Lemma seed_user_step sd username password_hash role full_name conn conn' :
  seed_user sd username password_hash role full_name conn = Some conn' ->
  preserved conn conn' /\ holds conn' (UserExists username).
Proof.
  unfold seed_user. destruct (user_exists conn username) as [[|]|] eqn:Hu; [| |discriminate].
  - intros [= <-]. split; [apply preserved_refl | done].
  - apply insert_user_step.
Qed.

(** Facts gathered along a run: what held before still holds, and what
    the step brings about holds too. *)
Lemma gather conn0 conn conn' fs fs' :
  preserved conn0 conn /\ Forall (holds conn) fs ->
  preserved conn conn' /\ Forall (holds conn') fs' ->
  preserved conn0 conn' /\ Forall (holds conn') (fs' ++ fs).
Proof.
  intros [Hp Hf] [Hp' Hf']. split; [by eapply preserved_trans|].
  apply Forall_app. split; [done|].
  eapply Forall_impl; [exact Hf|]. intros f. by apply holds_preserved.
Qed.

Lemma gather1 conn0 conn conn' fs f :
  preserved conn0 conn /\ Forall (holds conn) fs ->
  preserved conn conn' /\ holds conn' f ->
  preserved conn0 conn' /\ Forall (holds conn') (f :: fs).
Proof.
  intros H [Hp Hf]. apply (gather conn0 conn conn' fs [f] H). split; [done|].
  by constructor.
Qed.

Lemma gather_start conn : preserved conn conn /\ Forall (holds conn) [].
Proof. split; [apply preserved_refl | constructor]. Qed.

Lemma holds_among conn fs fs' :
  forallb (fun f => bool_decide (f ∈ fs)) fs' = true ->
  Forall (holds conn) fs -> Forall (holds conn) fs'.
Proof.
  intros Hsub Hfs. apply List.Forall_forall. intros f Hf.
  rewrite forallb_forall in Hsub. specialize (Hsub f Hf).
  apply bool_decide_eq_true in Hsub.
  rewrite Forall_forall in Hfs. by apply Hfs.
Qed.

(** Takes the first statement off a run that succeeded. *)
Ltac run_step H c Hc :=
  apply bind_Some in H as (c & Hc & H).

Lemma has_column_table_exists conn table column :
  has_column conn table column = true -> table_exists conn table = true.
Proof.
  unfold has_column, table_exists. destruct (tables conn !! table); [|done].
  intros _. apply bool_decide_eq_true. eauto.
Qed.

Lemma migrate_products_step conn conn' :
  migrate_products conn = Some conn' ->
  preserved conn conn'
  /\ Forall (holds conn')
       [ HasColumn "products" "supplier_id"; HasColumn "products" "unit_pack_info";
         HasColumn "products" "product_name"; HasColumn "products" "name" ].
Proof.
  unfold migrate_products. intros H.
  run_step H c1 H1. apply ensure_column_step in H1.
  pose proof (gather1 _ _ _ _ _ (gather_start conn) H1) as G1.
  destruct H1 as [_ Hname]. cbn in Hname.
  rewrite (has_column_table_exists _ _ _ Hname) in H.
  run_step H c2 H2.
  assert (G2 : preserved c1 c2 /\ holds c2 (HasColumn "products" "product_name")).
  { destruct (has_column c1 "products" "product_name") eqn:Hpn.
    - injection H2 as <-. split; [apply preserved_refl | done].
    - run_step H2 c H2a. pose proof (add_column_step _ _ _ _ _ H2a) as [Hp Hc].
      assert (Hn : has_column c "products" "name" = true).
      { by apply (holds_preserved c1 c (HasColumn "products" "name")). }
      rewrite Hn in H2. by eapply add_product_name_step. }
  pose proof (gather1 _ _ _ _ _ G1 G2) as G3.
  run_step H c3 H3. apply ensure_column_step in H3.
  pose proof (gather1 _ _ _ _ _ G3 H3) as G4.
  apply ensure_column_step in H.
  exact (gather1 _ _ _ _ _ G4 H).
Qed.

(** One more statement of a run: its facts join those gathered so far. *)
Ltac gather_column H G G' c :=
  let Hc := fresh "Hc" in
  run_step H c Hc; apply ensure_column_step in Hc;
  pose proof (gather1 _ _ _ _ _ G Hc) as G'; clear G Hc.

Lemma migrate_orders_step conn conn' :
  migrate_orders conn = Some conn' ->
  preserved conn conn'
  /\ Forall (holds conn')
       [ HasColumn "orders" "sales_rep_name"; HasColumn "orders" "line_items";
         HasColumn "orders" "customer_location"; HasColumn "orders" "customer_name";
         HasColumn "orders" "currency"; HasColumn "orders" "delivery_date";
         HasColumn "orders" "status"; HasColumn "orders" "payment_method";
         HasColumn "orders" "unit_price"; HasColumn "orders" "order_no";
         HasColumn "orders" "supplier_id"; HasColumn "orders" "product_id";
         HasColumn "orders" "quantity"; HasColumn "orders" "notes";
         HasColumn "orders" "total"; HasColumn "orders" "created_at";
         TableExists "orders" ].
Proof.
  unfold migrate_orders. intros H.
  run_step H c0 H0.
  assert (G0 : preserved conn c0 /\ Forall (holds c0) [TableExists "orders"]).
  { apply (gather1 conn conn c0 [] _ (gather_start conn)).
    destruct (table_exists conn "orders") eqn:Ht.
    - injection H0 as <-. split; [apply preserved_refl | done].
    - by apply create_table_step in H0. }
  clear H0.
  gather_column H G0 G1 c1. gather_column H G1 G2 c2.
  run_step H c3 H3. apply ensure_columns_step in H3.
  pose proof (gather _ _ _ _ _ G2 H3) as G. clear G2 H3.
  run_step H c4 H4.
  assert (G4 : preserved c3 c4 /\ holds c4 (HasColumn "orders" "order_no")).
  { destruct (has_column c3 "orders" "order_no") eqn:Hno.
    - injection H4 as <-. split; [apply preserved_refl | done].
    - run_step H4 c H4a. apply add_column_step in H4a as [Hp Hc].
      apply create_unique_index_step in H4 as [Hp' _].
      split; [by eapply preserved_trans|].
      by apply (holds_preserved c c4 (HasColumn "orders" "order_no")). }
  pose proof (gather1 _ _ _ _ _ G G4) as G0. clear G G4 H4.
  gather_column H G0 G5 c5. gather_column H G5 G6 c6. gather_column H G6 G7 c7.
  gather_column H G7 G8 c8. gather_column H G8 G9 c9. gather_column H G9 G10 c10.
  gather_column H G10 G11 c11. gather_column H G11 G12 c12.
  apply ensure_column_step in H.
  exact (gather1 _ _ _ _ _ G12 H).
Qed.

Lemma create_targets_step conn conn' :
  create_targets conn = Some conn' ->
  preserved conn conn'
  /\ Forall (holds conn')
       [ TableExists "rep_actuals"; TableExists "supplier_actuals";
         IndexExists "idx_rep_targets_unique"; IndexExists "idx_supplier_targets_unique";
         TableExists "supplier_targets"; TableExists "rep_targets" ].
Proof.
  unfold create_targets. intros H.
  run_step H c1 H1. apply create_table_if_not_exists_step in H1.
  pose proof (gather1 _ _ _ _ _ (gather_start conn) H1) as G1.
  run_step H c2 H2. apply create_table_if_not_exists_step in H2.
  pose proof (gather1 _ _ _ _ _ G1 H2) as G2.
  run_step H c3 H3. apply create_unique_index_step in H3.
  pose proof (gather1 _ _ _ _ _ G2 H3) as G3.
  run_step H c4 H4. apply create_unique_index_step in H4.
  pose proof (gather1 _ _ _ _ _ G3 H4) as G4.
  run_step H c5 H5. apply create_table_if_not_exists_step in H5.
  pose proof (gather1 _ _ _ _ _ G4 H5) as G5.
  apply create_table_if_not_exists_step in H.
  exact (gather1 _ _ _ _ _ G5 H).
Qed.

(** A run that succeeds keeps what was in the store and ends in the
    reconciled shape. *)
Lemma ensure_schema_reconciles sd conn conn' :
  ensure_schema sd conn = Some conn' ->
  preserved conn conn' /\ reconciled conn'.
Proof.
  unfold ensure_schema. intros H.
  run_step H c1 H1. apply create_table_if_not_exists_step in H1.
  pose proof (gather1 _ _ _ _ _ (gather_start conn) H1) as G1.
  run_step H c2 H2. apply create_table_if_not_exists_step in H2.
  pose proof (gather1 _ _ _ _ _ G1 H2) as G2.
  run_step H c3 H3. apply create_table_if_not_exists_step in H3.
  pose proof (gather1 _ _ _ _ _ G2 H3) as G3.
  run_step H c4 H4. apply migrate_products_step in H4.
  pose proof (gather _ _ _ _ _ G3 H4) as G4.
  run_step H c5 H5. apply migrate_orders_step in H5.
  pose proof (gather _ _ _ _ _ G4 H5) as G5.
  run_step H c6 H6. apply create_targets_step in H6.
  pose proof (gather _ _ _ _ _ G5 H6) as G6.
  run_step H c7 H7. apply seed_user_step in H7.
  pose proof (gather1 _ _ _ _ _ G6 H7) as G7.
  apply seed_user_step in H.
  destruct (gather1 _ _ _ _ _ G7 H) as [Hp Hf].
  split; [done|]. unfold reconciled.
  eapply holds_among; [|exact Hf]. by vm_compute.
Qed.

Lemma reconciled_fact conn f :
  reconciled conn -> bool_decide (f ∈ reconciled_facts) = true -> holds conn f.
Proof.
  intros R Hf. apply bool_decide_eq_true in Hf.
  unfold reconciled in R. rewrite Forall_forall in R. by apply R.
Qed.

Lemma create_table_if_not_exists_noop conn name cols :
  holds conn (TableExists name) -> create_table_if_not_exists conn name cols = Some conn.
Proof.
  cbn. unfold table_exists, create_table_if_not_exists.
  intros [t ->]%bool_decide_eq_true. done.
Qed.

Lemma ensure_column_noop conn table column dflt :
  holds conn (HasColumn table column) -> ensure_column table column dflt conn = Some conn.
Proof. cbn. unfold ensure_column. by intros ->. Qed.

Lemma create_unique_index_noop conn idx table columns :
  holds conn (IndexExists idx) ->
  create_unique_index_if_not_exists idx table columns conn = Some conn.
Proof.
  cbn. unfold create_unique_index_if_not_exists. intros H.
  by rewrite bool_decide_eq_true_2.
Qed.

Lemma seed_user_noop sd conn username password_hash role full_name :
  holds conn (UserExists username) ->
  seed_user sd username password_hash role full_name conn = Some conn.
Proof. cbn. unfold seed_user. by intros ->. Qed.

(** Rewrites the tests of the statement that heads the run with the facts
    of a reconciled store. *)
Ltac head_noop R :=
  match goal with
  | |- context [create_table_if_not_exists ?c ?n ?cols] =>
      rewrite (create_table_if_not_exists_noop c n cols
                 (reconciled_fact c (TableExists n) R eq_refl))
  | |- context [ensure_column ?t ?col ?d ?c] =>
      rewrite (ensure_column_noop c t col d
                 (reconciled_fact c (HasColumn t col) R eq_refl))
  | |- context [create_unique_index_if_not_exists ?i ?t ?cols ?c] =>
      rewrite (create_unique_index_noop c i t cols
                 (reconciled_fact c (IndexExists i) R eq_refl))
  | |- context [seed_user ?sd ?u ?ph ?r ?fn ?c] =>
      rewrite (seed_user_noop sd c u ph r fn
                 (reconciled_fact c (UserExists u) R eq_refl))
  | |- context [table_exists ?c ?n] =>
      rewrite (reconciled_fact c (TableExists n) R eq_refl
               : table_exists c n = true)
  | |- context [has_column ?c ?t ?col] =>
      rewrite (reconciled_fact c (HasColumn t col) R eq_refl
               : has_column c t col = true)
  end.

(** On a reconciled store a run changes nothing. *)
Lemma ensure_schema_noop sd conn :
  reconciled conn -> ensure_schema sd conn = Some conn.
Proof.
  intros R.
  unfold ensure_schema, migrate_products, migrate_orders, create_targets.
  repeat (head_noop R; cbn [mbind option_bind ensure_columns]).
  reflexivity.
Qed.

End SchemaFacts.

(** C8: a second run of [ensure_schema] right after one that succeeded
    changes nothing, neither the structure nor a row or value, whatever the
    clock and the password hashes of that run; the first run keeps every
    index, table, column, row and value that was in the store; and the
    backfill of [product_name] leaves a row whose product name is neither
    NULL nor empty as it is. *)
Theorem ensure_schema_idempotent sd sd' conn conn' :
  Schema.ensure_schema sd conn = Some conn' ->
  Schema.ensure_schema sd' conn' = Some conn'
  /\ preserved conn conn'
  /\ (forall product_name name row,
         Schema.cell row product_name <> Schema.Null ->
         Schema.cell row product_name <> Schema.Text "" ->
         Schema.backfill_row product_name name row = row).
Proof.
  intros H. apply ensure_schema_reconciles in H as [Hp Hr].
  split_and!; [by apply ensure_schema_noop | done |].
  apply backfill_row_keeps_value.
Qed.

Lemma ensure_schema_idempotent_witness :
  let conn' := default legacy_db (Schema.ensure_schema sample_seeds legacy_db) in
  Schema.ensure_schema later_seeds conn' = Some conn'
  /\ preserved legacy_db conn'
  /\ (forall product_name name row,
         Schema.cell row product_name <> Schema.Null ->
         Schema.cell row product_name <> Schema.Text "" ->
         Schema.backfill_row product_name name row = row).
Proof.
  apply (ensure_schema_idempotent sample_seeds later_seeds legacy_db).
  vm_compute. reflexivity.
Defined.

(** The first run on the older shape adds the columns, copies [name] to
    the new [product_name], and seeds the two accounts. *)
Example ensure_schema_legacy :
  match Schema.ensure_schema sample_seeds legacy_db with
  | Some conn =>
      (Schema.t_cols <$> Schema.tables conn !! "products")
      = Some ["id"; "supplier_id"; "name"; "product_name"; "unit_pack_info"]
      /\ (map (fun row => Schema.cell row "product_name")
            <$> (Schema.t_rows <$> Schema.tables conn !! "products"))
         = Some [Schema.Text "Kaluma King"]
      /\ (map (fun row => (Schema.cell row "total", Schema.cell row "status"))
            <$> (Schema.t_rows <$> Schema.tables conn !! "orders"))
         = Some [(Schema.Real (float_of_Z 250), Schema.Text "Pending")]
      /\ (map (fun row => Schema.cell row "username")
            <$> (Schema.t_rows <$> Schema.tables conn !! "users"))
         = Some [Schema.Text "admin"; Schema.Text "staff"]
  | None => False
  end.
Proof. vm_compute. split_and!; reflexivity. Qed.

(** * Further properties of the canonical key *)

Section CanonMore.
Import PyStr.

Lemma lower_empty s : lower s = "" -> s = "".
Proof. by destruct s. Qed.

(** [_canon] sees its argument through [strip] and [lower] only. *)
Lemma canon_lower_strip text : _canon text = _canon (lower (strip text)).
Proof.
  destruct text as [|c0 text0]; [done|].
  set (text := String c0 text0).
  destruct (lower_strip_trimmed text) as (Hf & Hl & Hlow).
  unfold _canon at 1. fold text. cbv zeta.
  destruct (lower (strip text)) as [|d u] eqn:E; [by vm_compute|].
  unfold _canon. cbv zeta.
  by rewrite (strip_fixed _ Hf Hl), (lower_fixed_string _ Hlow).
Qed.

Lemma rstrip_snoc_space s c :
  is_space c = true -> rstrip (s ++ String c "") = rstrip s.
Proof.
  intros Hc. induction s as [|d s IH].
  - rewrite append_nil_l. cbn. by rewrite Hc.
  - rewrite append_cons. cbn [rstrip]. by rewrite IH.
Qed.

Lemma lstrip_snoc_space s c :
  is_space c = true ->
  lstrip (s ++ String c "")
  = match lstrip s with "" => "" | t => t ++ String c "" end.
Proof.
  intros Hc. induction s as [|d s IH].
  - rewrite append_nil_l. cbn. by rewrite Hc.
  - rewrite append_cons. cbn [lstrip]. by destruct (is_space d).
Qed.

Lemma strip_snoc_space s c : is_space c = true -> strip (s ++ String c "") = strip s.
Proof.
  intros Hc. unfold strip. rewrite (lstrip_snoc_space s c Hc).
  destruct (lstrip s) as [|d t] eqn:E; [done|]. by apply rstrip_snoc_space.
Qed.

Lemma replace_not_empty old new s :
  old <> "" -> new <> "" -> s <> "" -> replace old new s <> "".
Proof.
  intros Hold Hnew. revert s.
  apply (replace_ind old new (fun s out => s <> "" -> out <> "")); try done.
  intros rest out _ _. by apply append_not_empty.
Qed.

Lemma fold_tail_not_empty z s : s <> "" -> fold_tail (String z "") s <> "".
Proof.
  intros Hs. destruct (fold_tail_cases z s) as [(t & -> & ->)|[_ ->]]; [|done].
  destruct t; [done | by rewrite append_cons].
Qed.

Lemma replace_length_le old new s :
  old <> "" -> String.length new <= String.length old ->
  String.length (replace old new s) <= String.length s.
Proof.
  intros Hold Hlen. revert s.
  apply (replace_ind old new
           (fun s out => String.length out <= String.length s)); try done.
  - intros c s out _ IH. cbn. lia.
  - intros rest out IH. rewrite !length_append. lia.
Qed.

Lemma fold_tail_length z s :
  String.length (fold_tail (String z "") s) <= String.length s.
Proof.
  destruct (fold_tail_cases z s) as [(t & -> & ->)|[_ ->]]; [|done].
  rewrite !length_append. cbn. lia.
Qed.

End CanonMore.

Lemma collapse_spaces_length s :
  String.length (collapse_spaces s) <= String.length s.
Proof.
  apply (collapse_loop_keeps (fun t => String.length t <= String.length s)); [|done].
  intros t Ht. etrans; [|exact Ht]. apply replace_length_le; [done | cbn; lia].
Qed.

Lemma collapse_spaces_not_empty s : s <> "" -> collapse_spaces s <> "".
Proof.
  apply (collapse_loop_keeps (fun t => t <> "")).
  intros t. by apply replace_not_empty.
Qed.

(** X1: every key that [_canon] returns is in normal form: [strip] and
    [lower] leave it as it is, it has no two spaces in a row, no space
    before or after an [x], no multiplication sign, and it does not end in
    a space followed by [z] or [v]. *)
Theorem canon_key_normal_form text :
  let key := _canon text in
  PyStr.strip key = key
  /\ PyStr.lower key = key
  /\ PyStr.contains "  " key = false
  /\ PyStr.contains " x" key = false
  /\ PyStr.contains "x " key = false
  /\ PyStr.contains times_sign key = false
  /\ PyStr.endswith " z" key = false
  /\ PyStr.endswith " v" key = false.
Proof.
  cbv zeta.
  destruct (canon_canonical text) as ((Hf & Hl & Hlow) & Hnt & Hb & Hz & Hv).
  split_and!; try done.
  - by apply strip_fixed.
  - by apply lower_fixed_string.
  - by apply (no_bad_contains bad_tight " " " " _ None).
  - by apply (no_bad_contains bad_tight " " "x" _ None).
  - by apply (no_bad_contains bad_tight "x" " " _ None).
  - by apply not_times_absent.
Qed.

(** X2: the key depends on the text only through its trimmed, lower-case
    form: two texts that are equal after [strip] and [lower] have the same
    key, whatever their capitals and the white space around them. *)
Theorem canon_ignores_case_and_margins a b :
  PyStr.lower (PyStr.strip a) = PyStr.lower (PyStr.strip b) ->
  _canon a = _canon b.
Proof.
  intros H. by rewrite (canon_lower_strip a), (canon_lower_strip b), H.
Qed.

Lemma canon_ignores_case_and_margins_witness :
  _canon "  Basmati SUNRICE 5Kg " = _canon "basmati sunrice 5kg".
Proof.
  apply (canon_ignores_case_and_margins "  Basmati SUNRICE 5Kg " "basmati sunrice 5kg").
  vm_compute. reflexivity.
Defined.

(** X3: the empty key is the key of the blank texts only: [_canon] returns
    the empty text exactly when the text is empty after [strip]. *)
Theorem canon_empty_only_for_blank text :
  _canon text = "" <-> PyStr.strip text = "".
Proof.
  split.
  - intros H. destruct (PyStr.strip text) as [|d u] eqn:E; [done|]. exfalso.
    revert H. destruct text as [|c0 t0]; [done|]. unfold _canon. rewrite E.
    cbv zeta. unfold squeeze_x, norm_pk, norm_g, norm_kg, norm_ml.
    repeat first
      [ apply fold_tail_not_empty
      | apply replace_not_empty; [done | done |]
      | apply collapse_spaces_not_empty ].
    done.
  - intros H. by rewrite canon_lower_strip, H.
Qed.

(** X4: [_canon_pair] is [_canon] of name, one space and pack, the [strip]
    between the two changes nothing; so a label given whole in the name
    field, with the pack missing or empty, has the key of the same label
    split over the two fields. *)
Theorem canon_pair_merged_field a b :
  _canon_pair (Some a) (Some b) = _canon (a ++ " " ++ b)
  /\ _canon_pair (Some (a ++ " " ++ b)) None = _canon_pair (Some a) (Some b)
  /\ _canon_pair (Some (a ++ " " ++ b)) (Some "") = _canon_pair (Some a) (Some b).
Proof.
  assert (Hstrip : forall t, _canon (PyStr.strip t) = _canon t).
  { intros t.
    by rewrite (canon_lower_strip (PyStr.strip t)), strip_idem, <- canon_lower_strip. }
  assert (Hone : forall t, _canon (t ++ " ") = _canon t).
  { intros t. rewrite (canon_lower_strip (t ++ " ")).
    by rewrite (strip_snoc_space t " " eq_refl), <- canon_lower_strip. }
  assert (Hpair : _canon_pair (Some a) (Some b) = _canon (a ++ " " ++ b)).
  { unfold _canon_pair. cbn [or_empty]. apply Hstrip. }
  assert (Hmerged : forall pack,
             or_empty pack = "" ->
             _canon_pair (Some (a ++ " " ++ b)) pack = _canon (a ++ " " ++ b)).
  { intros pack Hp. unfold _canon_pair. rewrite Hp. cbn [or_empty].
    change (" " ++ "") with " ". by rewrite Hstrip, Hone. }
  split_and!; [done | |]; rewrite Hpair; by apply Hmerged.
Qed.

(** X5: a key is never longer than the trimmed, lower-case form of the
    text it is made from: no step of [_canon] after [strip] and [lower]
    makes the text longer. *)
Theorem canon_never_longer text :
  String.length (_canon text) <= String.length (PyStr.lower (PyStr.strip text)).
Proof.
  destruct text as [|c0 t0]; [vm_compute; lia|]. set (text := String c0 t0).
  unfold _canon. fold text. cbv zeta.
  unfold squeeze_x, norm_pk, norm_g, norm_kg, norm_ml.
  repeat first
    [ etrans; [apply fold_tail_length|]
    | etrans; [apply replace_length_le; [done | vm_compute; lia]|]
    | etrans; [apply collapse_spaces_length|] ].
  done.
Qed.

(** * Further properties of the catalog *)

Section CatalogMore.

Lemma extends_refl conn : extends conn conn.
Proof.
  split_and!; try done; exists []; by rewrite app_nil_r.
Qed.

Lemma extends_trans conn conn' conn'' :
  extends conn conn' -> extends conn' conn'' -> extends conn conn''.
Proof.
  intros ([s1 Hs1] & [p1 Hp1] & Hu1 & Ho1 & Hq1 & Ha1 & Hb1 & Hc1 & Hd1)
         ([s2 Hs2] & [p2 Hp2] & Hu2 & Ho2 & Hq2 & Ha2 & Hb2 & Hc2 & Hd2).
  split_and!; try congruence.
  - exists (s1 ++ s2)%list. by rewrite Hs2, Hs1, <- app_assoc.
  - exists (p1 ++ p2)%list. by rewrite Hp2, Hp1, <- app_assoc.
Qed.

Lemma upsert_supplier_extends conn name :
  extends conn (snd (_upsert_supplier conn name)).
Proof.
  rewrite upsert_supplier_unfold. cbn zeta.
  destruct (String.eqb _ ""); [apply extends_refl|].
  destruct (supplier_by_name _ _); [apply extends_refl|].
  cbn [snd]. split_and!; try done; [by eexists | exists []; by rewrite app_nil_r].
Qed.

(** After the upsert of a name that is not blank, a supplier of that
    name is stored. *)
Lemma upsert_supplier_found conn name :
  PyStr.strip (or_empty name) <> "" ->
  supplier_by_name (snd (_upsert_supplier conn name)) (PyStr.strip (or_empty name))
  <> None.
Proof.
  intros Hne. rewrite upsert_supplier_unfold. cbn zeta.
  apply String.eqb_neq in Hne. rewrite Hne.
  destruct (supplier_by_name conn _) as [row|] eqn:Hfind; cbn [snd].
  - by rewrite Hfind.
  - unfold supplier_by_name in *. cbn [suppliers set_suppliers].
    rewrite find_app_none by done. cbn [s_name]. by rewrite String.eqb_refl.
Qed.

Lemma stored_keys_elem conn sid k :
  k ∈ stored_keys conn sid <-> In (Some sid, k) (map product_key (products conn)).
Proof.
  unfold stored_keys. rewrite elem_of_list_to_set, list_elem_of_In, !List.in_map_iff.
  split.
  - intros (r & <- & [Hin Hs%bool_decide_eq_true]%List.filter_In).
    exists r. split; [|done]. unfold product_key. by rewrite Hs.
  - intros (r & E & Hin). unfold product_key in E. injection E as Hs <-.
    exists r. split; [done|].
    apply List.filter_In. split; [done|]. by apply bool_decide_eq_true.
Qed.

Lemma stored_keys_snoc conn row q sid :
  stored_keys (set_products conn (products conn ++ [row]) q) sid
  = if bool_decide (p_supplier_id row = Some sid)
    then {[snd (product_key row)]} ∪ stored_keys conn sid
    else stored_keys conn sid.
Proof.
  unfold stored_keys. cbn [products set_products].
  rewrite List.filter_app, List.map_app, list_to_set_app_L. cbn [List.filter].
  destruct (bool_decide _); cbn [map list_to_set].
  - by rewrite union_empty_r_L, (comm_L (∪)).
  - by rewrite union_empty_r_L.
Qed.

Lemma find_app_found {A} (f : A -> bool) (l l' : list A) (x : A) :
  List.find f l = Some x -> List.find f (l ++ l') = Some x.
Proof.
  induction l as [|y l IH]; cbn; [done|]. by destruct (f y).
Qed.

Lemma covered_extends conn conn' r :
  extends conn conn' -> covered conn r -> covered conn' r.
Proof.
  intros ([news Hs] & [newp Hp] & _) [Hm|[Hfound Hkey]]; [by left | right].
  unfold row_supplier_id in *.
  set (n := PyStr.strip (or_empty (csv_supplier r))) in *.
  destruct (supplier_by_name conn n) as [row|] eqn:Hfind; [clear Hfound | done].
  assert (Hfind' : supplier_by_name conn' n = Some row).
  { unfold supplier_by_name in *. rewrite Hs. by apply find_app_found. }
  split; [by rewrite Hfind'|].
  rewrite upsert_supplier_unfold in *. cbn zeta in *.
  change (PyStr.strip (or_empty (Some n))) with (PyStr.strip n) in *.
  assert (Hn : PyStr.strip n = n) by apply strip_idem.
  rewrite Hn in Hkey |- *. rewrite Hfind in Hkey. rewrite Hfind'.
  destruct (String.eqb n ""); cbn [fst] in *;
    (destruct Hkey as [?|Hkey]; [by left | right];
     rewrite stored_keys_elem in *; rewrite Hp, List.map_app;
     apply List.in_or_app; by left).
Qed.

End CatalogMore.

Lemma missing_name_eqb r :
  String.eqb (PyStr.strip (or_empty (csv_supplier r))) ""
  || String.eqb (PyStr.strip (or_empty (csv_product r))) "" = true ->
  missing_name r.
Proof.
  intros [H%String.eqb_eq|H%String.eqb_eq]%orb_prop; [by left | by right].
Qed.

(** One pass of the import loop from a state whose cache agrees with the
    store: the cache still agrees, the catalog is extended, the row is
    covered by the store, and either nothing is inserted and the row is
    counted as skipped, or one product is appended whose supplier and key
    no stored product has. *)
Lemma upload_step_inv st r :
  cache_coherent st ->
  let st' := upload_step st r in
  cache_coherent st'
  /\ extends (up_conn st) (up_conn st')
  /\ covered (up_conn st') r
  /\ ((products (up_conn st') = products (up_conn st)
       /\ up_added st' = up_added st
       /\ up_skipped st' = (up_skipped st + 1)%Z)
      \/ (exists row,
             products (up_conn st') = (products (up_conn st) ++ [row])%list
             /\ up_added st' = (up_added st + 1)%Z
             /\ up_skipped st' = up_skipped st
             /\ ~ In (product_key row) (map product_key (products (up_conn st))))).
Proof.
  intros Hcoh. cbn zeta. rewrite upload_step_unfold. cbn zeta.
  destruct (_ || _) eqn:Hm.
  { cbn [up_conn up_added up_skipped]. split_and!.
    - exact Hcoh.
    - apply extends_refl.
    - left. by apply missing_name_eqb.
    - by left. }
  apply orb_false_elim in Hm as [Hs%String.eqb_neq Hp%String.eqb_neq].
  set (sname := PyStr.strip (or_empty (csv_supplier r))) in *.
  assert (Hsn : PyStr.strip (or_empty (Some sname)) = sname) by apply strip_idem.
  assert (Hsn' : PyStr.strip (or_empty (Some sname)) <> "") by (by rewrite Hsn).
  destruct (upsert_supplier_products (up_conn st) (Some sname)) as [Hps Hseq].
  pose proof (upsert_supplier_extends (up_conn st) (Some sname)) as Hext.
  pose proof (upsert_supplier_found (up_conn st) (Some sname) Hsn') as Hfound.
  pose proof (upsert_supplier_again (up_conn st) (Some sname) (Some sname) Hsn' eq_refl)
    as Hagain.
  rewrite Hsn in Hfound.
  set (sid := fst (_upsert_supplier (up_conn st) (Some sname))) in *.
  set (conn := snd (_upsert_supplier (up_conn st) (Some sname))) in *.
  assert (Hrow : row_supplier_id conn r = sid).
  { unfold row_supplier_id. fold sname. by rewrite Hagain. }
  assert (Hcoh' : forall sid' keys,
             up_existing st !! sid' = Some keys -> keys = stored_keys conn sid').
  { intros sid' keys H%Hcoh. by rewrite (stored_keys_products conn (up_conn st) sid' Hps). }
  destruct (Z.leb_spec sid 0) as [Hle|Hpos].
  { cbn [up_conn up_added up_skipped up_existing]. split_and!; try done.
    - right. split; [done|]. left. by rewrite Hrow.
    - by left. }
  set (existing := _load_existing conn (up_existing st) sid).
  assert (Hload : forall sid' keys,
             existing !! sid' = Some keys -> keys = stored_keys conn sid').
  { intros sid' keys. unfold existing, _load_existing.
    destruct (up_existing st !! sid) eqn:E; [apply Hcoh'|].
    destruct (decide (sid' = sid)) as [->|Hne].
    - rewrite lookup_insert_eq. by intros [= <-].
    - rewrite lookup_insert_ne by done. apply Hcoh'. }
  assert (Htotal : existing !!! sid = stored_keys conn sid).
  { unfold existing, _load_existing.
    destruct (up_existing st !! sid) eqn:E.
    - rewrite (lookup_total_correct _ _ _ E). by apply Hcoh'.
    - by rewrite lookup_total_insert_eq. }
  rewrite Htotal.
  destruct (bool_decide (row_key r ∈ stored_keys conn sid)) eqn:Hdup;
    cbn [up_conn up_added up_skipped up_existing].
  { apply bool_decide_eq_true in Hdup. split_and!; try done.
    - right. split; [done|]. right. by rewrite Hrow.
    - by left. }
  apply bool_decide_eq_false in Hdup.
  set (row := {| p_id := _; p_supplier_id := Some sid |}).
  assert (Hkey : product_key row = (Some sid, row_key r)).
  { unfold product_key, row, row_key. cbn. by rewrite coalesce_non_empty. }
  split_and!.
  - intros sid' keys. cbn [up_conn up_existing].
    rewrite stored_keys_snoc. cbn [p_supplier_id row].
    destruct (decide (sid' = sid)) as [->|Hne].
    + rewrite lookup_insert_eq, bool_decide_eq_true_2 by done. intros [= <-].
      by rewrite Hkey.
    + rewrite lookup_insert_ne, bool_decide_eq_false_2 by congruence. apply Hload.
  - eapply extends_trans; [exact Hext|].
    split_and!; try done; [exists []; by rewrite app_nil_r | by eexists].
  - right. split; [done|]. right.
    unfold row_supplier_id. fold sname.
    rewrite upsert_supplier_set_products, Hagain. cbn [fst].
    unfold row_key. apply stored_keys_appended.
  - right. exists row. rewrite Hps. split_and!; try done.
    rewrite Hkey, <- Hps. by rewrite <- stored_keys_elem.
Qed.

Lemma empty_cache_coherent conn added skipped :
  cache_coherent
    {| up_conn := conn; up_existing := ∅; up_added := added; up_skipped := skipped |}.
Proof. intros sid keys. cbn. by rewrite lookup_empty. Qed.

(** The loop of the import, from a state whose cache agrees with the
    store. *)
Lemma upload_steps_inv rows st :
  cache_coherent st ->
  let st' := fold_left upload_step rows st in
  cache_coherent st'
  /\ extends (up_conn st) (up_conn st')
  /\ Forall (covered (up_conn st')) rows
  /\ exists new,
      products (up_conn st') = (products (up_conn st) ++ new)%list
      /\ (Z.of_nat (List.length new) = up_added st' - up_added st)%Z
      /\ (NoDup (map product_key (products (up_conn st))) ->
          NoDup (map product_key (products (up_conn st')))).
Proof.
  revert st. induction rows as [|r rows IH]; intros st Hcoh; cbn zeta.
  { cbn [fold_left]. split_and!; [done | apply extends_refl | done |].
    exists []. rewrite app_nil_r. cbn. split_and!; [done | lia | done]. }
  cbn [fold_left].
  destruct (upload_step_inv st r Hcoh) as (Hcoh1 & Hext1 & Hcov1 & Hcase).
  destruct (IH (upload_step st r) Hcoh1) as (Hcoh' & Hext' & Hcov' & new & Hnew & Hlen & Hdup).
  split_and!; [done | by eapply extends_trans | |].
  { constructor; [|done]. by apply (covered_extends (up_conn (upload_step st r))). }
  destruct Hcase as [(Hps & Ha & _)|(row & Hps & Ha & _ & Hfresh)].
  - exists new. rewrite <- Hps, <- Ha. done.
  - exists (row :: new). split_and!.
    + by rewrite Hnew, Hps, <- app_assoc.
    + cbn [List.length]. lia.
    + intros Hnd. apply Hdup. rewrite Hps, List.map_app. apply NoDup_app.
      split_and!; [done | | apply NoDup_singleton].
      intros k Hk [->|[]%elem_of_nil]%elem_of_cons. by apply list_elem_of_In in Hk.
Qed.

Lemma load_existing_total conn cache sid :
  (forall sid' keys, cache !! sid' = Some keys -> keys = stored_keys conn sid') ->
  _load_existing conn cache sid !!! sid = stored_keys conn sid.
Proof.
  intros Hcoh. unfold _load_existing. destruct (cache !! sid) eqn:E.
  - rewrite (lookup_total_correct _ _ _ E). by apply Hcoh.
  - by rewrite lookup_total_insert_eq.
Qed.

(** A row that the store covers is skipped and leaves the store as it
    is. *)
Lemma upload_step_covered st r :
  cache_coherent st -> covered (up_conn st) r ->
  up_conn (upload_step st r) = up_conn st
  /\ up_added (upload_step st r) = up_added st
  /\ up_skipped (upload_step st r) = (up_skipped st + 1)%Z.
Proof.
  intros Hcoh Hcov. rewrite upload_step_unfold. cbn zeta.
  destruct (_ || _) eqn:Hm; [done|].
  destruct Hcov as [[E|E]|[Hfound Hkey]].
  { rewrite E in Hm. discriminate. }
  { rewrite E, orb_true_r in Hm. discriminate. }
  unfold row_supplier_id in Hkey.
  apply orb_false_elim in Hm as [Hs _].
  set (sname := PyStr.strip (or_empty (csv_supplier r))) in *.
  assert (Hup : exists row, _upsert_supplier (up_conn st) (Some sname)
                            = (s_id row, up_conn st)).
  { rewrite upsert_supplier_unfold. cbn zeta.
    change (PyStr.strip (or_empty (Some sname))) with (PyStr.strip sname).
    unfold sname at 1 2 3. rewrite strip_idem. fold sname. rewrite Hs.
    destruct (supplier_by_name (up_conn st) sname) as [row|]; [by exists row | done]. }
  destruct Hup as [row Hup]. rewrite Hup in *. cbn [fst snd] in *.
  destruct (Z.leb_spec (s_id row) 0) as [Hle|Hpos]; [done|].
  destruct Hkey as [?|Hkey]; [lia|].
  rewrite (load_existing_total (up_conn st) (up_existing st) (s_id row) Hcoh).
  by rewrite bool_decide_eq_true_2.
Qed.

Lemma upload_steps_covered rows st :
  cache_coherent st -> Forall (covered (up_conn st)) rows ->
  let st' := fold_left upload_step rows st in
  up_conn st' = up_conn st
  /\ up_added st' = up_added st
  /\ up_skipped st' = (up_skipped st + Z.of_nat (List.length rows))%Z.
Proof.
  revert st. induction rows as [|r rows IH]; intros st Hcoh Hcov; cbn zeta.
  { cbn. split_and!; [done | done | lia]. }
  apply Forall_cons in Hcov as [Hr Hrows]. cbn [fold_left].
  destruct (upload_step_covered st r Hcoh Hr) as (Hc & Ha & Hs).
  destruct (upload_step_inv st r Hcoh) as (Hcoh1 & _).
  destruct (IH (upload_step st r) Hcoh1) as (Hc' & Ha' & Hs'); [by rewrite Hc|].
  rewrite Hc', Ha', Hs', Hc, Ha, Hs. cbn [List.length]. split_and!; [done | done | lia].
Qed.

(** An import only adds to the catalog, when every INSERT is accepted. *)
Lemma accepted_upload_only_appends conn rows :
  let conn' := fst (accepted_upload conn rows) in
  extends conn conn'
  /\ (Z.of_nat (List.length (products conn'))
      = Z.of_nat (List.length (products conn)) + fst (snd (accepted_upload conn rows)))%Z.
Proof.
  cbn zeta. unfold accepted_upload. cbn [fst snd].
  destruct (upload_steps_inv rows _ (empty_cache_coherent conn 0 0))
    as (_ & Hext & _ & new & Hnew & Hlen & _).
  cbn [up_conn up_added] in *. split; [done|].
  rewrite Hnew, length_app. lia.
Qed.

Lemma accepted_upload_keeps_keys_unique conn rows :
  unique_keys conn -> unique_keys (fst (accepted_upload conn rows)).
Proof.
  unfold unique_keys, accepted_upload. cbn [fst].
  destruct (upload_steps_inv rows _ (empty_cache_coherent conn 0 0))
    as (_ & _ & _ & new & _ & _ & Hdup).
  exact Hdup.
Qed.

Lemma accepted_upload_second_pass conn rows :
  accepted_upload (fst (accepted_upload conn rows)) rows
  = (fst (accepted_upload conn rows), (0%Z, Z.of_nat (List.length rows))).
Proof.
  destruct (upload_steps_inv rows _ (empty_cache_coherent conn 0 0))
    as (_ & _ & Hcov & _).
  unfold accepted_upload at 1. cbn [fst snd].
  set (conn1 := fst (accepted_upload conn rows)).
  change (up_conn (fold_left upload_step rows _)) with conn1 in Hcov.
  destruct (upload_steps_covered rows _ (empty_cache_coherent conn1 0 0) Hcov)
    as (Hc & Ha & Hs).
  cbn [up_conn up_added up_skipped] in *. by rewrite Hc, Ha, Hs, Z.add_0_l.
Qed.

(** The count of inserted rows never goes down, and a loop that raises
    is one whose accepted passes would insert. *)
Lemma upload_step_added_mono st r : (up_added st <= up_added (upload_step st r))%Z.
Proof.
  unfold upload_step.
  destruct (PyStr.strip (or_empty (csv_supplier r))); [cbn; lia|].
  destruct (PyStr.strip (or_empty (csv_product r))); [cbn; lia|].
  destruct (_upsert_supplier _ _) as [sid conn].
  destruct (sid <=? 0)%Z; [cbn; lia|].
  destruct (bool_decide _); cbn; lia.
Qed.

Lemma upload_steps_added_mono rows st :
  (up_added st <= up_added (fold_left upload_step rows st))%Z.
Proof.
  revert st. induction rows as [|r rows IH]; intros st; cbn [fold_left]; [lia|].
  pose proof (IH (upload_step st r)). pose proof (upload_step_added_mono st r). lia.
Qed.

Lemma upload_rows_none_adds rows st :
  upload_rows st rows = None ->
  (up_added st < up_added (fold_left upload_step rows st))%Z.
Proof.
  revert st. induction rows as [|r rows IH]; intros st; cbn [upload_rows fold_left];
    [discriminate|].
  destruct (upload_row_cases st r) as [->|(-> & _ & Ha)].
  - intros H%IH. pose proof (upload_step_added_mono st r). lia.
  - intros _. pose proof (upload_steps_added_mono rows (upload_step st r)). lia.
Qed.

(** X6: an import only adds to the catalog: the suppliers and products
    that were stored are still the first rows of their tables, unchanged,
    users and orders are as they were, and the number of products grows
    by the count [added] of the flash message; an import that raises
    leaves the store as it was. *)
Theorem products_upload_only_appends conn rows :
  let conn' := fst (products_upload conn rows) in
  extends conn conn'
  /\ match snd (products_upload conn rows) with
     | Some (added, _) =>
         (Z.of_nat (List.length (products conn'))
          = Z.of_nat (List.length (products conn)) + added)%Z
     | None => conn' = conn
     end.
Proof.
  cbn zeta.
  destruct (products_upload_cases conn rows) as [->|[-> _]]; cbn [fst snd].
  - destruct (accepted_upload_only_appends conn rows) as [Hext Hlen].
    split; [done|]. by destruct (snd (accepted_upload conn rows)).
  - split; [apply extends_refl | done].
Qed.

(** X7: an import keeps the keys unique: when no two stored products of
    one supplier have the same key, so it is after the import. *)
Theorem products_upload_keeps_keys_unique conn rows :
  unique_keys conn -> unique_keys (fst (products_upload conn rows)).
Proof.
  intros Hu.
  destruct (products_upload_cases conn rows) as [->|[-> _]]; cbn [fst]; [|done].
  by apply accepted_upload_keeps_keys_unique.
Qed.

(** X8: a second import of a file right after a first one that did not
    raise inserts nothing and does not raise: it leaves the store as it
    is and counts every row as skipped. *)
Theorem products_upload_second_pass conn rows :
  snd (products_upload conn rows) <> None ->
  products_upload (fst (products_upload conn rows)) rows
  = (fst (products_upload conn rows), Some (0%Z, Z.of_nat (List.length rows))).
Proof.
  intros Hsome.
  assert (Hfst : fst (products_upload conn rows) = fst (accepted_upload conn rows)).
  { destruct (products_upload_cases conn rows) as [->|[E _]]; [done|].
    by rewrite E in Hsome. }
  rewrite Hfst.
  pose proof (accepted_upload_second_pass conn rows) as Hacc.
  set (conn1 := fst (accepted_upload conn rows)) in *.
  unfold products_upload.
  destruct (upload_rows _ rows) as [st|] eqn:E.
  - apply upload_rows_steps in E as ->.
    unfold accepted_upload in Hacc. by injection Hacc as -> -> ->.
  - apply upload_rows_none_adds in E.
    unfold accepted_upload in Hacc. injection Hacc as _ Ha _.
    rewrite Ha in E. cbn in E. lia.
Qed.

Lemma products_upload_keeps_keys_unique_witness :
  unique_keys sample_store
  /\ unique_keys
       (fst (products_upload sample_store
               [csv "Haco Industries" "Kaluma King" "1 X 18 PKT";
                csv "Kevian Kenya" "Afia Mango" "500 MLS";
                csv "kevian kenya" "AFIA  MANGO" "500ml"])).
Proof.
  assert (H : unique_keys sample_store).
  { unfold unique_keys. apply (bool_decide_unpack _). vm_compute. exact I. }
  split; [exact H|].
  apply (products_upload_keeps_keys_unique sample_store). exact H.
Defined.

Lemma products_upload_second_pass_witness :
  let rows := [csv "Haco Industries" "Kaluma King" "1 X 18 PKT";
               csv "Kevian Kenya" "Afia Mango" "500 MLS";
               csv "kevian kenya" "AFIA  MANGO" "500ml"] in
  snd (products_upload sample_store rows) <> None
  /\ products_upload (fst (products_upload sample_store rows)) rows
     = (fst (products_upload sample_store rows), Some (0%Z, 3%Z)).
Proof.
  cbn zeta.
  assert (H : snd (products_upload sample_store
                     [csv "Haco Industries" "Kaluma King" "1 X 18 PKT";
                      csv "Kevian Kenya" "Afia Mango" "500 MLS";
                      csv "kevian kenya" "AFIA  MANGO" "500ml"]) <> None).
  { vm_compute. discriminate. }
  split; [exact H|].
  exact (products_upload_second_pass sample_store _ H).
Defined.

Lemma upsert_supplier_blank conn name :
  PyStr.strip (or_empty name) = "" -> _upsert_supplier conn name = (0%Z, conn).
Proof. intros E. rewrite upsert_supplier_unfold. cbn zeta. by rewrite E. Qed.

(** X9: the upsert of a supplier name is idempotent: a second upsert of
    the name, or of one that is equal to it after [strip] up to the case
    of the ASCII letters, returns the id of the first one and leaves the
    store as the first one left it. *)
Theorem upsert_supplier_twice conn name name2 :
  Sql.lower (PyStr.strip (or_empty name2)) = Sql.lower (PyStr.strip (or_empty name)) ->
  _upsert_supplier (snd (_upsert_supplier conn name)) name2
  = _upsert_supplier conn name.
Proof.
  intros Hlow.
  destruct (String.eqb_spec (PyStr.strip (or_empty name)) "") as [E|Hne].
  - rewrite E in Hlow. apply sql_lower_empty in Hlow.
    by rewrite (upsert_supplier_blank conn name E), upsert_supplier_blank.
  - rewrite (upsert_supplier_again conn name name2 Hne Hlow).
    by destruct (_upsert_supplier conn name).
Qed.

Lemma upsert_supplier_twice_witness :
  _upsert_supplier (snd (_upsert_supplier sample_store (Some " Kevian Kenya ")))
    (Some "KEVIAN KENYA")
  = _upsert_supplier sample_store (Some " Kevian Kenya ").
Proof.
  apply (upsert_supplier_twice sample_store (Some " Kevian Kenya ") (Some "KEVIAN KENYA")).
  vm_compute. reflexivity.
Defined.

Lemma upsert_supplier_unique conn name :
  unique_names conn -> NoDup (map s_id (suppliers conn)) ->
  unique_names (snd (_upsert_supplier conn name))
  /\ NoDup (map s_id (suppliers (snd (_upsert_supplier conn name)))).
Proof.
  intros Hnames Hids. rewrite upsert_supplier_unfold. cbn zeta.
  destruct (String.eqb _ ""); [done|].
  destruct (supplier_by_name conn _) as [row|] eqn:Hfind; [done|].
  unfold unique_names. cbn [snd suppliers set_suppliers].
  rewrite !List.map_app. cbn [map s_name s_id]. split.
  - apply NoDup_app. split_and!; [done | | apply NoDup_singleton].
    intros k Hk [->|[]%elem_of_nil]%elem_of_cons.
    apply list_elem_of_In, List.in_map_iff in Hk as (r & Hr & Hin).
    apply find_none_all in Hfind. rewrite List.Forall_forall in Hfind.
    specialize (Hfind r Hin). cbn in Hfind. rewrite Hr, String.eqb_refl in Hfind.
    discriminate.
  - apply NoDup_app. split_and!; [done | | apply NoDup_singleton].
    intros k Hk [->|[]%elem_of_nil]%elem_of_cons.
    apply list_elem_of_In in Hk. by apply next_rowid_fresh in Hk.
Qed.

(** X10: the upsert keeps the suppliers apart: in a store where no two
    suppliers have the same name up to the case of the ASCII letters, and
    no two the same id, this is so after the upsert as well. *)
Theorem upsert_supplier_keeps_names_unique conn name :
  unique_names conn -> NoDup (map s_id (suppliers conn)) ->
  unique_names (snd (_upsert_supplier conn name))
  /\ NoDup (map s_id (suppliers (snd (_upsert_supplier conn name)))).
Proof. apply upsert_supplier_unique. Qed.

Lemma upsert_supplier_keeps_names_unique_witness :
  unique_names (snd (_upsert_supplier sample_store (Some "Kevian Kenya")))
  /\ NoDup (map s_id (suppliers (snd (_upsert_supplier sample_store (Some "Kevian Kenya"))))).
Proof.
  apply (upsert_supplier_keeps_names_unique sample_store (Some "Kevian Kenya")).
  - unfold unique_names. apply (bool_decide_unpack _). vm_compute. exact I.
  - apply (bool_decide_unpack _). vm_compute. exact I.
Defined.

(** * The supplier list upload *)

Lemma suppliers_upload_row_upsert st cell :
  su_conn (suppliers_upload_row st cell) = snd (_upsert_supplier (su_conn st) cell).
Proof.
  unfold suppliers_upload_row, _upsert_supplier.
  destruct (PyStr.strip (or_empty cell)); [done|].
  by destruct (supplier_by_name _ _).
Qed.

Lemma suppliers_upload_row_counts st cell :
  (su_added (suppliers_upload_row st cell) + su_skipped (suppliers_upload_row st cell)
   = su_added st + su_skipped st + 1)%Z
  /\ (Z.of_nat (List.length (suppliers (su_conn (suppliers_upload_row st cell))))
      - su_added (suppliers_upload_row st cell)
      = Z.of_nat (List.length (suppliers (su_conn st))) - su_added st)%Z.
Proof.
  unfold suppliers_upload_row.
  destruct (PyStr.strip (or_empty cell)); [cbn; lia|].
  destruct (supplier_by_name _ _); cbn [su_added su_skipped su_conn]; [lia|].
  cbn [suppliers set_suppliers]. rewrite length_app. cbn. lia.
Qed.

Lemma suppliers_upload_rows rows st :
  let st' := fold_left suppliers_upload_row rows st in
  su_conn st' = fold_left (fun c cell => snd (_upsert_supplier c cell)) rows (su_conn st)
  /\ (su_added st' + su_skipped st'
      = su_added st + su_skipped st + Z.of_nat (List.length rows))%Z
  /\ (Z.of_nat (List.length (suppliers (su_conn st'))) - su_added st'
      = Z.of_nat (List.length (suppliers (su_conn st))) - su_added st)%Z.
Proof.
  revert st. induction rows as [|cell rows IH]; intros st; cbn zeta.
  { cbn. split_and!; [done | lia | done]. }
  cbn [fold_left]. destruct (IH (suppliers_upload_row st cell)) as (Hc & Hn & Hl).
  destruct (suppliers_upload_row_counts st cell) as [Hn1 Hl1].
  cbn [List.length].
  split_and!; [by rewrite Hc, suppliers_upload_row_upsert | lia | lia].
Qed.

(** X11: the supplier list upload does to the store what [_upsert_supplier]
    does for each cell in turn; every row is counted once, as added or as
    skipped, and the supplier table grows by the count [added]. *)
Theorem suppliers_upload_as_upserts conn rows :
  let result := suppliers_upload conn rows in
  fst result = fold_left (fun c cell => snd (_upsert_supplier c cell)) rows conn
  /\ (fst (snd result) + snd (snd result) = Z.of_nat (List.length rows))%Z
  /\ (Z.of_nat (List.length (suppliers (fst result)))
      = Z.of_nat (List.length (suppliers conn)) + fst (snd result))%Z.
Proof.
  cbn zeta. unfold suppliers_upload. cbn [fst snd].
  destruct (suppliers_upload_rows rows {| su_conn := conn; su_added := 0; su_skipped := 0 |})
    as (Hc & Hn & Hl).
  cbn [su_conn su_added su_skipped] in *. split_and!; [done | lia | lia].
Qed.

Lemma supplier_by_name_extends conn conn' rows n :
  suppliers conn' = (suppliers conn ++ rows)%list ->
  supplier_by_name conn n <> None -> supplier_by_name conn' n <> None.
Proof.
  intros Hs. unfold supplier_by_name. rewrite Hs.
  destruct (List.find _ (suppliers conn)) as [row|] eqn:Hfind; [|done].
  by rewrite (find_app_found _ _ rows row Hfind).
Qed.

Lemma suppliers_upload_rows_known rows st :
  let st' := fold_left suppliers_upload_row rows st in
  (exists new, suppliers (su_conn st') = (suppliers (su_conn st) ++ new)%list)
  /\ Forall (fun cell =>
               PyStr.strip (or_empty cell) = ""
               \/ supplier_by_name (su_conn st') (PyStr.strip (or_empty cell)) <> None)
       rows.
Proof.
  revert st. induction rows as [|cell rows IH]; intros st; cbn zeta.
  { split; [|done]. exists []. by rewrite app_nil_r. }
  cbn [fold_left]. destruct (IH (suppliers_upload_row st cell)) as ([new Hnew] & Hknown).
  pose proof (upsert_supplier_extends (su_conn st) cell) as ([new1 Hnew1] & _).
  rewrite <- suppliers_upload_row_upsert in Hnew1.
  split.
  - exists (new1 ++ new)%list. by rewrite Hnew, Hnew1, <- app_assoc.
  - constructor; [|done].
    destruct (String.eqb_spec (PyStr.strip (or_empty cell)) "") as [E|Hne]; [by left|].
    right. apply (supplier_by_name_extends _ _ _ _ Hnew).
    rewrite suppliers_upload_row_upsert. by apply upsert_supplier_found.
Qed.

Lemma suppliers_upload_rows_skipped rows st :
  Forall (fun cell =>
            PyStr.strip (or_empty cell) = ""
            \/ supplier_by_name (su_conn st) (PyStr.strip (or_empty cell)) <> None)
    rows ->
  let st' := fold_left suppliers_upload_row rows st in
  su_conn st' = su_conn st
  /\ su_added st' = su_added st
  /\ su_skipped st' = (su_skipped st + Z.of_nat (List.length rows))%Z.
Proof.
  revert st. induction rows as [|cell rows IH]; intros st Hknown; cbn zeta.
  { cbn. split_and!; [done | done | lia]. }
  apply Forall_cons in Hknown as [Hcell Hrows]. cbn [fold_left].
  assert (Hskip : suppliers_upload_row st cell
                  = {| su_conn := su_conn st; su_added := su_added st;
                       su_skipped := (su_skipped st + 1)%Z |}).
  { unfold suppliers_upload_row.
    destruct (PyStr.strip (or_empty cell)) eqn:E; [done|].
    destruct Hcell as [?|Hfound]; [done|].
    by destruct (supplier_by_name _ _). }
  rewrite Hskip.
  destruct (IH {| su_conn := su_conn st; su_added := su_added st;
                  su_skipped := (su_skipped st + 1)%Z |} Hrows) as (Hc & Ha & Hs).
  rewrite Hc, Ha, Hs. cbn [su_conn su_added su_skipped List.length].
  split_and!; [done | done | lia].
Qed.

(** X12: a second upload of a supplier list right after the first one
    adds nothing: it leaves the store as it is and counts every row as
    skipped. *)
Theorem suppliers_upload_second_pass conn rows :
  suppliers_upload (fst (suppliers_upload conn rows)) rows
  = (fst (suppliers_upload conn rows), (0%Z, Z.of_nat (List.length rows))).
Proof.
  destruct (suppliers_upload_rows_known rows
              {| su_conn := conn; su_added := 0; su_skipped := 0 |}) as [_ Hknown].
  unfold suppliers_upload at 1. cbn [fst snd].
  set (conn1 := fst (suppliers_upload conn rows)).
  change (su_conn (fold_left suppliers_upload_row rows _)) with conn1 in Hknown.
  destruct (suppliers_upload_rows_skipped rows
              {| su_conn := conn1; su_added := 0; su_skipped := 0 |} Hknown)
    as (Hc & Ha & Hs).
  cbn [su_conn su_added su_skipped] in *. by rewrite Hc, Ha, Hs, Z.add_0_l.
Qed.

Lemma upserts_unique rows conn :
  unique_names conn -> NoDup (map s_id (suppliers conn)) ->
  let conn' := fold_left (fun c cell => snd (_upsert_supplier c cell)) rows conn in
  unique_names conn' /\ NoDup (map s_id (suppliers conn')).
Proof.
  revert conn. induction rows as [|cell rows IH]; intros conn Hn Hi; [done|].
  cbn [fold_left]. destruct (upsert_supplier_unique conn cell Hn Hi) as [Hn' Hi'].
  by apply IH.
Qed.

(** X13: the supplier list upload keeps the suppliers apart: in a store
    where no two suppliers have the same name up to the case of the ASCII
    letters, and no two the same id, this is so after the upload as
    well, whatever the list repeats. *)
Theorem suppliers_upload_keeps_names_unique conn rows :
  unique_names conn -> NoDup (map s_id (suppliers conn)) ->
  unique_names (fst (suppliers_upload conn rows))
  /\ NoDup (map s_id (suppliers (fst (suppliers_upload conn rows)))).
Proof.
  intros Hn Hi. unfold suppliers_upload. cbn [fst].
  destruct (suppliers_upload_rows rows {| su_conn := conn; su_added := 0; su_skipped := 0 |})
    as (-> & _). cbn [su_conn].
  by apply upserts_unique.
Qed.

Lemma suppliers_upload_keeps_names_unique_witness :
  let rows := [Some "Kevian Kenya"; Some " kevian kenya "; None; Some "HACO INDUSTRIES"] in
  unique_names (fst (suppliers_upload sample_store rows))
  /\ NoDup (map s_id (suppliers (fst (suppliers_upload sample_store rows)))).
Proof.
  apply (suppliers_upload_keeps_names_unique sample_store).
  - unfold unique_names. apply (bool_decide_unpack _). vm_compute. exact I.
  - apply (bool_decide_unpack _). vm_compute. exact I.
Defined.

(** * Further properties of the order ledger *)

Lemma parse_line_valid rt m pid_raw sid_raw qty_raw prc_raw amt_raw dsc_raw l :
  parse_line rt m pid_raw sid_raw qty_raw prc_raw amt_raw dsc_raw = Val (Some l) ->
  valid_line l.
Proof.
  unfold parse_line.
  repeat match goal with
         | |- context [flow_bind ?x _] =>
             destruct x eqn:?; cbn [flow_bind]; try discriminate
         end.
  all: destruct (_ || _)%Z eqn:Hf; try discriminate.
  intros [= <-]. apply orb_false_elim in Hf as [Hp Hq].
  apply Z.leb_gt in Hp, Hq. by split.
Qed.

Lemma parse_lines_valid rt m form indices lines :
  parse_lines rt m form indices = Some lines -> Forall valid_line lines.
Proof.
  revert lines. induction indices as [|i rest IH]; intros lines; cbn [parse_lines].
  { by intros [= <-]. }
  destruct (parse_line _ _ _ _ _ _ _ _) as [[l|]| |] eqn:Hl; try by apply IH.
  - destruct (parse_lines rt m form rest) as [ls|]; [|discriminate].
    intros [= <-]. constructor; [|by apply IH]. by apply parse_line_valid in Hl.
  - discriminate.
Qed.

(** What [orders_new] below its guard has done when it answers that the
    order is saved. *)
Lemma orders_new_post_row rt conn uid form conn' msg :
  orders_new_post rt conn uid form = (conn', Redirect "orders_history" "success" msg) ->
  exists needed first rest row,
    pids_needed rt (f_product_ids form) = Some needed
    /\ parse_lines rt (supplier_by_pid_of conn needed) form
         (seq 0 (List.length (f_product_ids form))) = Some (first :: rest)
    /\ conn' = set_orders conn (orders conn ++ [row])
                (Sql.next_rowid (map o_id (orders conn)) (orders_seq conn))
    /\ o_id row = Sql.next_rowid (map o_id (orders conn)) (orders_seq conn)
    /\ o_order_no row = Some (generate_order_no rt conn)
    /\ o_created_at row = Some (now_ts rt)
    /\ o_status row = Some "Pending"
    /\ o_line_items row = Some (first :: rest)
    /\ o_supplier_id row = positive_id (l_supplier_id first)
    /\ o_product_id row = Some (l_product_id first)
    /\ o_quantity row = Some (l_qty first)
    /\ o_unit_price row = Sql.real (l_unit_price first)
    /\ msg = "Order " ++ generate_order_no rt conn ++ " saved."
    /\ (order_no_unique conn = true ->
        existsb (fun o => bool_decide (o_order_no o = Some (generate_order_no rt conn)))
          (orders conn) = false).
Proof.
  unfold orders_new_post.
  destruct (pids_needed rt (f_product_ids form)) as [needed|]; [|discriminate].
  destruct (parse_lines _ _ _ _) as [[|l ls]|] eqn:Hlines; [discriminate| |discriminate].
  assert (Hclash : forall b c : bool, b && negb c = true -> c = false).
  { by intros [] []. }
  destruct (has_sales_rep_id conn || has_rep_id conn) eqn:Hcol; cbn [andb].
  - destruct (bool_decide _) eqn:Hrep; cbn [negb]; [|discriminate].
    case_head_if; [|discriminate].
    intros [= <- <-]. eexists needed, l, ls, _.
    split_and!; try reflexivity; [exact Hlines|].
    intros Hu. rewrite Hu in *. by apply Hclash in Heqb.
  - case_head_if; [|discriminate].
    intros [= <- <-]. eexists needed, l, ls, _.
    split_and!; try reflexivity; [exact Hlines|].
    intros Hu. rewrite Hu in *. by apply Hclash in Heqb.
Qed.

(** A request that is not answered by [saved] leaves the store as it is. *)
Lemma orders_new_post_unsaved rt conn uid form :
  (fst (orders_new_post rt conn uid form) = conn
   /\ ~ saved (orders_new_post rt conn uid form))
  \/ saved (orders_new_post rt conn uid form).
Proof.
  unfold orders_new_post, saved.
  assert (Hno : forall (c : store) (r : response),
             (forall msg, r <> Redirect "orders_history" "success" msg) ->
             fst (c, r) = c
             /\ ~ (exists msg, snd (c, r) = Redirect "orders_history" "success" msg)).
  { intros c r Hr. split; [done|]. intros [msg H]. by apply (Hr msg). }
  destruct (pids_needed rt (f_product_ids form)) as [needed|]; [|left; by apply Hno].
  destruct (parse_lines _ _ _ _) as [[|l ls]|]; [left; by apply Hno| |left; by apply Hno].
  destruct (_ && negb (bool_decide _)); [left; by apply Hno|].
  destruct (_ && negb _); [right; by eexists | left; by apply Hno].
Qed.

(** X14: [POST /orders/new] is all or nothing: either the request is not
    answered by [saved] and the store is as it was, or it is and the store
    differs by one order appended to the table, with status Pending and a
    positive id that no stored order has; suppliers, products, users and
    the stored orders are as they were. *)
Theorem orders_new_all_or_nothing rt conn uid form :
  let r := orders_new rt conn uid form in
  (fst r = conn /\ ~ saved r)
  \/ (saved r
      /\ exists row,
          fst r = set_orders conn (orders conn ++ [row]) (o_id row)
          /\ (0 < o_id row)%Z
          /\ ~ In (o_id row) (map o_id (orders conn))
          /\ o_status row = Some "Pending").
Proof.
  cbn zeta. unfold orders_new, login_required.
  destruct (current_user_row conn uid) as [u|].
  - destruct (orders_new_post_unsaved rt conn uid form) as [H|[msg Hs]]; [by left|].
    right. split; [by exists msg|].
    destruct (orders_new_post rt conn uid form) as [conn' resp] eqn:E.
    cbn [snd] in Hs. subst resp.
    apply orders_new_post_row in E
      as (needed & first & rest & row & _ & _ & -> & Hid & _ & _ & Hst & _).
    exists row. cbn [fst]. rewrite Hid.
    destruct (next_rowid_fresh (map o_id (orders conn)) (orders_seq conn)) as [Hpos Hfresh].
    by split_and!.
  - left. split; [done|]. by intros [msg H].
Qed.

(** X15: every line of a saved order passed the filter: the lines stored
    with the order are not empty, and each has a positive product id and a
    positive quantity. *)
Theorem orders_new_lines_valid rt conn uid form :
  saved (orders_new rt conn uid form) ->
  exists row first rest,
    orders (fst (orders_new rt conn uid form)) = (orders conn ++ [row])%list
    /\ o_line_items row = Some (first :: rest)
    /\ Forall valid_line (first :: rest).
Proof.
  intros [msg Hs].
  destruct (orders_new rt conn uid form) as [conn' resp] eqn:E.
  cbn [snd] in Hs. subst resp. cbn [fst].
  apply orders_new_inv, orders_new_post_row in E
    as (needed & first & rest & row & _ & Hlines & -> & _ & _ & _ & _ & Hitems & _).
  exists row, first, rest. split_and!; [done | done |].
  by apply parse_lines_valid in Hlines.
Qed.

Lemma orders_new_lines_valid_witness :
  exists row first rest,
    orders (fst (orders_new plain_runtime sample_store (Some 2%Z) (sample_form None)))
    = (orders sample_store ++ [row])%list
    /\ o_line_items row = Some (first :: rest)
    /\ Forall valid_line (first :: rest).
Proof.
  apply (orders_new_lines_valid plain_runtime sample_store (Some 2%Z) (sample_form None)).
  eexists. vm_compute. reflexivity.
Defined.

(** X16: the header of a saved order mirrors its first line: the product,
    quantity and unit price columns hold those of the first stored line,
    and the supplier column its supplier, NULL when that is 0. *)
Theorem orders_new_header_mirrors_first_line rt conn uid form :
  saved (orders_new rt conn uid form) ->
  exists row first rest,
    orders (fst (orders_new rt conn uid form)) = (orders conn ++ [row])%list
    /\ o_line_items row = Some (first :: rest)
    /\ o_product_id row = Some (l_product_id first)
    /\ o_quantity row = Some (l_qty first)
    /\ o_unit_price row = Sql.real (l_unit_price first)
    /\ o_supplier_id row
       = (if (l_supplier_id first =? 0)%Z then None else Some (l_supplier_id first)).
Proof.
  intros [msg Hs].
  destruct (orders_new rt conn uid form) as [conn' resp] eqn:E.
  cbn [snd] in Hs. subst resp. cbn [fst].
  apply orders_new_inv, orders_new_post_row in E
    as (needed & first & rest & row & _ & _ & -> & _ & _ & _ & _
        & Hitems & Hsup & Hpid & Hqty & Hprice & _).
  exists row, first, rest. by split_and!.
Qed.

Lemma orders_new_header_mirrors_first_line_witness :
  exists row first rest,
    orders (fst (orders_new plain_runtime sample_store (Some 2%Z) (sample_form None)))
    = (orders sample_store ++ [row])%list
    /\ o_line_items row = Some (first :: rest)
    /\ o_product_id row = Some (l_product_id first)
    /\ o_quantity row = Some (l_qty first)
    /\ o_unit_price row = Sql.real (l_unit_price first)
    /\ o_supplier_id row
       = (if (l_supplier_id first =? 0)%Z then None else Some (l_supplier_id first)).
Proof.
  apply (orders_new_header_mirrors_first_line plain_runtime sample_store (Some 2%Z)
           (sample_form None)).
  eexists. vm_compute. reflexivity.
Defined.

Lemma generate_order_no_count rt conn :
  generate_order_no rt conn
  = "ORD-" ++ today_compact rt ++ "-" ++ pad4 (Z.of_nat (orders_on_day rt conn) + 1).
Proof. reflexivity. Qed.

(** X17: order numbers count the orders of the day: a saved order carries
    the ordinal one above the number of stored orders created that day,
    and, the clock staying within the day, the next number generated is
    one above that. *)
Theorem orders_new_numbers_by_count rt conn uid form :
  saved (orders_new rt conn uid form) ->
  sql_date rt (now_ts rt) = Some (today_iso rt) ->
  let conn' := fst (orders_new rt conn uid form) in
  exists row,
    orders conn' = (orders conn ++ [row])%list
    /\ o_order_no row
       = Some ("ORD-" ++ today_compact rt ++ "-"
               ++ pad4 (Z.of_nat (orders_on_day rt conn) + 1))
    /\ orders_on_day rt conn' = S (orders_on_day rt conn)
    /\ generate_order_no rt conn'
       = "ORD-" ++ today_compact rt ++ "-"
         ++ pad4 (Z.of_nat (orders_on_day rt conn) + 2).
Proof.
  intros [msg Hs] Hday. cbn zeta.
  destruct (orders_new rt conn uid form) as [conn' resp] eqn:E.
  cbn [snd] in Hs. subst resp. cbn [fst].
  apply orders_new_inv, orders_new_post_row in E
    as (needed & first & rest & row & _ & _ & -> & _ & Hno & Hat & _).
  exists row. cbn [orders set_orders].
  assert (Hcount : orders_on_day rt
                     (set_orders conn (orders conn ++ [row])
                        (Sql.next_rowid (map o_id (orders conn)) (orders_seq conn)))
                   = S (orders_on_day rt conn)).
  { unfold orders_on_day. cbn [orders set_orders].
    rewrite List.filter_app, length_app. cbn [List.filter].
    rewrite Hat, Hday, bool_decide_eq_true_2 by done. cbn. lia. }
  split_and!; [done | by rewrite Hno | done |].
  rewrite generate_order_no_count, Hcount.
  by replace (Z.of_nat (S (orders_on_day rt conn)) + 1)%Z
    with (Z.of_nat (orders_on_day rt conn) + 2)%Z by lia.
Qed.

Lemma orders_new_numbers_by_count_witness :
  let conn' := fst (orders_new plain_runtime delivered_store (Some 1%Z) (sample_form None)) in
  exists row,
    orders conn' = (orders delivered_store ++ [row])%list
    /\ o_order_no row
       = Some ("ORD-" ++ today_compact plain_runtime ++ "-"
               ++ pad4 (Z.of_nat (orders_on_day plain_runtime delivered_store) + 1))
    /\ orders_on_day plain_runtime conn' = S (orders_on_day plain_runtime delivered_store)
    /\ generate_order_no plain_runtime conn'
       = "ORD-" ++ today_compact plain_runtime ++ "-"
         ++ pad4 (Z.of_nat (orders_on_day plain_runtime delivered_store) + 2).
Proof.
  apply (orders_new_numbers_by_count plain_runtime delivered_store (Some 1%Z)
           (sample_form None)).
  - eexists. vm_compute. reflexivity.
  - vm_compute. reflexivity.
Defined.

Lemma orders_new_unsaved rt conn uid form :
  (fst (orders_new rt conn uid form) = conn /\ ~ saved (orders_new rt conn uid form))
  \/ saved (orders_new rt conn uid form).
Proof.
  unfold orders_new, login_required.
  destruct (current_user_row conn uid) as [u|].
  - apply orders_new_post_unsaved.
  - left. split; [done|]. by intros [msg H].
Qed.

(** X18: a generated order number that a stored order carries already
    saves nothing: under the unique index on [order_no] the request is
    not answered by [saved] and the store is as it was; the view does not
    try another number. *)
Theorem order_number_clash_saves_nothing rt conn uid form o :
  order_no_unique conn = true ->
  In o (orders conn) ->
  o_order_no o = Some (generate_order_no rt conn) ->
  fst (orders_new rt conn uid form) = conn
  /\ ~ saved (orders_new rt conn uid form).
Proof.
  intros Hu Hin Hno.
  destruct (orders_new_unsaved rt conn uid form) as [H|[msg Hs]]; [done|]. exfalso.
  destruct (orders_new rt conn uid form) as [conn' resp] eqn:E.
  cbn [snd] in Hs. subst resp.
  apply orders_new_inv, orders_new_post_row in E
    as (needed & first & rest & row & _ & _ & _ & _ & _ & _ & _ & _ & _ & _ & _ & _ & _ & Hfree).
  specialize (Hfree Hu).
  assert (Hex : existsb
                  (fun o => bool_decide (o_order_no o = Some (generate_order_no rt conn)))
                  (orders conn) = true).
  { apply List.existsb_exists. exists o. split; [done|]. by apply bool_decide_eq_true. }
  congruence.
Qed.

Lemma order_number_clash_saves_nothing_witness :
  fst (orders_new plain_runtime renumbered_store (Some 1%Z) (sample_form None))
  = renumbered_store
  /\ ~ saved (orders_new plain_runtime renumbered_store (Some 1%Z) (sample_form None)).
Proof.
  apply (order_number_clash_saves_nothing plain_runtime renumbered_store (Some 1%Z)
           (sample_form None) (List.hd overridden_order (orders renumbered_store))).
  - reflexivity.
  - left. reflexivity.
  - vm_compute. reflexivity.
Defined.

Lemma history_items_length pm items total its total' :
  history_items pm items total = PyNum.Ok (its, total') ->
  List.length its = List.length items.
Proof.
  intros [H _]%history_items_total. symmetry. by apply Forall2_length in H.
Qed.

(** X19: every order that the history shows has items: a row with stored
    lines shows one item per line, and a row without them shows the single
    item made up from its header, under the label Product. *)
Theorem history_order_items_count conn pm h v :
  history_order_of conn pm h = PyNum.Ok v ->
  ho_id v = o_id h
  /\ match o_line_items h with
     | Some (l :: ls) => List.length (ho_items v) = List.length (l :: ls)
     | _ => exists item, ho_items v = [item] /\ hi_label item = Some "Product"
     end.
Proof.
  unfold history_order_of.
  destruct (items_raw_of h) as [items|] eqn:Hraw; cbn [res_bind]; [|discriminate].
  destruct (history_items pm items PyNum.zero) as [[its t]|] eqn:Hits;
    cbn [res_bind]; [|discriminate].
  intros [= <-]. cbn [ho_id ho_items fst]. split; [done|].
  assert (Hlegacy : legacy_items h = PyNum.Ok items ->
                    exists item, its = [item] /\ hi_label item = Some "Product").
  { unfold legacy_items.
    destruct (int_float _) as [q|]; cbn [res_bind]; [|discriminate].
    destruct (amount_or _ _ _) as [a|]; cbn [res_bind]; [|discriminate].
    intros [= <-]. cbn [history_items] in Hits.
    destruct (history_item_of pm _) as [hi|] eqn:Hhi; cbn [res_bind] in Hits; [|discriminate].
    injection Hits as <- _. exists hi. split; [done|].
    unfold history_item_of in Hhi. cbn [r_product_id r_desc or_empty str_or] in Hhi.
    destruct (int_float _); cbn [res_bind] in Hhi; [|discriminate].
    destruct (amount_or _ _ _); cbn [res_bind] in Hhi; [|discriminate].
    by injection Hhi as <-. }
  unfold items_raw_of in Hraw.
  destruct (o_line_items h) as [[|l ls]|]; [by apply Hlegacy | | by apply Hlegacy].
  injection Hraw as <-. apply history_items_length in Hits.
  rewrite Hits. cbn [List.length]. by rewrite length_map.
Qed.

Lemma history_order_items_count_witness :
  exists v,
    history_order_of sample_store (prod_map_of sample_store) overridden_order = PyNum.Ok v
    /\ ho_id v = o_id overridden_order
    /\ List.length (ho_items v) = 1%nat.
Proof.
  eexists. split; [vm_compute; reflexivity|].
  apply (history_order_items_count sample_store (prod_map_of sample_store) overridden_order).
  vm_compute. reflexivity.
Defined.

Lemma history_orders_ids conn pm rows vs :
  history_orders conn pm rows = PyNum.Ok vs -> map ho_id vs = map o_id rows.
Proof.
  revert vs. induction rows as [|h rows IH]; intros vs; cbn [history_orders].
  { by intros [= <-]. }
  destruct (history_order_of conn pm h) as [v|] eqn:Hv; cbn [res_bind]; [|discriminate].
  destruct (history_orders conn pm rows) as [vs'|]; cbn [res_bind]; [|discriminate].
  intros [= <-]. cbn [map]. f_equal; [|by apply IH].
  unfold history_order_of in Hv.
  destruct (items_raw_of h); cbn [res_bind] in Hv; [|discriminate].
  destruct (history_items _ _ _); cbn [res_bind] in Hv; [|discriminate].
  by injection Hv as <-.
Qed.

(** The history shows the newest orders first and 500 at most: the ids
    shown are those of the stored orders that pass the filter, from the
    last one stored backwards, cut after 500. *)
Theorem orders_history_newest_first conn where_ vs :
  orders_history conn where_ = PyNum.Ok vs ->
  map ho_id vs = map o_id (take 500 (rev (List.filter where_ (orders conn))))
  /\ List.length vs <= 500.
Proof.
  unfold orders_history. intros H%history_orders_ids. split; [done|].
  rewrite <- (length_map ho_id), H, length_map, length_take. lia.
Qed.

Lemma orders_history_newest_first_witness :
  exists vs,
    orders_history delivered_store (fun _ => true) = PyNum.Ok vs
    /\ map ho_id vs
       = map o_id (take 500 (rev (List.filter (fun _ => true) (orders delivered_store))))
    /\ List.length vs <= 500.
Proof.
  eexists. split; [vm_compute; reflexivity|].
  apply (orders_history_newest_first delivered_store (fun _ => true)).
  vm_compute. reflexivity.
Defined.

Lemma history_orders_raise conn pm rows h e :
  In h rows -> history_order_of conn pm h = PyNum.Raise e ->
  exists e', history_orders conn pm rows = PyNum.Raise e'.
Proof.
  induction rows as [|h0 rows IH]; [done|]. intros [->|Hin] He; cbn [history_orders].
  - rewrite He. cbn. eauto.
  - destruct (history_order_of conn pm h0); cbn [res_bind]; [|eauto].
    destruct (IH Hin He) as [e' ->]. cbn. eauto.
Qed.

(** X21: the history fails as a whole: when one of the rows to show does
    not convert, the view raises and shows no order at all. *)
Theorem orders_history_fails_as_a_whole conn where_ h e :
  In h (take 500 (rev (List.filter where_ (orders conn)))) ->
  history_order_of conn (prod_map_of conn) h = PyNum.Raise e ->
  exists e', orders_history conn where_ = PyNum.Raise e'.
Proof. unfold orders_history. apply history_orders_raise. Qed.

Lemma orders_history_fails_as_a_whole_witness :
  exists e', orders_history oversized_store (fun _ => true) = PyNum.Raise e'.
Proof.
  apply (orders_history_fails_as_a_whole oversized_store (fun _ => true)
           (List.hd overridden_order (orders oversized_store)) PyNum.OverflowError).
  - left. reflexivity.
  - vm_compute. reflexivity.
Defined.

Lemma update_status_idem rt new_status order_id o :
  update_status rt new_status order_id (update_status rt new_status order_id o)
  = update_status rt new_status order_id o.
Proof.
  unfold update_status.
  destruct (o_id o =? order_id)%Z eqn:Hid; [|by rewrite Hid].
  destruct (String.eqb new_status "Delivered"); cbn [set_status o_id]; by rewrite Hid.
Qed.

(** X22: a status update is idempotent: the same request sent again
    right after the first one gives the same answer and leaves the store
    as the first one left it; the delivery date set by the first
    Delivered is kept by the second. *)
Theorem status_update_idempotent rt conn order_id status :
  let once := orders_update_status_post rt conn order_id status in
  orders_update_status_post rt (fst once) order_id status = once.
Proof.
  cbn zeta. unfold orders_update_status_post.
  destruct (valid_status _) eqn:Hv; cbn [negb fst]; [|done].
  f_equal. unfold set_orders. cbn. f_equal.
  rewrite List.map_map. apply List.map_ext. intros o. apply update_status_idem.
Qed.

(** X23: a status update changes the status and the delivery date only:
    suppliers, products and users are as they were, every order is the
    one it was in all the other columns, and a delivery date that was set
    stays as it is, whichever status is requested. *)
Theorem status_update_touches_only_status rt conn order_id status :
  let conn' := fst (orders_update_status_post rt conn order_id status) in
  suppliers conn' = suppliers conn
  /\ products conn' = products conn
  /\ users conn' = users conn
  /\ Forall2
       (fun o o' =>
          set_status "" None o' = set_status "" None o
          /\ (o_delivery_date o <> None -> o_delivery_date o' = o_delivery_date o))
       (orders conn) (orders conn').
Proof.
  cbn zeta. unfold orders_update_status_post.
  destruct (valid_status _); cbn [negb fst].
  - split_and!; try done. cbn [orders set_orders].
    apply Forall2_fmap_r, Forall_Forall2_diag, List.Forall_forall. intros o _.
    unfold compose, update_status. destruct (o_id o =? order_id)%Z; [|done].
    destruct (String.eqb _ "Delivered"); cbn; [|done].
    split; [done|]. by destruct (o_delivery_date o).
  - split_and!; try done.
    apply Forall_Forall2_diag, List.Forall_forall. by intros o _.
Qed.

(** X24: only an administrator changes a status: for a caller who is not
    logged in or whose role is not admin, the request is answered by the
    redirect to the login page or by 403, and the store is as it was. *)
Theorem status_update_needs_admin rt conn uid order_id status :
  (forall u, current_user_row conn uid = Some u -> u_role u <> "admin") ->
  fst (orders_update_status rt conn uid order_id status) = conn
  /\ (snd (orders_update_status rt conn uid order_id status) = Abort 403
      \/ snd (orders_update_status rt conn uid order_id status)
         = Redirect "login" "info" "Please login to continue.").
Proof.
  intros Hrole. unfold orders_update_status, admin_required.
  destruct (current_user_row conn uid) as [u|]; [|by split; [|right]].
  specialize (Hrole u eq_refl). apply String.eqb_neq in Hrole. rewrite Hrole.
  by split; [|left].
Qed.

Lemma status_update_needs_admin_witness :
  fst (orders_update_status plain_runtime delivered_store (Some 2%Z) 1 (Some "Cancelled"))
  = delivered_store
  /\ (snd (orders_update_status plain_runtime delivered_store (Some 2%Z) 1 (Some "Cancelled"))
      = Abort 403
      \/ snd (orders_update_status plain_runtime delivered_store (Some 2%Z) 1 (Some "Cancelled"))
         = Redirect "login" "info" "Please login to continue.").
Proof.
  apply (status_update_needs_admin plain_runtime delivered_store (Some 2%Z) 1
           (Some "Cancelled")).
  intros u. vm_compute. intros [= <-]. discriminate.
Defined.

Lemma current_user_row_found conn uid u :
  current_user_row conn uid = Some u ->
  u_id u <> 0%Z
  /\ List.find (fun x => (u_id x =? u_id u)%Z) (users conn) = Some u.
Proof.
  unfold current_user_row. destruct uid as [i|]; [|discriminate].
  destruct (Z.eqb_spec i 0) as [|Hi]; [discriminate|]. intros Hfind.
  destruct (find_some_in _ _ _ Hfind) as [_ Hu%Z.eqb_eq]. by subst i.
Qed.

(** X25: the representative of a saved order in the history.  For an
    order that a logged-in user saves without a sales-rep text, the
    history shows the display name of that user when [orders] has exactly
    one of the columns [rep_id] and [sales_rep_id], and no name when it
    has both or none: with both, [orders_new] writes the user to
    [sales_rep_id] and the history reads [rep_id]. *)
Theorem saved_order_rep_shown rt conn uid form u row pm v :
  current_user_row conn uid = Some u ->
  PyStr.strip (or_empty (f_sales_rep form)) = "" ->
  saved (orders_new rt conn uid form) ->
  let conn' := fst (orders_new rt conn uid form) in
  orders conn' = (orders conn ++ [row])%list ->
  history_order_of conn' pm row = PyNum.Ok v ->
  ho_sales_rep v
  = if xorb (has_rep_id conn) (has_sales_rep_id conn)
    then default (u_username u) (u_full_name u)
    else "".
Proof.
  intros Hu Htext [msg Hs]. cbn zeta.
  destruct (orders_new rt conn uid form) as [conn' resp] eqn:E.
  cbn [snd] in Hs. subst resp. cbn [fst].
  apply orders_new_inv in E. revert E. unfold orders_new_post.
  destruct (pids_needed rt (f_product_ids form)) as [needed|]; [|discriminate].
  destruct (parse_lines _ _ _ _) as [[|l ls]|]; [discriminate| |discriminate].
  unfold resolve_rep. rewrite Hu, Htext.
  destruct (current_user_row_found conn uid u Hu) as [Hid Hfind].
  apply Z.eqb_neq in Hid.
  assert (Hcol : forall b : bool,
             b && negb (bool_decide (is_Some (if b then Some (u_id u) else None))) = false).
  { by intros []. }
  rewrite Hcol. case_head_if; [|discriminate].
  intros [= <- _]. cbn [orders set_orders].
  intros [_ <-]%app_inj_tail. unfold history_order_of.
  destruct (items_raw_of _); cbn [res_bind]; [|discriminate].
  destruct (history_items _ _ _); cbn [res_bind]; [|discriminate].
  intros [= <-]. cbn [ho_sales_rep o_sales_rep_name or_empty str_or].
  unfold rep_of, rep_name. cbn [has_rep_id has_sales_rep_id set_orders o_rep_id
                                 o_sales_rep_id users].
  destruct (has_rep_id conn), (has_sales_rep_id conn); cbn [orb xorb];
    by rewrite ?Hid, ?Hfind.
Qed.

Lemma saved_order_rep_shown_witness :
  let conn' := fst (orders_new plain_runtime (rep_column_store false) (Some 2%Z)
                      (sample_form None)) in
  exists row v,
    orders conn' = (orders (rep_column_store false) ++ [row])%list
    /\ history_order_of conn' (prod_map_of conn') row = PyNum.Ok v
    /\ ho_sales_rep v = "Staff".
Proof.
  cbv zeta.
  set (conn' := fst (orders_new plain_runtime (rep_column_store false) (Some 2%Z)
                       (sample_form None))).
  set (row := List.last (orders conn') overridden_order).
  destruct (history_order_of conn' (prod_map_of conn') row) as [v|e] eqn:E.
  - exists row, v. split; [vm_compute; reflexivity|]. split; [exact E|].
    apply (saved_order_rep_shown plain_runtime (rep_column_store false) (Some 2%Z)
             (sample_form None)
             {| u_id := 2; u_username := "staff"; u_role := "rep";
                u_full_name := Some "Staff" |}
             row (prod_map_of conn') v).
    + vm_compute. reflexivity.
    + vm_compute. reflexivity.
    + eexists. vm_compute. reflexivity.
    + vm_compute. reflexivity.
    + exact E.
  - exfalso. vm_compute in E. discriminate.
Defined.

(** * The supplier merge script *)

Section Merge.
Import FixSuppliers.

Lemma find_filter_kept {A} (f p : A -> bool) (l : list A) (x : A) :
  List.find f l = Some x -> p x = true -> List.find f (List.filter p l) = Some x.
Proof.
  induction l as [|y l IH]; cbn; [done|].
  destruct (f y) eqn:Hf.
  - intros [= ->] Hp. rewrite Hp. cbn. by rewrite Hf.
  - intros Hx Hp. destruct (p y); [cbn; rewrite Hf|]; by apply IH.
Qed.

Lemma relink_not_bad good_id bad_id p :
  good_id <> bad_id -> p_supplier_id (relink good_id bad_id p) <> Some bad_id.
Proof.
  intros Hne. unfold relink. destruct (bool_decide _) eqn:Hb; cbn.
  - congruence.
  - by apply bool_decide_eq_false in Hb.
Qed.

Lemma map_rename_ids good_name bad_id rows :
  map s_id (map (rename good_name bad_id) rows) = map s_id rows.
Proof.
  rewrite List.map_map. apply List.map_ext. intros row. unfold rename.
  by destruct (s_id row =? bad_id)%Z.
Qed.

Lemma relink_refused_flag conn good_id bad_id :
  relink_refused conn good_id bad_id = true -> product_name_unique conn = true.
Proof. unfold relink_refused. by intros [? _]%andb_prop. Qed.

Lemma merge_one_flag conn good_name bad_name :
  match merge_one conn good_name bad_name with
  | Some (conn', _) => product_name_unique conn' = product_name_unique conn
  | None => product_name_unique conn = true
  end.
Proof.
  unfold merge_one.
  destruct (find_supplier_by_normalized conn bad_name) as [bad|]; [|done].
  destruct (find_supplier_by_normalized conn good_name) as [good|]; [|done].
  destruct (s_id good =? s_id bad)%Z; [done|].
  destruct (relink_refused _ _ _) eqn:Href; [|done].
  by apply relink_refused_flag in Href.
Qed.

(** X27: [merge_one] keeps the products attached: when every product of
    the store belongs to a stored supplier, so it is after a call that
    returns, whichever of its branches is taken, and no product is added
    or removed; a call raises only on a store with the constraint
    [UNIQUE(supplier_id, name)]. *)
Theorem merge_one_keeps_products_attached conn good_name bad_name :
  attached conn ->
  match merge_one conn good_name bad_name with
  | Some (conn', _) =>
      attached conn' /\ map p_id (products conn') = map p_id (products conn)
  | None => product_name_unique conn = true
  end.
Proof.
  intros Hatt. unfold merge_one.
  destruct (find_supplier_by_normalized conn bad_name) as [bad|]; [|done].
  destruct (find_supplier_by_normalized conn good_name) as [good|] eqn:Hgood.
  - destruct (Z.eqb_spec (s_id good) (s_id bad)) as [|Hne]; [done|].
    destruct (relink_refused _ _ _) eqn:Href; [by apply relink_refused_flag in Href|].
    split.
    + unfold attached in *. cbn [products suppliers set_products set_suppliers].
      apply Forall_fmap. eapply Forall_impl; [exact Hatt|]. cbn beta.
      intros p Hp sid Hsid.
      assert (Hkeep : forall r, In r (suppliers conn) -> s_id r <> s_id bad ->
                                In (s_id r) (map s_id
                                   (List.filter (fun row => negb (s_id row =? s_id bad)%Z)
                                      (suppliers conn)))).
      { intros r Hr Hid. apply List.in_map, List.filter_In. split; [done|].
        by apply negb_true_iff, Z.eqb_neq. }
      unfold compose, relink in Hsid. destruct (bool_decide _) eqn:Hb; cbn in Hsid.
      * injection Hsid as <-. apply find_some_in in Hgood as [Hin _]. by apply Hkeep.
      * apply bool_decide_eq_false in Hb.
        specialize (Hp sid Hsid). apply List.in_map_iff in Hp as (r & <- & Hr).
        apply Hkeep; [done|]. congruence.
    + cbn [products set_products set_suppliers]. rewrite List.map_map.
      apply List.map_ext. intros p. unfold relink. by destruct (bool_decide _).
  - split; [|done]. unfold attached in *. cbn [products suppliers set_suppliers].
    by rewrite map_rename_ids.
Qed.

Lemma merge_one_keeps_products_attached_witness :
  match merge_one variant_store "Haco Industries Ltd" "haco  industries" with
  | Some (conn', _) =>
      attached conn' /\ map p_id (products conn') = map p_id (products variant_store)
  | None => product_name_unique variant_store = true
  end.
Proof.
  apply (merge_one_keeps_products_attached variant_store).
  unfold attached. cbn [products variant_store].
  apply List.Forall_cons; [|apply List.Forall_cons; [|apply List.Forall_nil]];
    intros sid [= <-]; cbn; tauto.
Defined.

Lemma products_of_relink good_id bad_id sid conn q :
  good_id <> bad_id ->
  products_of (set_products conn (map (relink good_id bad_id) (products conn)) q) sid
  = if decide (sid = bad_id) then 0
    else if decide (sid = good_id)
         then products_of conn good_id + products_of conn bad_id
         else products_of conn sid.
Proof.
  intros Hne. unfold products_of. cbn [products set_products].
  induction (products conn) as [|p ps IH]; cbn [map List.filter].
  { by repeat case_decide. }
  unfold relink at 1.
  repeat case_bool_decide; cbn [p_supplier_id List.length] in *;
    repeat case_decide; simplify_eq; cbn [List.length] in *; try lia; congruence.
Qed.

(** X28: what a merge moves, when the canonical and the variant name
    resolve to two suppliers.  On a store with the constraint
    [UNIQUE(supplier_id, name)] in which a product of the variant has the
    name of a product of the canonical supplier, the UPDATE is refused and
    [merge_one] raises.  Otherwise [merge_one] returns: it reports the
    number of products of the variant as moved, the variant row is gone
    and the canonical one stays, no product belongs to the variant any
    more, the canonical supplier has the products of both, and every other
    supplier has the products it had. *)
Theorem merge_one_moves_products conn good_name bad_name good bad :
  find_supplier_by_normalized conn good_name = Some good ->
  find_supplier_by_normalized conn bad_name = Some bad ->
  s_id good <> s_id bad ->
  if relink_refused conn (s_id good) (s_id bad)
  then merge_one conn good_name bad_name = None
  else
    exists conn',
      merge_one conn good_name bad_name
      = Some (conn',
              {| bad_found := true; moved := Z.of_nat (products_of conn (s_id bad));
                 deleted := true; renamed := false |})
      /\ ~ In (s_id bad) (map s_id (suppliers conn'))
      /\ In good (suppliers conn')
      /\ products_of conn' (s_id bad) = 0
      /\ products_of conn' (s_id good)
         = products_of conn (s_id good) + products_of conn (s_id bad)
      /\ (forall sid, sid <> s_id good -> sid <> s_id bad ->
                      products_of conn' sid = products_of conn sid).
Proof.
  intros Hgood Hbad Hne. unfold merge_one. rewrite Hbad, Hgood.
  destruct (Z.eqb_spec (s_id good) (s_id bad)) as [|_]; [done|].
  destruct (relink_refused _ _ _); [done|].
  eexists. split; [reflexivity|].
  assert (Hcount : forall sid,
             products_of
               (set_suppliers
                  (set_products conn (map (relink (s_id good) (s_id bad)) (products conn))
                     (products_seq conn))
                  (List.filter (fun row => negb (s_id row =? s_id bad)%Z) (suppliers conn))
                  (suppliers_seq conn)) sid
             = if decide (sid = s_id bad) then 0
               else if decide (sid = s_id good)
                    then products_of conn (s_id good) + products_of conn (s_id bad)
                    else products_of conn sid).
  { intros sid. by rewrite <- (products_of_relink _ _ sid conn (products_seq conn) Hne). }
  split_and!.
  - cbn [suppliers set_suppliers]. intros (r & Hr & [_ Hf]%List.filter_In)%List.in_map_iff.
    apply negb_true_iff, Z.eqb_neq in Hf. done.
  - cbn [suppliers set_suppliers]. apply List.filter_In.
    apply find_some_in in Hgood as [Hin _]. split; [done|].
    by apply negb_true_iff, Z.eqb_neq.
  - rewrite Hcount. by case_decide.
  - rewrite Hcount. by repeat case_decide.
  - intros sid H1 H2. rewrite Hcount. by repeat case_decide.
Qed.

Lemma merge_one_moves_products_witness :
  (exists conn',
      merge_one variant_store "Haco Industries Ltd" "haco  industries"
      = Some (conn',
              {| bad_found := true; moved := 1; deleted := true; renamed := false |})
      /\ map s_id (suppliers conn') = [2%Z]
      /\ products_of conn' 2 = 2)
  /\ merge_one clashing_store "Haco Industries Ltd" "haco  industries" = None.
Proof.
  split.
  - pose proof (merge_one_moves_products variant_store
                  "Haco Industries Ltd" "haco  industries"
                  {| s_id := 2; s_name := "Haco Industries Ltd" |}
                  {| s_id := 1; s_name := "Haco Industries" |}) as H.
    assert (Href : relink_refused variant_store 2 1 = false) by (vm_compute; reflexivity).
    cbn [s_id] in H. rewrite Href in H.
    destruct H as (conn' & Hres & Hgone & Hkept & _ & Hgood & _).
    + vm_compute. reflexivity.
    + vm_compute. reflexivity.
    + done.
    + exists conn'. split; [exact Hres|]. split; [|exact Hgood].
      assert (Hsome : Some conn'
                      = fst <$> merge_one variant_store
                                  "Haco Industries Ltd" "haco  industries")
        by (by rewrite Hres).
      vm_compute in Hsome. injection Hsome as ->. reflexivity.
  - pose proof (merge_one_moves_products clashing_store
                  "Haco Industries Ltd" "haco  industries"
                  {| s_id := 2; s_name := "Haco Industries Ltd" |}
                  {| s_id := 1; s_name := "Haco Industries" |}) as H.
    assert (Href : relink_refused clashing_store 2 1 = true) by (vm_compute; reflexivity).
    cbn [s_id] in H. rewrite Href in H. apply H.
    + vm_compute. reflexivity.
    + vm_compute. reflexivity.
    + done.
Defined.

Lemma ensure_good_supplier_found conn good_name :
  exists g,
    find_supplier_by_normalized (snd (ensure_good_supplier conn good_name)) good_name
    = Some g.
Proof.
  unfold ensure_good_supplier.
  destruct (find_supplier_by_normalized conn good_name) as [g|] eqn:Hfind; cbn [snd].
  - by exists g.
  - unfold find_supplier_by_normalized in *. cbn [suppliers set_suppliers].
    rewrite find_app_none by done. cbn [s_name]. rewrite String.eqb_refl. by eexists.
Qed.

Lemma ensure_good_supplier_flag conn good_name :
  product_name_unique (snd (ensure_good_supplier conn good_name))
  = product_name_unique conn.
Proof.
  unfold ensure_good_supplier. by destruct (find_supplier_by_normalized _ _).
Qed.

Lemma merge_one_found_good conn good_name bad_name g conn' res :
  find_supplier_by_normalized conn good_name = Some g ->
  merge_one conn good_name bad_name = Some (conn', res) ->
  find_supplier_by_normalized conn' good_name = Some g /\ renamed res = false.
Proof.
  intros Hg. unfold merge_one.
  destruct (find_supplier_by_normalized conn bad_name) as [bad|];
    [|by intros [= <- <-]].
  rewrite Hg. destruct (Z.eqb_spec (s_id g) (s_id bad)) as [|Hne];
    [by intros [= <- <-]|].
  destruct (relink_refused _ _ _); [done|]. intros [= <- <-].
  cbn [renamed]. split; [|done].
  unfold find_supplier_by_normalized in *. cbn [suppliers set_suppliers set_products].
  apply find_filter_kept; [done|]. by apply negb_true_iff, Z.eqb_neq.
Qed.

Lemma merge_variants_never_rename good_name g bad_variants conn results :
  find_supplier_by_normalized conn good_name = Some g ->
  Forall (fun r => renamed r = false) results ->
  match merge_variants conn good_name bad_variants results with
  | Some (conn', results') =>
      Forall (fun r => renamed r = false) results'
      /\ find_supplier_by_normalized conn' good_name = Some g
      /\ List.length results' = List.length results + List.length bad_variants
  | None => product_name_unique conn = true
  end.
Proof.
  revert conn results.
  induction bad_variants as [|bad rest IH]; intros conn results Hfound Hres;
    cbn [merge_variants List.length].
  { split_and!; [done | done | lia]. }
  pose proof (merge_one_flag conn good_name bad) as Hflag.
  destruct (merge_one conn good_name bad) as [[conn1 res]|] eqn:Hone; [|done].
  destruct (merge_one_found_good conn good_name bad g conn1 res Hfound Hone)
    as [Hfound' Hren].
  specialize (IH conn1 (results ++ [res])%list Hfound').
  destruct (merge_variants conn1 good_name rest _) as [[conn' results']|].
  - destruct IH as (H1 & H2 & H3).
    { apply Forall_app. split; [done|]. by constructor. }
    split_and!; [done | done |]. rewrite H3, length_app. cbn [List.length]. lia.
  - rewrite <- Hflag. apply IH. apply Forall_app. split; [done|]. by constructor.
Qed.

(** X29: in the loop of [main] the rename branch of [merge_one] is never
    taken: [ensure_good_supplier] has stored the canonical supplier before
    the variants are merged, so every result of an entry whose calls
    return reports [renamed] as false, there is one result per variant,
    and the canonical supplier found at the start is the one found at the
    end; a call raises only on a store with the constraint
    [UNIQUE(supplier_id, name)]. *)
Theorem merge_entry_never_renames conn good bad_variants :
  let good_name := PyStr.strip (collapse good) in
  let start := snd (ensure_good_supplier conn good_name) in
  match merge_entry conn good bad_variants with
  | Some (conn', results) =>
      Forall (fun r => renamed r = false) results
      /\ find_supplier_by_normalized conn' good_name
         = find_supplier_by_normalized start good_name
      /\ List.length results = List.length bad_variants
  | None => product_name_unique conn = true
  end.
Proof.
  cbn zeta. unfold merge_entry.
  set (good_name := PyStr.strip (collapse good)).
  destruct (ensure_good_supplier_found conn good_name) as [g Hg].
  pose proof (ensure_good_supplier_flag conn good_name) as Hflag.
  set (start := snd (ensure_good_supplier conn good_name)) in *.
  pose proof (merge_variants_never_rename good_name g bad_variants start [] Hg
                (List.Forall_nil _)) as H.
  destruct (merge_variants start good_name bad_variants []) as [[conn' results]|].
  - destruct H as (H1 & H2 & H3). rewrite Hg. by split_and!.
  - by rewrite <- Hflag.
Qed.
End Merge.

(** * Targets and actuals *)

Lemma same_key_spec owner month year r :
  same_key owner month year r = true
  <-> (tr_owner r, tr_month r, tr_year r) = (owner, month, year).
Proof.
  unfold same_key. rewrite !andb_true_iff, !Z.eqb_eq. split.
  - by intros [[-> ->] ->].
  - by intros [= -> -> ->].
Qed.

Lemma upsert_value_spec burn t owner month year v :
  unique_targets t ->
  let t' := upsert_value burn t owner month year v in
  unique_targets t'
  /\ (exists row, In row (tt_rows t') /\ same_key owner month year row = true
                  /\ tr_value row = v)
  /\ (forall row, In row (tt_rows t') -> same_key owner month year row = true ->
                  tr_value row = v)
  /\ List.filter (fun r => negb (same_key owner month year r)) (tt_rows t')
     = List.filter (fun r => negb (same_key owner month year r)) (tt_rows t).
Proof.
  intros Hu. cbn zeta. unfold upsert_value.
  destruct (existsb _ (tt_rows t)) eqn:Hex; cbn [tt_rows].
  - set (f := fun r => if same_key owner month year r then with_value v r else r).
    assert (Hk : forall r, same_key owner month year (f r) = same_key owner month year r).
    { intros r. unfold f. by destruct (same_key owner month year r) eqn:E. }
    split_and!.
    + unfold unique_targets in *. cbn [tt_rows]. rewrite List.map_map.
      erewrite List.map_ext; [exact Hu|]. intros r. unfold f.
      by destruct (same_key owner month year r).
    + apply List.existsb_exists in Hex as (r & Hin & Hr). exists (f r).
      split_and!; [by apply List.in_map | by rewrite Hk |]. unfold f. by rewrite Hr.
    + intros row (r & <- & Hin)%List.in_map_iff. rewrite Hk. unfold f. by intros ->.
    + clear Hex Hu. induction (tt_rows t) as [|r rows IH]; [done|].
      cbn [map List.filter]. rewrite Hk, IH. destruct (same_key owner month year r) eqn:E; cbn [negb]; [done|].
      unfold f. by rewrite E.
  - set (new := {| tr_id := _; tr_owner := owner |}).
    assert (Hnew : same_key owner month year new = true) by (by apply same_key_spec).
    assert (Hnone : forall r, In r (tt_rows t) -> same_key owner month year r = false).
    { intros r Hin. apply not_true_iff_false. intros Hr.
      assert (existsb (same_key owner month year) (tt_rows t) = true)
        by (apply List.existsb_exists; eauto).
      congruence. }
    split_and!.
    + unfold unique_targets in *. cbn [tt_rows]. rewrite List.map_app. apply NoDup_app.
      split_and!; [done | | apply NoDup_singleton].
      intros k Hk [->|[]%elem_of_nil]%elem_of_cons.
      apply list_elem_of_In, List.in_map_iff in Hk as (r & Hr & Hin).
      assert (Hs : same_key owner month year r = true) by (apply same_key_spec; exact Hr).
      rewrite (Hnone r Hin) in Hs. discriminate.
    + exists new. split_and!; [apply List.in_or_app; right; by left | done | done].
    + intros row [Hin|[<-|[]]]%List.in_app_or Hrow; [|done].
      rewrite (Hnone row Hin) in Hrow. discriminate.
    + rewrite List.filter_app. cbn [List.filter]. rewrite Hnew. cbn [negb].
      by rewrite app_nil_r.
Qed.

(** X30: a target or an actual is saved per owner, month and year, and
    the last value wins.  Each of the four views either rejects the form,
    answers with one of its two error messages or fails, and leaves its
    table as it is, or accepts it and answers with its success message:
    then owner, month and year are the numbers of the form, with a
    positive owner, a month from 1 to 12 and a year from 2000, a row of
    that key holds the value of the form, no row of that key holds another
    value, the rows of the other keys are as they were, and a table
    without two rows of one key stays so. *)
Theorem save_value_last_write_wins invalid provide saved_message rt burn t form :
  unique_targets t ->
  let r := save_value invalid provide saved_message rt burn t form in
  unique_targets (fst r)
  /\ (fst r = t
      /\ (snd r = Redirect "targets" "error" invalid
          \/ snd r = Redirect "targets" "error" provide
          \/ snd r = ServerError)
      \/ exists owner month year v,
          snd r = Redirect "targets" "success" saved_message
          /\ int_or_zero rt (tf_owner form) = Some owner
          /\ int_or_zero rt (tf_month form) = Some month
          /\ int_or_zero rt (tf_year form) = Some year
          /\ float_or_zero rt (or_empty (tf_value form)) = Some v
          /\ (0 < owner /\ 1 <= month <= 12 /\ 2000 <= year)%Z
          /\ (exists row, In row (tt_rows (fst r))
                          /\ same_key owner month year row = true /\ tr_value row = v)
          /\ (forall row, In row (tt_rows (fst r)) ->
                          same_key owner month year row = true -> tr_value row = v)
          /\ List.filter (fun r => negb (same_key owner month year r)) (tt_rows (fst r))
             = List.filter (fun r => negb (same_key owner month year r)) (tt_rows t)).
Proof.
  intros Hu. cbn zeta. unfold save_value.
  destruct (int_or_zero rt (tf_owner form)) as [owner|]; [|by split; [|left; auto]].
  destruct (int_or_zero rt (tf_month form)) as [month|]; [|by split; [|left; auto]].
  destruct (int_or_zero rt (tf_year form)) as [year|]; [|by split; [|left; auto]].
  destruct (float_or_zero rt _) as [value|]; [|by split; [|left; auto]].
  destruct (negb _) eqn:Hvalid; [by split; [|left; auto]|].
  apply negb_false_iff in Hvalid.
  destruct (negb _); [by split; [|left; auto]|].
  destruct (Sql.real value) as [v|] eqn:Hreal; [|by split; [|left; auto]].
  assert (v = value) as -> by (destruct value; cbn in Hreal; congruence).
  cbn [fst snd].
  destruct (upsert_value_spec burn t owner month year value Hu) as (H1 & H2 & H3 & H4).
  split; [done|]. right. exists owner, month, year, value.
  apply andb_prop in Hvalid as [Hvalid Hy%Z.leb_le].
  apply andb_prop in Hvalid as [Hvalid Hm2%Z.leb_le].
  apply andb_prop in Hvalid as [Ho%Z.ltb_lt Hm1%Z.leb_le].
  by split_and!.
Qed.

Lemma save_value_last_write_wins_witness :
  let r := save_value "Invalid input for rep target."
             "Provide valid rep_id, month (1-12), and year." "Rep target saved."
             plain_runtime false sample_targets (target_form_of "2" "11" "2026" "75000") in
  unique_targets (fst r)
  /\ snd r = Redirect "targets" "success" "Rep target saved."
  /\ map tr_value (tt_rows (fst r)) = [float_of_Z 75000].
Proof.
  cbv zeta. split; [|split; vm_compute; reflexivity].
  apply (save_value_last_write_wins "Invalid input for rep target."
           "Provide valid rep_id, month (1-12), and year." "Rep target saved."
           plain_runtime false sample_targets (target_form_of "2" "11" "2026" "75000")).
  unfold unique_targets. apply (bool_decide_unpack _). vm_compute. exact I.
Defined.

(** * The reconciled shape *)

(** X26: a run of [ensure_schema] that succeeds ends in the reconciled
    shape: the tables that the views use exist, [products] and [orders]
    have the columns that the views read and write, the unique indexes of
    the two target tables exist, and the accounts admin and staff are
    stored, whatever shape the store had before. *)
Theorem ensure_schema_reaches_reconciled_shape sd conn conn' :
  Schema.ensure_schema sd conn = Some conn' -> reconciled conn'.
Proof. by intros [_ H]%ensure_schema_reconciles. Qed.

Lemma ensure_schema_reaches_reconciled_shape_witness :
  exists conn',
    Schema.ensure_schema sample_seeds empty_db = Some conn' /\ reconciled conn'.
Proof.
  destruct (Schema.ensure_schema sample_seeds empty_db) as [conn'|] eqn:E.
  - exists conn'. split; [reflexivity|].
    exact (ensure_schema_reaches_reconciled_shape sample_seeds empty_db conn' E).
  - exfalso. vm_compute in E. discriminate.
Defined.

(** * From a saved order to the history *)

Section SmallInts.

Lemma digits2_pos_iter p d :
  digits2_pos (Pos.iter xO p d) = (digits2_pos p + d)%positive.
Proof.
  induction d as [|d IH] using Pos.peano_ind.
  - cbn. lia.
  - rewrite Pos.iter_succ. cbn [digits2_pos]. rewrite IH. lia.
Qed.

Lemma iter_xO_value p d : Zpos (Pos.iter xO p d) = (Zpos p * 2 ^ Zpos d)%Z.
Proof.
  induction d as [|d IH] using Pos.peano_ind.
  - cbn. lia.
  - rewrite Pos.iter_succ, Pos2Z.inj_succ, Z.pow_succ_r by lia.
    change (Zpos (Pos.iter xO p d)~0) with (2 * Zpos (Pos.iter xO p d))%Z. lia.
Qed.

Lemma digits2_pos_bound p : (2 ^ (Zpos (digits2_pos p) - 1) <= Zpos p)%Z.
Proof.
  induction p as [p IH|p IH|]; cbn [digits2_pos]; [| |done].
  - rewrite Pos2Z.inj_succ.
    replace (Z.succ (Zpos (digits2_pos p)) - 1)%Z with (Z.succ (Zpos (digits2_pos p) - 1))%Z by lia.
    rewrite Z.pow_succ_r by lia. lia.
  - rewrite Pos2Z.inj_succ.
    replace (Z.succ (Zpos (digits2_pos p)) - 1)%Z with (Z.succ (Zpos (digits2_pos p) - 1))%Z by lia.
    rewrite Z.pow_succ_r by lia. lia.
Qed.

(** A mantissa that is canonical for its exponent rounds to itself. *)
Lemma binary_round_aux_canonical s m e :
  fexp PyNum.prec PyNum.emax (Zpos (digits2_pos m) + e) = e ->
  (e <= PyNum.emax - PyNum.prec)%Z ->
  binary_round_aux PyNum.prec PyNum.emax s (Zpos m) e loc_Exact = S754_finite s m e.
Proof.
  intros Hc He. unfold binary_round_aux, shr_fexp, Zdigits2.
  rewrite Hc, Z.sub_diag. cbn [shr shr_record_of_loc shr_m loc_of_shr_record round_nearest_even].
  rewrite Hc, Z.sub_diag. cbn [shr shr_record_of_loc shr_m].
  by apply Z.leb_le in He as ->.
Qed.

(** [int(float(q))] is [q] for a positive [q] below 2^53. *)
Lemma of_int_small q :
  (0 < q < 2 ^ 53)%Z ->
  exists x, PyNum.of_int q = PyNum.Ok x /\ PyNum.to_int x = PyNum.Ok q.
Proof.
  intros [Hpos Hlt]. destruct q as [|p|p]; try lia.
  pose proof (digits2_pos_bound p) as Hd.
  assert (HL : (Zpos (digits2_pos p) <= 53)%Z).
  { destruct (Z.le_gt_cases (Zpos (digits2_pos p)) 53) as [|Hgt]; [done|]. exfalso.
    assert (2 ^ 53 <= 2 ^ (Zpos (digits2_pos p) - 1))%Z by (apply Z.pow_le_mono_r; lia).
    lia. }
  unfold PyNum.of_int, binary_normalize, binary_round, shl_align.
  assert (Hf : fexp PyNum.prec PyNum.emax (Zpos (digits2_pos p) + 0)
               = (Zpos (digits2_pos p) - 53)%Z).
  { unfold fexp, emin, PyNum.prec, PyNum.emax. lia. }
  rewrite Hf.
  destruct (Zpos (digits2_pos p) - 53 - 0)%Z as [|d|d] eqn:E; try lia.
  - rewrite binary_round_aux_canonical.
    + eexists. split; [done|]. cbn. done.
    + rewrite Hf. lia.
    + unfold PyNum.prec, PyNum.emax. lia.
  - rewrite binary_round_aux_canonical.
    + eexists. split; [done|]. unfold PyNum.to_int.
      assert (He : (Zpos (digits2_pos p) - 53)%Z = Zneg d) by lia. rewrite He.
      rewrite iter_xO_value, Z.shiftr_div_pow2, Z.div_mul by lia. done.
    + rewrite digits2_pos_iter. unfold fexp, emin, PyNum.prec, PyNum.emax. lia.
    + unfold PyNum.prec, PyNum.emax. lia.
Qed.

End SmallInts.

Lemma history_item_of_small pm l :
  valid_line l -> (l_qty l < 2 ^ 53)%Z ->
  exists hi, history_item_of pm (raw_of_line l) = PyNum.Ok hi /\ hi_qty hi = l_qty l.
Proof.
  intros [_ Hq] Hlt. unfold history_item_of, int_float, amount_or.
  cbn [raw_of_line r_qty r_amount r_unit_price r_product_id r_desc].
  destruct (of_int_small (l_qty l)) as (x & Hx & Hback); [done|].
  rewrite Hx. cbn [res_bind]. rewrite Hback. cbn [res_bind].
  destruct (PyNum.truthy (l_amount l)); cbn [res_bind]; [by eexists|].
  rewrite Hx. cbn [res_bind]. by eexists.
Qed.

Lemma history_items_small pm lines total :
  Forall valid_line lines -> Forall (fun l => (l_qty l < 2 ^ 53)%Z) lines ->
  exists its t,
    history_items pm (map raw_of_line lines) total = PyNum.Ok (its, t)
    /\ map hi_qty its = map l_qty lines.
Proof.
  revert total. induction lines as [|l lines IH]; intros total Hv Hs; cbn [map history_items].
  { by exists [], total. }
  apply Forall_cons in Hv as [Hl Hv]. apply Forall_cons in Hs as [Hsl Hs].
  destruct (history_item_of_small pm l Hl Hsl) as (hi & -> & Hq). cbn [res_bind].
  destruct (IH (PyNum.add total (hi_amount hi)) Hv Hs) as (its & t & -> & Hqs).
  cbn [res_bind fst snd]. exists (hi :: its), t. split; [done|]. cbn [map]. by rewrite Hq, Hqs.
Qed.

(** X20: a saved order can be shown.  For an order that [orders_new] has
    saved and whose stored quantities are below 2^53, the history
    converts the row without raising and shows it under its id and order
    number with one item per stored line, each with the quantity that was
    stored. *)
Theorem saved_order_shown_in_history rt conn uid form row lines :
  saved (orders_new rt conn uid form) ->
  let conn' := fst (orders_new rt conn uid form) in
  orders conn' = (orders conn ++ [row])%list ->
  o_line_items row = Some lines ->
  Forall (fun l => (l_qty l < 2 ^ 53)%Z) lines ->
  exists v,
    history_order_of conn' (prod_map_of conn') row = PyNum.Ok v
    /\ ho_id v = o_id row
    /\ ho_order_no v = o_order_no row
    /\ map hi_qty (ho_items v) = map l_qty lines.
Proof.
  intros [msg Hs]. cbn zeta.
  destruct (orders_new rt conn uid form) as [conn' resp] eqn:E.
  cbn [snd] in Hs. subst resp. cbn [fst].
  apply orders_new_inv, orders_new_post_row in E
    as (needed & first & rest & row' & _ & Hlines & -> & _ & _ & _ & _ & Hitems & _).
  cbn [orders set_orders]. intros [_ <-]%app_inj_tail. rewrite Hitems.
  intros [= <-] Hsmall. apply parse_lines_valid in Hlines.
  unfold history_order_of, items_raw_of. rewrite Hitems. cbn [res_bind].
  destruct (history_items_small
              (prod_map_of
                 (set_orders conn (orders conn ++ [row'])
                    (Sql.next_rowid (map o_id (orders conn)) (orders_seq conn))))
              (first :: rest) PyNum.zero Hlines Hsmall) as (its & t & -> & Hq).
  cbn [res_bind]. eexists. split; [reflexivity|]. by cbn.
Qed.

Lemma saved_order_shown_in_history_witness :
  let conn' := fst (orders_new plain_runtime sample_store (Some 2%Z) (sample_form None)) in
  let row := List.last (orders conn') overridden_order in
  exists v,
    history_order_of conn' (prod_map_of conn') row = PyNum.Ok v
    /\ ho_id v = o_id row
    /\ ho_order_no v = o_order_no row
    /\ map hi_qty (ho_items v) = map l_qty (default [] (o_line_items row)).
Proof.
  cbv zeta.
  apply (saved_order_shown_in_history plain_runtime sample_store (Some 2%Z) (sample_form None)
           (List.last
              (orders (fst (orders_new plain_runtime sample_store (Some 2%Z)
                              (sample_form None))))
              overridden_order)
           (default []
              (o_line_items
                 (List.last
                    (orders (fst (orders_new plain_runtime sample_store (Some 2%Z)
                                    (sample_form None))))
                    overridden_order)))).
  - eexists. vm_compute. reflexivity.
  - vm_compute. reflexivity.
  - vm_compute. reflexivity.
  - match goal with
    | |- Forall _ ?e =>
        let v := eval vm_compute in e in
        assert (H : e = v) by (vm_compute; reflexivity); rewrite H
    end.
    apply List.Forall_cons; [vm_compute; reflexivity|].
    apply List.Forall_cons; [vm_compute; reflexivity|]. apply List.Forall_nil.
Defined.
